(** * Medi_Care backend: client controllers and client model

    A shallow embedding of [backend/src/controllers/client.controllers.js]
    and [backend/src/models/client.model.js].

    The handlers are written in a small state-and-failure monad over the
    [World] (the client collection and the notification outbox).  What the
    code delegates to libraries (bcrypt, jsonwebtoken's HMAC encoding, the
    blob store) is an interface, [Libs]; what it draws from the environment
    (the clock, the random OTP digit draw, the bcrypt salts) is an explicit
    input, [Inputs].

    A [string] holds the UTF-8 encoding of the JavaScript string it stands
    for, byte by byte. *)

From Stdlib Require Import ZArith List String Ascii Bool Lia DecimalString.
From Stdlib Require Import Permutation Sorted DecimalFacts DecimalPos.
Import ListNotations.

Local Open Scope string_scope.
Local Open Scope Z_scope.

(** ** JavaScript values *)

(** A schema path that is not required holds a value, [null], or nothing at
    all ([undefined], which mongoose persists by unsetting the path). *)
Inductive Field (A : Type) : Type :=
| Unset
| Null
| Val (a : A).
Arguments Unset {A}.
Arguments Null {A}.
Arguments Val {A} a.

(** The scalar values a serialised client document holds.  A date is
    written as its epoch milliseconds. *)
Inductive Json : Type :=
| JNull
| JBool (b : bool)
| JNum (z : Z)
| JStr (s : string).

(** A serialised document: its paths in schema order. *)
Definition Doc := list (string * Json).

(** [!x] for a string that may be missing: [undefined] and the empty string
    are falsy. *)
Definition truthy (o : option string) : bool :=
  match o with
  | Some s => negb (String.eqb s "")
  | None => false
  end.

(** [a || b] on two optional strings. *)
Definition js_or (a b : option string) : option string :=
  if truthy a then a else b.

(** The white space [String.prototype.trim] strips (WhiteSpace and
    LineTerminator of ECMAScript): U+0009 to U+000D and U+0020, one byte
    each; U+00A0, two bytes; U+1680, U+2000 to U+200A, U+2028, U+2029,
    U+202F, U+205F, U+3000 and U+FEFF, three bytes each. *)
Definition is_space (c : ascii) : bool :=
  let n := nat_of_ascii c in
  (Nat.eqb n 32 || (Nat.leb 9 n && Nat.leb n 13))%bool.

Definition is_space2 (a b : ascii) : bool :=
  (Nat.eqb (nat_of_ascii a) 194 && Nat.eqb (nat_of_ascii b) 160)%bool.

Definition is_space3 (a b c : ascii) : bool :=
  let x := nat_of_ascii a in
  let y := nat_of_ascii b in
  let z := nat_of_ascii c in
  ((Nat.eqb x 225 && Nat.eqb y 154 && Nat.eqb z 128)
   || (Nat.eqb x 226 && Nat.eqb y 128
       && ((Nat.leb 128 z && Nat.leb z 138)
           || Nat.eqb z 168 || Nat.eqb z 169 || Nat.eqb z 175))
   || (Nat.eqb x 226 && Nat.eqb y 129 && Nat.eqb z 159)
   || (Nat.eqb x 227 && Nat.eqb y 128 && Nat.eqb z 128)
   || (Nat.eqb x 239 && Nat.eqb y 187 && Nat.eqb z 191))%bool.

(** Strip the white space a string starts with. *)
Fixpoint trim_left (s : string) : string :=
  match s with
  | String a s1 =>
      if is_space a then trim_left s1
      else
        match s1 with
        | String b s2 =>
            if is_space2 a b then trim_left s2
            else
              match s2 with
              | String c s3 => if is_space3 a b c then trim_left s3 else s
              | EmptyString => s
              end
        | EmptyString => s
        end
  | EmptyString => EmptyString
  end.

(** The same on a reversed string, whose characters read last byte first. *)
Fixpoint trim_left_reversed (s : string) : string :=
  match s with
  | String c s1 =>
      if is_space c then trim_left_reversed s1
      else
        match s1 with
        | String b s2 =>
            if is_space2 b c then trim_left_reversed s2
            else
              match s2 with
              | String a s3 =>
                  if is_space3 a b c then trim_left_reversed s3 else s
              | EmptyString => s
              end
        | EmptyString => s
        end
  | EmptyString => EmptyString
  end.

Fixpoint rev_string (acc s : string) : string :=
  match s with
  | String c s' => rev_string (String c acc) s'
  | EmptyString => acc
  end.

(** [String.prototype.trim]. *)
Definition trim (s : string) : string :=
  rev_string "" (trim_left_reversed (rev_string "" (trim_left s))).

(** [Number.prototype.toString] on an integer. *)
Definition toString (z : Z) : string :=
  NilZero.string_of_int (Z.to_int z).

(** A JavaScript number as far as [Math.ceil (a / b)] on integers can
    produce one. *)
Inductive JsNum : Type :=
| Fin (z : Z)
| Infinity
| NaN.

(** [Math.ceil (a / b)] for integers [a >= 0] and [b]. *)
Definition ceil_div (a b : Z) : JsNum :=
  if b =? 0 then (if a =? 0 then NaN else Infinity)
  else Fin (- ((- a) / b)).

(** [n < m] where [n] is an integer. *)
Definition js_lt (n : Z) (m : JsNum) : bool :=
  match m with
  | Fin z => n <? z
  | Infinity => true
  | NaN => false
  end.

(** ** The client model ([client.model.js]) *)

Definition ObjectId := nat.

Record Client : Type := mkClient {
  _id : ObjectId;
  name : string;
  email : string;
  age : Z;
  gender : string;
  password : string;
  phone : string;
  avatar : string;
  verified : bool;
  refreshToken : Field string;
  verificationToken : Field string;
  tokenVersion : Z;
  otp : Field string;
  otpExpires : Field Z;
  createdAt : Z;
  updatedAt : Z;
  __v : Z
}.

Definition set_password (p : string) (c : Client) : Client :=
  mkClient (_id c) (name c) (email c) (age c) (gender c) p (phone c)
    (avatar c) (verified c) (refreshToken c) (verificationToken c)
    (tokenVersion c) (otp c) (otpExpires c) (createdAt c) (updatedAt c) (__v c).

Definition set_avatar (a : string) (c : Client) : Client :=
  mkClient (_id c) (name c) (email c) (age c) (gender c) (password c) (phone c)
    a (verified c) (refreshToken c) (verificationToken c)
    (tokenVersion c) (otp c) (otpExpires c) (createdAt c) (updatedAt c) (__v c).

Definition set_refreshToken (t : Field string) (c : Client) : Client :=
  mkClient (_id c) (name c) (email c) (age c) (gender c) (password c) (phone c)
    (avatar c) (verified c) t (verificationToken c)
    (tokenVersion c) (otp c) (otpExpires c) (createdAt c) (updatedAt c) (__v c).

Definition set_updatedAt (t : Z) (c : Client) : Client :=
  mkClient (_id c) (name c) (email c) (age c) (gender c) (password c) (phone c)
    (avatar c) (verified c) (refreshToken c) (verificationToken c)
    (tokenVersion c) (otp c) (otpExpires c) (createdAt c) t (__v c).

(** [client.verified = true; client.otp = o; client.otpExpires = e]. *)
Definition set_verification (o : Field string) (e : Field Z) (c : Client) : Client :=
  mkClient (_id c) (name c) (email c) (age c) (gender c) (password c) (phone c)
    (avatar c) true (refreshToken c) (verificationToken c)
    (tokenVersion c) o e (createdAt c) (updatedAt c) (__v c).

(** [Object.assign(client, { name, email, phone, age, gender })]; the schema's
    [trim] setters run on the three strings. *)
Definition assign_profile (n e p : string) (a : Z) (g : string) (c : Client) : Client :=
  mkClient (_id c) (trim n) (trim e) a g (password c) (trim p)
    (avatar c) (verified c) (refreshToken c) (verificationToken c)
    (tokenVersion c) (otp c) (otpExpires c) (createdAt c) (updatedAt c) (__v c).

(** The document as it is serialised in a response: an unset path is left
    out, a [null] one is written as [null]. *)
Definition json_field {A} (k : string) (inj : A -> Json) (f : Field A)
  : Doc :=
  match f with
  | Unset => []
  | Null => [(k, JNull)]
  | Val a => [(k, inj a)]
  end.

Definition toJSON (c : Client) : Doc :=
  ([("_id", JNum (Z.of_nat (_id c)));
   ("name", JStr (name c));
   ("email", JStr (email c));
   ("age", JNum (age c));
   ("gender", JStr (gender c));
   ("password", JStr (password c));
   ("phone", JStr (phone c));
   ("avatar", JStr (avatar c));
   ("verified", JBool (verified c))]
  ++ json_field "refreshToken" JStr (refreshToken c)
  ++ json_field "verificationToken" JStr (verificationToken c)
  ++ [("tokenVersion", JNum (tokenVersion c))]
  ++ json_field "otp" JStr (otp c)
  ++ json_field "otpExpires" JNum (otpExpires c)
  ++ [("createdAt", JNum (createdAt c));
      ("updatedAt", JNum (updatedAt c));
      ("__v", JNum (__v c))])%list.

(** [.select("-a -b ...")]: the listed paths are left out of the document. *)
Definition select_minus (excl : list string) (o : Doc) : Doc :=
  filter (fun kv => negb (existsb (String.eqb (fst kv)) excl)) o.

Definition has_key (k : string) (o : Doc) : bool :=
  existsb (fun kv => String.eqb (fst kv) k) o.

Definition get_key (k : string) (o : Doc) : option Json :=
  option_map snd (find (fun kv => String.eqb (fst kv) k) o).

(** *** Schema validators *)

Definition is_digit (c : ascii) : bool :=
  let n := nat_of_ascii c in (Nat.leb 48 n && Nat.leb n 57)%bool.

Fixpoint all_digits (s : string) : bool :=
  match s with
  | String c s' => (is_digit c && all_digits s')%bool
  | EmptyString => true
  end.

(** The [match] validator of [phone]: [/^\+?[1-9]\d{1,14}$/]. *)
Definition phone_match (s : string) : bool :=
  let s' := match s with
            | String c r => if Ascii.eqb c "+"%char then r else s
            | EmptyString => s
            end in
  match s' with
  | String c r =>
      (is_digit c && negb (Ascii.eqb c "0"%char) && all_digits r
       && Nat.leb 1 (String.length r) && Nat.leb (String.length r) 14)%bool
  | EmptyString => false
  end.

(** The [enum] validator of [gender]. *)
Definition gender_enum (g : string) : bool :=
  existsb (String.eqb g) ["Male"; "Female"; "Other"].

(** The [required] validator of a string path. *)
Definition required (s : string) : bool := negb (String.eqb s "").

Definition field_eqb {A} (eqb : A -> A -> bool) (x y : Field A) : bool :=
  match x, y with
  | Unset, Unset => true
  | Null, Null => true
  | Val a, Val b => eqb a b
  | _, _ => false
  end.

(** [doc.isModified(path)] for a document loaded as [orig] and now holding
    [cur]: the path was assigned a value that differs from the loaded one.
    Every path of a new document counts as modified. *)
Definition isModified {A} (eqb : A -> A -> bool) (path : Client -> A)
  (orig : option Client) (cur : Client) : bool :=
  match orig with
  | Some o => negb (eqb (path o) (path cur))
  | None => true
  end.

(** Validation before save runs the validators of every path of the
    document, those it was loaded with as well as the modified ones. *)
Definition validate (cur : Client) : bool :=
  (required (name cur)
   && required (email cur)
   && (required (gender cur) && gender_enum (gender cur))
   && required (password cur)
   && (required (phone cur) && phone_match (phone cur)))%bool.

Definition client_eqb (a b : Client) : bool :=
  (Nat.eqb (_id a) (_id b) && String.eqb (name a) (name b)
   && String.eqb (email a) (email b) && Z.eqb (age a) (age b)
   && String.eqb (gender a) (gender b) && String.eqb (password a) (password b)
   && String.eqb (phone a) (phone b) && String.eqb (avatar a) (avatar b)
   && Bool.eqb (verified a) (verified b)
   && field_eqb String.eqb (refreshToken a) (refreshToken b)
   && field_eqb String.eqb (verificationToken a) (verificationToken b)
   && Z.eqb (tokenVersion a) (tokenVersion b)
   && field_eqb String.eqb (otp a) (otp b)
   && field_eqb Z.eqb (otpExpires a) (otpExpires b)
   && Z.eqb (createdAt a) (createdAt b) && Z.eqb (updatedAt a) (updatedAt b)
   && Z.eqb (__v a) (__v b))%bool.

(** ** Libraries, configuration and environment *)

(** What the code passes to [jwt.sign]; a claim it leaves out is [None]. *)
Record Payload : Type := mkPayload {
  p_id : option ObjectId;
  p_email : option string;
  p_userType : option string;
  p_tokenVersion : option Z
}.

(** The claims of a signed token: the payload and the two time stamps
    jsonwebtoken adds to it, in seconds. *)
Record Claims : Type := mkClaims {
  payload : Payload;
  iat : Z;
  exp : Z
}.

Class Libs : Type := {
  (** [bcrypt.hash(s, 10)], with the salt it draws; the hash is a string of
      sixty characters, never the empty one *)
  bcrypt_hash : string -> Z -> string;
  bcrypt_hash_nonempty : forall s salt, bcrypt_hash s salt <> "";
  (** [bcrypt.compare(s, hash)] *)
  bcrypt_compare : string -> string -> bool;
  (** the compact serialisation of the claims, signed with a secret *)
  jwt_encode : Claims -> string -> string;
  (** its inverse, where the signature checks *)
  jwt_decode : string -> string -> option Claims;
  (** [(await uploadToCloud(path)).url] *)
  uploadToCloud : string -> string
}.

(** [process.env]; the two expiry durations in seconds. *)
Record Env : Type := mkEnv {
  ACCESS_TOKEN_SECRET : string;
  ACCESS_TOKEN_EXPIRY : Z;
  REFRESH_TOKEN_SECRET : string;
  REFRESH_TOKEN_EXPIRY : Z;
  EMAIL_SECRET : string;
  EMAIL_USER : string
}.

(** What one request draws from its environment: the clock in milliseconds
    ([Date.now()]), the integer part of [Math.random() * 900000], and the
    salts of the two places that hash a password. *)
Record Inputs : Type := mkInputs {
  now : Z;
  otp_draw : Z;
  salt_controller : Z;
  salt_hook : Z
}.

Inductive Failure : Type :=
| ApiError (statusCode : Z) (message : string)
| JsonWebTokenError
| TokenExpiredError
| IllegalArguments
| ValidationError
| MongoServerError.

Inductive Mail : Type :=
| Sms (to otp : string)
| Email (from to subject html : string).

Record World : Type := mkWorld {
  db : list Client;
  outbox : list Mail
}.

(** ** The handler monad: state over the world, with thrown failures *)

Inductive Result (A : Type) : Type :=
| Ok (a : A)
| Throw (f : Failure).
Arguments Ok {A} a.
Arguments Throw {A} f.

Definition M (A : Type) : Type := World -> Result A * World.

Definition ret {A} (a : A) : M A := fun w => (Ok a, w).

Definition throw {A} (f : Failure) : M A := fun w => (Throw f, w).

Definition bind {A B} (m : M A) (k : A -> M B) : M B :=
  fun w =>
    match m w with
    | (Ok a, w') => k a w'
    | (Throw f, w') => (Throw f, w')
    end.

Notation "x <- m ;; k" := (bind m (fun x => k))
  (at level 61, m at next level, right associativity).
Notation "m ;;; k" := (bind m (fun _ => k))
  (at level 61, right associativity).

(** [if (cond) throw f]. *)
Definition throw_if (cond : bool) (f : Failure) : M unit :=
  if cond then throw f else ret tt.

(** [try m catch { throw f }]. *)
Definition try_catch {A} (m : M A) (f : Failure) : M A :=
  fun w =>
    match m w with
    | (Ok a, w') => (Ok a, w')
    | (Throw _, w') => (Throw f, w')
    end.

Definition get_db : M (list Client) := fun w => (Ok (db w), w).

Definition put_db (d : list Client) : M unit :=
  fun w => (Ok tt, mkWorld d (outbox w)).

Definition send (m : Mail) : M unit :=
  fun w => (Ok tt, mkWorld (db w) (outbox w ++ [m])%list).

(** ** Requests and responses *)

(** [req.body.age] as the code observes it: what [toString()] gives of it,
    and the number the schema's [Number] type casts it to; [age_cast] is
    [None] when the cast fails (a string that is not a number, say).  The
    ages that cast are integers here. *)
Record AgeInput : Type := mkAge {
  age_text : string;
  age_cast : option Z
}.

(** An age sent as a JSON number. *)
Definition age_number (z : Z) : AgeInput := mkAge (toString z) (Some z).

Record Body : Type := mkBody {
  body_name : option string;
  body_email : option string;
  body_phone : option string;
  body_password : option string;
  body_age : option AgeInput;
  body_gender : option string;
  body_otp : option string;
  body_clientId : option ObjectId;
  body_refreshToken : option string
}.

(** [req.query]; [page] and [limit] as [parseInt] reads them. *)
Record Query : Type := mkQuery {
  query_page : option Z;
  query_limit : option Z;
  query_verified : option string;
  query_gender : option string;
  query_sortBy : option string;
  query_sortOrder : option string
}.

Record Req : Type := mkReq {
  body : Body;
  query : Query;
  cookies_refreshToken : option string;
  params_clientId : option ObjectId;
  file_path : option string;
  (** [req.client._id], set by the authentication middleware *)
  client_id : ObjectId
}.

Record Pagination : Type := mkPagination {
  currentPage : Z;
  totalPages : JsNum;
  totalClients : Z;
  hasNextPage : bool;
  hasPrevPage : bool
}.

(** The [data] of the response envelope, one shape per handler. *)
Inductive Data : Type :=
| DNull
| DEmpty
| DClient (client : Doc)
| DLogin (client : option Doc) (accessToken refreshToken : string)
| DMessage (message : string)
| DTokens (accessToken refreshToken : string)
| DVerified (clientId : ObjectId) (message : string)
| DClients (clients : list Doc) (pagination : Pagination).

Record ApiResponse : Type := mkApiResponse {
  statusCode : Z;
  data : Data;
  message : option string
}.

Record Response : Type := mkResponse {
  status : Z;
  cookies : list (string * string);
  clearedCookies : list string;
  json : ApiResponse
}.

(** ** The collection *)

Definition findById (id : ObjectId) (d : list Client) : option Client :=
  find (fun c => Nat.eqb (_id c) id) d.

(** [Client.findById(id)] where [id] may be [undefined]. *)
Definition findById_opt (id : option ObjectId) (d : list Client) : option Client :=
  match id with
  | Some id' => findById id' d
  | None => None
  end.

Definition matches (q : option string) (v : string) : bool :=
  match q with
  | Some s => String.eqb (trim s) v
  | None => false
  end.

(** [Client.findOne({ email })]. *)
Definition findOne_email (e : option string) (d : list Client) : option Client :=
  find (fun c => matches e (email c)) d.

(** [Client.findOne({ $or: [{ email }, { phone }] })], and with
    [_id: { $ne: id }] when [excl] is [Some id]. *)
Definition findOne_email_or_phone (e p : option string) (excl : option ObjectId)
  (d : list Client) : option Client :=
  find (fun c =>
          ((matches e (email c) || matches p (phone c))
           && match excl with
              | Some id => negb (Nat.eqb (_id c) id)
              | None => true
              end)%bool) d.

(** The unique indexes on [email] and [phone]: another document already
    holds the value. *)
Definition duplicate_key (c : Client) (d : list Client) : bool :=
  existsb (fun x => (negb (Nat.eqb (_id x) (_id c))
                     && (String.eqb (email x) (email c)
                         || String.eqb (phone x) (phone c)))%bool) d.

Fixpoint replace_doc (c : Client) (d : list Client) : list Client :=
  match d with
  | x :: d' => if Nat.eqb (_id x) (_id c) then c :: d' else x :: replace_doc c d'
  | [] => []
  end.

Definition fresh_id (d : list Client) : ObjectId :=
  S (fold_right Nat.max O (map _id d)).

(** [Client.findByIdAndUpdate(id, { refreshToken: null })]. *)
Definition findByIdAndUpdate_refreshToken_null (clock : Z) (id : ObjectId)
  (d : list Client) : list Client :=
  match findById id d with
  | Some c => replace_doc (set_updatedAt clock (set_refreshToken Null c)) d
  | None => d
  end.

(** *** Sorting, skipping and limiting a query *)

Definition json_rank (j : Json) : nat :=
  match j with
  | JNull => 0%nat
  | JNum _ => 1%nat
  | JStr _ => 2%nat
  | JBool _ => 3%nat
  end.

Definition json_compare (a b : Json) : comparison :=
  match a, b with
  | JNum x, JNum y => Z.compare x y
  | JStr x, JStr y => String.compare x y
  | JBool x, JBool y => Bool.compare x y
  | _, _ => Nat.compare (json_rank a) (json_rank b)
  end.

Definition sort_key (sortBy : string) (c : Client) : Json :=
  match get_key sortBy (toJSON c) with
  | Some j => j
  | None => JNull
  end.

(** The order [sort[sortBy] = direction] asks for. *)
Definition sort_compare (sortBy : string) (direction : Z) (a b : Client)
  : comparison :=
  let c := json_compare (sort_key sortBy a) (sort_key sortBy b) in
  if direction =? 1 then c else CompOpp c.

Fixpoint insert_sorted (cmp : Client -> Client -> comparison) (x : Client)
  (l : list Client) : list Client :=
  match l with
  | y :: l' =>
      match cmp x y with
      | Gt => y :: insert_sorted cmp x l'
      | _ => x :: l
      end
  | [] => [x]
  end.

Definition sort_docs (cmp : Client -> Client -> comparison) (l : list Client)
  : list Client :=
  fold_right (insert_sorted cmp) [] l.

(** [.limit(n)]: zero is no limit, a negative limit is its absolute value. *)
Definition limit_docs {A} (n : Z) (l : list A) : list A :=
  if n =? 0 then l else firstn (Z.to_nat (Z.abs n)) l.

(** [filter.verified] and [filter.gender], where the query sets them. *)
Definition filter_docs (fv : option bool) (fg : option string) (d : list Client)
  : list Client :=
  filter (fun c =>
            (match fv with Some v => Bool.eqb (verified c) v | None => true end
             && match fg with Some g => String.eqb (gender c) g | None => true end)%bool)
    d.

(** The page and the limit of a listing request, with their defaults. *)
Definition requested_page (q : Query) : Z :=
  match query_page q with Some p => p | None => 1 end.

Definition requested_limit (q : Query) : Z :=
  match query_limit q with Some l => l | None => 10 end.

(** The documents a listing request's filter matches. *)
Definition matching (q : Query) (d : list Client) : list Client :=
  filter_docs (option_map (fun v => String.eqb v "true") (query_verified q))
    (if truthy (query_gender q) then query_gender q else None) d.

(** The order a listing request asks for. *)
Definition requested_order (q : Query) : Client -> Client -> comparison :=
  sort_compare
    (match query_sortBy q with Some s => s | None => "createdAt" end)
    (if String.eqb (match query_sortOrder q with Some s => s | None => "desc" end)
          "asc"
     then 1 else -1).

(** The number a path holds once a cast has succeeded. *)
Definition num (o : option Z) : Z :=
  match o with
  | Some z => z
  | None => 0
  end.

Definition is_number (o : option Z) : bool :=
  match o with
  | Some _ => true
  | None => false
  end.

(** The age of a body as the schema casts it. *)
Definition cast_age (o : option AgeInput) : option Z :=
  match o with
  | Some a => age_cast a
  | None => None
  end.

(** ** Model methods and controllers *)

Section Controllers.

Context `{Libs} (env : Env).

(** [jwt.sign(payload, secret, { expiresIn })] at clock [clock] (ms):
    jsonwebtoken stamps [iat] with the current second and [exp] with
    [iat + expiresIn], and serialises the claims under the secret. *)
Definition jwt_sign (p : Payload) (secret : string) (expiresIn clock : Z) : string :=
  jwt_encode (mkClaims p (clock / 1000) (clock / 1000 + expiresIn)) secret.

(** [jwt.verify(token, secret)]: throws on a bad signature and on an expired
    token. *)
Definition jwt_verify (token secret : string) (clock : Z) : M Claims :=
  match jwt_decode token secret with
  | None => throw JsonWebTokenError
  | Some c => if exp c <=? clock / 1000 then throw TokenExpiredError else ret c
  end.

(** [clientSchema.methods.isPasswordCorrect]. *)
Definition isPasswordCorrect (c : Client) (p : string) : bool :=
  bcrypt_compare p (password c).

(** [clientSchema.methods.generateAccessToken]. *)
Definition generateAccessToken (clock : Z) (c : Client) : string :=
  jwt_sign (mkPayload (Some (_id c)) (Some (email c)) (Some "Client")
              (Some (tokenVersion c)))
    (ACCESS_TOKEN_SECRET env) (ACCESS_TOKEN_EXPIRY env) clock.

(** [clientSchema.methods.generateRefreshToken]. *)
Definition generateRefreshToken (clock : Z) (c : Client) : string :=
  jwt_sign (mkPayload (Some (_id c)) None None None)
    (REFRESH_TOKEN_SECRET env) (REFRESH_TOKEN_EXPIRY env) clock.

(** [clientSchema.pre("save")]. *)
Definition pre_save (i : Inputs) (orig : option Client) (cur : Client) : Client :=
  if isModified String.eqb password orig cur
  then set_password (bcrypt_hash (password cur) (salt_hook i)) cur
  else cur.

(** [client.save()] and [client.save({ validateBeforeSave: false })] of a
    document loaded as [orig] and now holding [cur]. *)
Definition save (validateBeforeSave : bool) (i : Inputs) (orig cur : Client)
  : M Client :=
  throw_if (validateBeforeSave && negb (validate cur)) ValidationError ;;;
  let cur' := pre_save i (Some orig) cur in
  if client_eqb orig cur' then ret cur'
  else
    d <- get_db ;;
    throw_if ((isModified String.eqb email (Some orig) cur'
               || isModified String.eqb phone (Some orig) cur')
              && duplicate_key cur' d) MongoServerError ;;;
    let saved := set_updatedAt (now i) cur' in
    put_db (replace_doc saved d) ;;;
    ret saved.

(** [Client.create({ ... })]: the casts and setters, the validators, the
    pre-save hook and the insertion.  [a] is the age as cast; an age that
    does not cast fails validation. *)
Definition create (i : Inputs) (n e p pw : string) (a : option Z) (g av : string)
  (v : bool) (vt o : string) (oe : Z) : M Client :=
  d <- get_db ;;
  let c := mkClient (fresh_id d) (trim n) (trim e) (num a) g pw (trim p) av v
             Null (Val vt) 0 (Val o) (Val oe) (now i) (now i) 0 in
  throw_if (negb (is_number a && validate c)) ValidationError ;;;
  let c' := pre_save i None c in
  throw_if (duplicate_key c' d) MongoServerError ;;;
  put_db (d ++ [c'])%list ;;;
  ret c'.

Definition generateOTP (i : Inputs) : string :=
  toString (100000 + otp_draw i).

Definition generateAccessRefreshTokens (i : Inputs) (clientId : option ObjectId)
  : M (string * string) :=
  match clientId with
  | None => throw (ApiError 400 "Client ID is required")
  | Some id =>
      d <- get_db ;;
      match findById id d with
      | None => throw (ApiError 400 "No client found with that ID")
      | Some client =>
          let accessToken := generateAccessToken (now i) client in
          let refreshToken := generateRefreshToken (now i) client in
          save false i client (set_refreshToken (Val refreshToken) client) ;;;
          ret (accessToken, refreshToken)
      end
  end.

(** [!field?.toString().trim()]. *)
Definition blank (o : option string) : bool :=
  match o with
  | Some s => String.eqb (trim s) ""
  | None => true
  end.

(** The value of a body field that a guard has found present. *)
Definition str (o : option string) : string :=
  match o with
  | Some s => s
  | None => ""
  end.

Definition token_cookies (accessToken refreshToken : string)
  : list (string * string) :=
  [("accessToken", accessToken); ("refreshToken", refreshToken)].

Definition registerClient (i : Inputs) (req : Req) : M Response :=
  let b := body req in
  throw_if (blank (body_name b) || blank (body_email b) || blank (body_phone b)
            || blank (body_password b)
            || blank (option_map age_text (body_age b))
            || blank (body_gender b))
    (ApiError 400 "All fields are required") ;;;
  d <- get_db ;;
  match findOne_email_or_phone (body_email b) (body_phone b) None d with
  | Some _ => throw (ApiError 400 "Email or phone already exists")
  | None =>
      let avatar := match file_path req with
                    | Some path => if String.eqb path "" then ""
                                   else uploadToCloud path
                    | None => ""
                    end in
      let otp := generateOTP i in
      let otpExpires := now i + 5 * 60 * 1000 in
      let verificationToken :=
        jwt_sign (mkPayload None (body_email b) None None)
          (EMAIL_SECRET env) 86400 (now i) in
      send (Sms (str (body_phone b)) otp) ;;;
      send (Email (EMAIL_USER env) (str (body_email b))
              "Your OTP for Email Verification"
              ("<p>Your OTP is: <strong>" ++ otp
               ++ "</strong></p><p>This OTP is valid for 5 minutes.</p>")) ;;;
      client <- try_catch
                  (create i (str (body_name b)) (str (body_email b))
                     (str (body_phone b)) (str (body_password b))
                     (cast_age (body_age b)) (str (body_gender b)) avatar false
                     verificationToken otp otpExpires)
                  (ApiError 500 "Could not create client") ;;
      (* [!client?._id] never holds of a created document *)
      tokens <- generateAccessRefreshTokens i (Some (_id client)) ;;
      ret (mkResponse 201 (token_cookies (fst tokens) (snd tokens)) []
             (mkApiResponse 201 (DClient (toJSON client))
                (Some "Client registered successfully!")))
  end.

Definition loginClient (i : Inputs) (req : Req) : M Response :=
  d <- get_db ;;
  match findOne_email (body_email (body req)) d with
  | None => throw (ApiError 404 "Requested user doesn't exist")
  | Some client =>
      match body_password (body req) with
      | None => throw IllegalArguments
      | Some p =>
          throw_if (negb (isPasswordCorrect client p))
            (ApiError 401 "Invalid user credentials") ;;;
          throw_if (negb (verified client))
            (ApiError 401 "Please verify your email first") ;;;
          tokens <- generateAccessRefreshTokens i (Some (_id client)) ;;
          d' <- get_db ;;
          let loggedUserFromDB :=
            option_map (fun c => select_minus ["password"; "refreshToken"] (toJSON c))
              (findById (_id client) d') in
          ret (mkResponse 200 (token_cookies (fst tokens) (snd tokens)) []
                 (mkApiResponse 200
                    (DLogin loggedUserFromDB (fst tokens) (snd tokens))
                    (Some "Client logged in successfully!")))
      end
  end.

(** [req.cookies.refreshToken || req.body.refreshToken]. *)
Definition incomingToken (req : Req) : option string :=
  js_or (cookies_refreshToken req) (body_refreshToken (body req)).

(** [stored !== supplied] for a stored path and a supplied string. *)
Definition differs (stored : Field string) (supplied : string) : bool :=
  match stored with
  | Val s => negb (String.eqb s supplied)
  | _ => true
  end.

(** [stored < clock] for a stored date: [undefined] compares false with
    everything, [null] counts as zero. *)
Definition before (stored : Field Z) (clock : Z) : bool :=
  match stored with
  | Val t => t <? clock
  | Null => 0 <? clock
  | Unset => false
  end.

Definition verifyEmail (i : Inputs) (req : Req) : M Response :=
  let b := body req in
  throw_if (negb (truthy (body_email b)) || negb (truthy (body_otp b)))
    (ApiError 400 "Email and OTP are required") ;;;
  d <- get_db ;;
  match findOne_email (body_email b) d with
  | None => throw (ApiError 400 "Client not found")
  | Some client =>
      throw_if (differs (otp client) (str (body_otp b))
                || before (otpExpires client) (now i))
        (ApiError 400 "Invalid or expired OTP") ;;;
      save true i client (set_verification Unset Unset client) ;;;
      ret (mkResponse 200 [] []
             (mkApiResponse 200 (DMessage "Email verified successfully") None))
  end.

Definition logoutClient (i : Inputs) (req : Req) : M Response :=
  d <- get_db ;;
  put_db (findByIdAndUpdate_refreshToken_null (now i) (client_id req) d) ;;;
  ret (mkResponse 200 [] ["accessToken"; "refreshToken"]
         (mkApiResponse 200 DEmpty (Some "Client logged out successfully"))).

(** [a !== b] for a body field and a stored string. *)
Definition ne_stored (a : option string) (b : string) : bool :=
  match a with
  | Some s => negb (String.eqb s b)
  | None => true
  end.

Definition updateClient (i : Inputs) (req : Req) : M Response :=
  let b := body req in
  d <- get_db ;;
  match findById (client_id req) d with
  | None => throw (ApiError 404 "Client not found")
  | Some client =>
      (if (ne_stored (body_email b) (email client)
           || ne_stored (body_phone b) (phone client))%bool
       then match findOne_email_or_phone (body_email b) (body_phone b)
                    (Some (_id client)) d with
            | Some _ => throw (ApiError 400 "Email or phone already in use")
            | None => ret tt
            end
       else ret tt) ;;;
      let c1 := if truthy (body_password b)
                then set_password
                       (bcrypt_hash (str (body_password b)) (salt_controller i))
                       client
                else client in
      let c2 := if truthy (file_path req)
                then set_avatar (uploadToCloud (str (file_path req))) c1
                else c1 in
      (* assigning [undefined] to a required path, or an age that does not
         cast, fails validation *)
      match body_name b, body_email b, body_phone b, cast_age (body_age b),
            body_gender b with
      | Some n, Some e, Some p, Some a, Some g =>
          saved <- save true i client (assign_profile n e p a g c2) ;;
          ret (mkResponse 200 [] []
                 (mkApiResponse 200 (DClient (toJSON saved))
                    (Some "Client updated successfully")))
      | _, _, _, _, _ => throw ValidationError
      end
  end.

Definition refreshAccessToken (i : Inputs) (req : Req) : M Response :=
  let incomingToken := incomingToken req in
  throw_if (negb (truthy incomingToken)) (ApiError 401 "Unauthorized request") ;;;
  decodedToken <- jwt_verify (str incomingToken) (REFRESH_TOKEN_SECRET env) (now i) ;;
  d <- get_db ;;
  match findById_opt (p_id (payload decodedToken)) d with
  | None => throw (ApiError 401 "Invalid or expired refresh token")
  | Some client =>
      throw_if (differs (refreshToken client) (str incomingToken))
        (ApiError 401 "Invalid or expired refresh token") ;;;
      tokens <- generateAccessRefreshTokens i (Some (_id client)) ;;
      ret (mkResponse 200 (token_cookies (fst tokens) (snd tokens)) []
             (mkApiResponse 200 (DTokens (fst tokens) (snd tokens))
                (Some "Token refreshed")))
  end.

Definition verifyOtp (i : Inputs) (req : Req) : M Response :=
  let b := body req in
  match body_clientId b with
  | None => throw (ApiError 400 "Client ID and OTP are required")
  | Some clientId =>
      throw_if (negb (truthy (body_otp b)))
        (ApiError 400 "Client ID and OTP are required") ;;;
      d <- get_db ;;
      match findById clientId d with
      | None => throw (ApiError 404 "Client not found")
      | Some client =>
          throw_if (differs (otp client) (str (body_otp b))
                    || before (otpExpires client) (now i))
            (ApiError 400 "Invalid or expired OTP") ;;;
          save true i client (set_verification Null Null client) ;;;
          let accessToken :=
            jwt_sign (mkPayload (Some (_id client)) None None None)
              (ACCESS_TOKEN_SECRET env) (ACCESS_TOKEN_EXPIRY env) (now i) in
          let refreshToken :=
            jwt_sign (mkPayload (Some (_id client)) None None None)
              (REFRESH_TOKEN_SECRET env) (REFRESH_TOKEN_EXPIRY env) (now i) in
          ret (mkResponse 200 (token_cookies accessToken refreshToken) []
                 (mkApiResponse 200
                    (DVerified (_id client) "OTP verified successfully!") None))
      end
  end.

Definition getCurrentClient (i : Inputs) (req : Req) : M Response :=
  d <- get_db ;;
  let client :=
    option_map
      (fun c => select_minus ["password"; "refreshToken"; "otp"; "otpExpires"; "__v"]
                  (toJSON c))
      (findById (client_id req) d) in
  ret (mkResponse 200 [] []
         (mkApiResponse 200
            (match client with Some c => DClient c | None => DNull end)
            (Some "Current Client Data"))).

Definition getAllClients (i : Inputs) (req : Req) : M Response :=
  let q := query req in
  let page := match query_page q with Some p => p | None => 1 end in
  let limit := match query_limit q with Some l => l | None => 10 end in
  let sortBy := match query_sortBy q with Some s => s | None => "createdAt" end in
  let sortOrder := match query_sortOrder q with Some s => s | None => "desc" end in
  let filter_verified :=
    option_map (fun v => String.eqb v "true") (query_verified q) in
  let filter_gender :=
    if truthy (query_gender q) then query_gender q else None in
  let direction := if String.eqb sortOrder "asc" then 1 else -1 in
  let skip := (page - 1) * limit in
  d <- get_db ;;
  let totalClients :=
    Z.of_nat (List.length (filter_docs filter_verified filter_gender d)) in
  (* the server rejects a negative skip *)
  throw_if (skip <? 0) MongoServerError ;;;
  let clients :=
    map (fun c => select_minus
                    ["password"; "refreshToken"; "otp"; "otpExpires";
                     "verificationToken"] (toJSON c))
      (limit_docs limit
         (skipn (Z.to_nat skip)
            (sort_docs (sort_compare sortBy direction)
               (filter_docs filter_verified filter_gender d)))) in
  let totalPages := ceil_div totalClients limit in
  ret (mkResponse 200 [] []
         (mkApiResponse 200
            (DClients clients
               (mkPagination page totalPages totalClients
                  (js_lt page totalPages) (1 <? page)))
            (Some "Clients retrieved successfully"))).

Definition getClientById (i : Inputs) (req : Req) : M Response :=
  match params_clientId req with
  | None => throw (ApiError 400 "Client ID is required")
  | Some clientId =>
      d <- get_db ;;
      match findById clientId d with
      | None => throw (ApiError 404 "Client not found")
      | Some c =>
          ret (mkResponse 200 [] []
                 (mkApiResponse 200
                    (DClient
                       (select_minus
                          ["password"; "refreshToken"; "otp"; "otpExpires";
                           "verificationToken"] (toJSON c)))
                    (Some "Client retrieved successfully")))
      end
  end.

End Controllers.

(** The ten operations of the controller. *)
Inductive Operation : Type :=
| Register | Login | VerifyEmail | Logout | Update
| Refresh | VerifyOtp | GetCurrent | GetAll | GetById.

Definition handle `{Libs} (env : Env) (op : Operation)
  : Inputs -> Req -> M Response :=
  match op with
  | Register => registerClient env
  | Login => loginClient env
  | VerifyEmail => verifyEmail
  | Logout => logoutClient
  | Update => updateClient
  | Refresh => refreshAccessToken env
  | VerifyOtp => verifyOtp env
  | GetCurrent => getCurrentClient
  | GetAll => getAllClients
  | GetById => getClientById
  end.

(** The record [Client.create] builds for a registration. *)
Definition created `{Libs} (env : Env) (i : Inputs) (req : Req) (w : World)
  : Client :=
  mkClient (fresh_id (db w))
    (trim (str (body_name (body req)))) (trim (str (body_email (body req))))
    (num (cast_age (body_age (body req)))) (str (body_gender (body req)))
    (bcrypt_hash (str (body_password (body req))) (salt_hook i))
    (trim (str (body_phone (body req))))
    (match file_path req with
     | Some path => if String.eqb path "" then "" else uploadToCloud path
     | None => ""
     end)
    false Null
    (Val (jwt_sign (mkPayload None (body_email (body req)) None None)
            (EMAIL_SECRET env) 86400 (now i)))
    0 (Val (generateOTP i)) (Val (now i + 300000)) (now i) (now i) 0.

(** None of the four credential paths is in the document. *)
Definition redacted (doc : Doc) : Prop :=
  has_key "password" doc = false /\ has_key "refreshToken" doc = false
  /\ has_key "otp" doc = false /\ has_key "otpExpires" doc = false.

Definition is_unset {A} (f : Field A) : bool :=
  match f with
  | Unset => true
  | _ => false
  end.

(** [otp] and [otpExpires] are populated together or not at all. *)
Definition populated {A} (f : Field A) : bool :=
  match f with
  | Val _ => true
  | _ => false
  end.

Definition otp_paired (c : Client) : Prop :=
  populated (otp c) = populated (otpExpires c).

(** [m] keeps every stored record paired, whether it returns or throws, and
    what it returns satisfies [Q]. *)
Definition keeps {A} (m : M A) (Q : A -> Prop) : Prop :=
  forall w r w',
    m w = (r, w') -> Forall otp_paired (db w) ->
    Forall otp_paired (db w') /\ forall a, r = Ok a -> Q a.

(** The six required fields of a registration are present and not blank. *)
Definition complete (b : Body) : bool :=
  negb (blank (body_name b) || blank (body_email b) || blank (body_phone b)
        || blank (body_password b)
        || blank (option_map age_text (body_age b))
        || blank (body_gender b)).

(** The two messages a registration sends: the code by SMS and by mail. *)
Definition otp_messages (env : Env) (i : Inputs) (b : Body) : list Mail :=
  [Sms (str (body_phone b)) (generateOTP i);
   Email (EMAIL_USER env) (str (body_email b))
     "Your OTP for Email Verification"
     ("<p>Your OTP is: <strong>" ++ generateOTP i
      ++ "</strong></p><p>This OTP is valid for 5 minutes.</p>")].


(** The document a listing writes for a record. *)
Definition public_doc (c : Client) : Doc :=
  select_minus
    ["password"; "refreshToken"; "otp"; "otpExpires"; "verificationToken"]
    (toJSON c).

(** The records a listing request selects for its page, in order. *)
Definition page_of (q : Query) (d : list Client) : list Client :=
  limit_docs (requested_limit q)
    (skipn (Z.to_nat ((requested_page q - 1) * requested_limit q))
       (sort_docs (requested_order q) (matching q d))).



(** The document a profile update asks [save] to store: the loaded record
    with the controller's hash of a supplied password, the uploaded avatar
    and the five assigned fields. *)
Definition update_target `{Libs} (i : Inputs) (req : Req) (client : Client)
  : Client :=
  let b := body req in
  let c1 := if truthy (body_password b)
            then set_password
                   (bcrypt_hash (str (body_password b)) (salt_controller i))
                   client
            else client in
  let c2 := if truthy (file_path req)
            then set_avatar (uploadToCloud (str (file_path req))) c1
            else c1 in
  assign_profile (str (body_name b)) (str (body_email b)) (str (body_phone b))
    (num (cast_age (body_age b))) (str (body_gender b)) c2.

(** The five fields a profile update assigns are all in the body, and the
    age casts to a number. *)
Definition assignable (b : Body) : bool :=
  match body_name b, body_email b, body_phone b, cast_age (body_age b),
        body_gender b with
  | Some _, Some _, Some _, Some _, Some _ => true
  | _, _, _, _, _ => false
  end.


(** No two stored records share an [_id], an [email] or a [phone]. *)
Definition unique_keys (d : list Client) : Prop :=
  NoDup (map _id d) /\ NoDup (map email d) /\ NoDup (map phone d).

(** Run from a world whose collection is [d0] and has unique keys, [m]
    leaves a collection with unique keys, whether it returns or throws;
    [Q] holds of what it returns and of the collection it leaves. *)
Definition keeps_unique {A} (d0 : list Client) (m : M A)
  (Q : A -> list Client -> Prop) : Prop :=
  forall w r w',
    m w = (r, w') -> db w = d0 -> unique_keys d0 ->
    unique_keys (db w') /\ forall a, r = Ok a -> Q a (db w').


(** ** A reference instance of the libraries

    A salted prefix hash and a textual token codec, enough to run the
    controllers on concrete requests. *)

Module Reference.

Definition hash (s : string) (salt : Z) : string :=
  String (ascii_of_nat (Z.to_nat (48 + salt mod 64))) s.

Definition hash_nonempty (s : string) (salt : Z) : hash s salt <> "" :=
  fun E : hash s salt = "" =>
    match E in _ = y
          return match y with EmptyString => False | String _ _ => True end
    with
    | eq_refl => I
    end.

Definition compare (s h : string) : bool :=
  match h with
  | String _ r => String.eqb s r
  | EmptyString => false
  end.

Fixpoint split_on (sep : ascii) (cur s : string) : list string :=
  match s with
  | String c s' =>
      if Ascii.eqb c sep then rev_string "" cur :: split_on sep "" s'
      else split_on sep (String c cur) s'
  | EmptyString => [rev_string "" cur]
  end.

Fixpoint parse_digits (acc : Z) (s : string) : option Z :=
  match s with
  | String c s' =>
      if is_digit c
      then parse_digits (10 * acc + Z.of_nat (nat_of_ascii c) - 48) s'
      else None
  | EmptyString => Some acc
  end.

Definition parse_num (s : string) : option Z :=
  match s with
  | EmptyString => None
  | String c r =>
      if Ascii.eqb c "-"%char then option_map Z.opp (parse_digits 0 r)
      else parse_digits 0 s
  end.

Definition show_opt {A} (show : A -> string) (o : option A) : string :=
  match o with
  | Some a => show a
  | None => ""
  end.

Definition read_opt (s : string) : option string :=
  if String.eqb s "" then None else Some s.

Definition encode (c : Claims) (secret : string) : string :=
  String.concat "|"
    [secret;
     show_opt (fun n => toString (Z.of_nat n)) (p_id (payload c));
     show_opt (fun e => e) (p_email (payload c));
     show_opt (fun e => e) (p_userType (payload c));
     show_opt toString (p_tokenVersion (payload c));
     toString (iat c);
     toString (exp c)].

Definition decode (token secret : string) : option Claims :=
  match split_on "|"%char "" token with
  | [s; id; e; u; v; i; x] =>
      if String.eqb s secret
      then match parse_num i, parse_num x with
           | Some i', Some x' =>
               Some (mkClaims
                       (mkPayload (option_map Z.to_nat (parse_num id))
                          (read_opt e) (read_opt u) (parse_num v)) i' x')
           | _, _ => None
           end
      else None
  | _ => None
  end.

Definition libs : Libs :=
  {| bcrypt_hash := hash;
     bcrypt_hash_nonempty := hash_nonempty;
     bcrypt_compare := compare;
     jwt_encode := encode;
     jwt_decode := decode;
     uploadToCloud := fun path => "https://cdn.example/" ++ path |}.

Definition env : Env :=
  mkEnv "access-secret" 900 "refresh-secret" 864000 "email-secret"
    "noreply@medicare.example".

Definition no_body : Body :=
  mkBody None None None None None None None None None.

Definition no_query : Query :=
  mkQuery None None None None None None.

Definition request (b : Body) : Req :=
  mkReq b no_query None None None O.

Definition empty_world : World := mkWorld [] [].

(** The no-break space U+00A0, in UTF-8. *)
Definition no_break_space : string :=
  String (ascii_of_nat 194) (String (ascii_of_nat 160) "").

(** Registration of one client at clock [1000000]. *)
Definition register_body : Body :=
  mkBody (Some "Asha") (Some "asha@example.org") (Some "+14155550100")
    (Some "s3cret") (Some (age_number 30)) (Some "Female") None None None.

Definition register_inputs : Inputs := mkInputs 1000000 23456 7 9.

Definition registered : Result Response * World :=
  registerClient (H := libs) env register_inputs (request register_body)
    empty_world.

Definition registered_world : World := snd registered.

(** The refresh token registration stored on client 1. *)
Definition stored_token : string := "refresh-secret|1||||1000|865000".

(** A request that presents [tok] in its cookie. *)
Definition refresh_request (tok : string) : Req :=
  mkReq no_body no_query (Some tok) None None O.

Definition at_clock (t : Z) : Inputs := mkInputs t 0 3 5.

(** The id-keyed verification of client 1, a minute after registration. *)
Definition verify_body : Body :=
  mkBody None None None None None None (Some "123456") (Some 1%nat) None.

Definition otp_verified : Result Response * World :=
  verifyOtp (H := libs) env (at_clock 1060000) (request verify_body)
    registered_world.

Definition verified_world : World := snd otp_verified.

(** The cookies a run has set, none if it threw. *)
Definition cookies_of (r : Result Response * World) : list (string * string) :=
  match fst r with
  | Ok resp => cookies resp
  | Throw _ => []
  end.

(** The login of client 1. *)
Definition login_body : Body :=
  mkBody None (Some "asha@example.org") None (Some "s3cret") None None
    None None None.

(** The token the id-keyed verification returned to client 1. *)
Definition returned_token : string := "refresh-secret|1||||1060|865060".

(** A profile update of client 1 that also sets a new password. *)
Definition update_body : Body :=
  mkBody (Some "Asha") (Some "asha@example.org") (Some "+14155550100")
    (Some "n3wpass") (Some (age_number 31)) (Some "Female") None None None.

Definition update_request : Req :=
  mkReq update_body no_query None None None 1%nat.

Definition updated : Result Response * World :=
  updateClient (H := libs) (at_clock 1200000) update_request verified_world.

Definition relogin_body : Body :=
  mkBody None (Some "asha@example.org") None (Some "n3wpass") None None
    None None None.

(** A collection of 25 clients, and the second page of ten of them. *)
Definition patient (n : nat) : Client :=
  mkClient n "Patient" ("p" ++ toString (Z.of_nat n) ++ "@example.org") 40
    "Other" "2hash" ("+1415555" ++ toString (Z.of_nat (1000 + n))) "" true
    Null Unset 0 Unset Unset (Z.of_nat n) (Z.of_nat n) 0.

Definition clinic : World := mkWorld (map patient (seq 1 25)) [].

Definition page_two : Req :=
  mkReq no_body (mkQuery (Some 2) (Some 10) None None None None)
    None None None O.

(** Client 1 as registration stored it, and as the verification left it. *)
Definition asha_registered : Client :=
  mkClient 1%nat "Asha" "asha@example.org" 30 "Female" "9s3cret" "+14155550100" ""
    false (Val stored_token)
    (Val "email-secret||asha@example.org|||1000|87400") 0
    (Val "123456") (Val 1300000) 1000000 1000000 0.

Definition asha_verified : Client :=
  mkClient 1%nat "Asha" "asha@example.org" 30 "Female" "9s3cret" "+14155550100" ""
    true (Val stored_token)
    (Val "email-secret||asha@example.org|||1000|87400") 0
    Null Null 1000000 1060000 0.


(** A registration without a name, and one with a gender outside the enum. *)
Definition incomplete_body : Body :=
  mkBody None (Some "asha@example.org") (Some "+14155550100")
    (Some "s3cret") (Some (age_number 30)) (Some "Female") None None None.

Definition invalid_body : Body :=
  mkBody (Some "Bala") (Some "bala@example.org") (Some "+14155550101")
    (Some "pa55word") (Some (age_number 41)) (Some "Unknown") None None None.

(** A second client, registered after client 1 was verified. *)
Definition second_body : Body :=
  mkBody (Some "Bala") (Some " bala@example.org ") (Some "+14155550101")
    (Some "pa55word") (Some (age_number 41)) (Some "Male") None None None.

Definition second_inputs : Inputs := mkInputs 1100000 654321 11 13.

Definition two_clients : World :=
  snd (registerClient (H := libs) env second_inputs (request second_body)
         verified_world).

(** The email-keyed verification of client 1 with the code that was sent. *)
Definition verify_email_body : Body :=
  mkBody None (Some "asha@example.org") None None None None (Some "123456")
    None None.

(** Requests of client 1: a logout, a lookup by id, a profile update
    without a password, and one that asks for the email of client 2. *)
Definition logout_request : Req :=
  mkReq no_body no_query None None None 1%nat.

Definition lookup_request (id : option ObjectId) (caller : ObjectId) : Req :=
  mkReq no_body no_query None id None caller.

Definition profile_body : Body :=
  mkBody (Some (" Asha M" ++ no_break_space)) (Some "asha@example.org")
    (Some "+14155550100")
    None (Some (age_number 31)) (Some "Female") None None None.

Definition profile_request : Req :=
  mkReq profile_body no_query None None None 1%nat.

Definition taken_body : Body :=
  mkBody (Some "Asha") (Some "bala@example.org") (Some "+14155550100")
    None (Some (age_number 31)) (Some "Female") None None None.

(** The email of client 2 followed by a no-break space, and no name. *)
Definition taken_nameless_body : Body :=
  mkBody None (Some ("bala@example.org" ++ no_break_space))
    (Some "+14155550100") None (Some (age_number 31)) (Some "Female")
    None None None.

Definition partial_body : Body :=
  mkBody (Some "Asha") (Some "asha@example.org") (Some "+14155550100")
    None None (Some "Female") None None None.

Definition update_with (b : Body) (caller : ObjectId) : Req :=
  mkReq b no_query None None None caller.

(** Listings of the clinic: a filter, an ascending order, and no limit. *)
Definition listing (q : Query) : Req :=
  mkReq no_body q None None None O.

Definition verified_others : Query :=
  mkQuery (Some 3) (Some 10) (Some "true") (Some "Other") None None.


Definition no_limit : Query :=
  mkQuery (Some 4) (Some 0) None None None None.


(** Client 2 as its registration stored it. *)
Definition bala_registered : Client :=
  mkClient 2%nat "Bala" "bala@example.org" 41 "Male" "=pa55word" "+14155550101"
    "" false (Val "refresh-secret|2||||1100|865100")
    (Val "email-secret|| bala@example.org |||1100|87500") 0
    (Val "754321") (Val 1400000) 1100000 1100000 0.

(** The refresh token a login of client 1 at clock [1120000] returns. *)
Definition login_token : string := "refresh-secret|1||||1120|865120".


Definition not_verified : Query :=
  mkQuery None None (Some "yes") None None None.


(** A login that carries the email of client 1 and no password. *)
Definition passwordless_body : Body :=
  mkBody None (Some "asha@example.org") None None None None None None None.

(** A registration whose name is one no-break space, one whose age is the
    string [abc], and a stored record whose gender the schema's enum does
    not allow. *)
Definition nameless_body : Body :=
  mkBody (Some no_break_space) (Some "bala@example.org") (Some "+14155550101")
    (Some "pa55word") (Some (age_number 41)) (Some "Male") None None None.

Definition ageless_body : Body :=
  mkBody (Some "Bala") (Some "bala@example.org") (Some "+14155550101")
    (Some "pa55word") (Some (mkAge "abc" None)) (Some "Male") None None None.

Definition legacy : Client :=
  mkClient 1%nat "Asha" "asha@example.org" 30 "Unknown" "9s3cret"
    "+14155550100" "" false Null Unset 0 (Val "123456") (Val 1300000)
    1000000 1000000 0.

Definition legacy_world : World := mkWorld [legacy] [].

End Reference.

(** * Properties *)

(** ** The monad and the collection *)

Ltac monad_unfold :=
  unfold bind, throw_if, try_catch, ret, throw, get_db, put_db, send in *.

(** One step of a handler: run the monad's own operations as far as the
    next call that is not one of them. *)
Ltac mstep :=
  cbn [bind throw_if try_catch ret throw get_db put_db send
       negb andb orb str num fst snd db outbox findById_opt];
  try unfold ret; try unfold throw; cbv beta.

Lemma bind_ok {A B} (m : M A) (k : A -> M B) (w w' : World) (a : A) :
  m w = (Ok a, w') -> bind m k w = k a w'.
Proof. unfold bind. now intros ->. Qed.

Lemma field_eqb_eq {A} (eqb : A -> A -> bool) (x y : Field A) :
  (forall a b, eqb a b = true -> a = b) ->
  field_eqb eqb x y = true -> x = y.
Proof.
  intros Heq. destruct x, y; simpl; try discriminate; auto.
  intros E. now rewrite (Heq _ _ E).
Qed.

Lemma client_eqb_eq (a b : Client) : client_eqb a b = true -> a = b.
Proof.
  destruct a, b. unfold client_eqb. simpl.
  rewrite !andb_true_iff.
  intros H. repeat match goal with H : _ /\ _ |- _ => destruct H end.
  repeat match goal with
         | H : Nat.eqb _ _ = true |- _ => apply Nat.eqb_eq in H
         | H : String.eqb _ _ = true |- _ => apply String.eqb_eq in H
         | H : Z.eqb _ _ = true |- _ => apply Z.eqb_eq in H
         | H : Bool.eqb _ _ = true |- _ => apply Bool.eqb_prop in H
         | H : field_eqb String.eqb _ _ = true |- _ =>
             apply field_eqb_eq in H; [| intros ? ?; apply String.eqb_eq]
         | H : field_eqb Z.eqb _ _ = true |- _ =>
             apply field_eqb_eq in H; [| intros ? ?; apply Z.eqb_eq]
         end.
  subst. reflexivity.
Qed.

Lemma findById_id (id : ObjectId) (d : list Client) (c : Client) :
  findById id d = Some c -> _id c = id.
Proof.
  unfold findById. intros E. apply find_some in E.
  now apply Nat.eqb_eq.
Qed.

Lemma findById_replace_doc (id : ObjectId) (d : list Client) (c c' : Client) :
  findById id d = Some c -> _id c' = id ->
  findById id (replace_doc c' d) = Some c'.
Proof.
  unfold findById. intros E Hid. subst id.
  induction d as [| x d IH]; simpl in *; [discriminate |].
  destruct (Nat.eqb (_id x) (_id c')) eqn:Ex.
  - simpl. now rewrite Nat.eqb_refl.
  - simpl. rewrite Ex. auto.
Qed.

(** Replacing a document leaves a query by another key on its first match,
    when the replacement still matches. *)
Lemma find_replace_doc (P : Client -> bool) (d : list Client) (c c' : Client) :
  find P d = Some c -> _id c' = _id c -> P c' = true ->
  find P (replace_doc c' d) = Some c'.
Proof.
  intros E Hid HP.
  induction d as [| x d IH]; simpl in *; [discriminate |].
  destruct (Nat.eqb (_id x) (_id c')) eqn:Ex.
  - simpl. now rewrite HP.
  - simpl. destruct (P x) eqn:Px.
    + injection E as ->. rewrite Hid, Nat.eqb_refl in Ex. discriminate.
    + auto.
Qed.

Lemma Forall_replace_doc (P : Client -> Prop) (d : list Client) (c : Client) :
  P c -> Forall P d -> Forall P (replace_doc c d).
Proof.
  intros Hc Hd. induction Hd as [| x d Hx Hd IH]; simpl; [constructor |].
  destruct (Nat.eqb (_id x) (_id c)); constructor; auto.
Qed.

Section Properties.

Context `{Libs} (env : Env).

Lemma pre_save_id (i : Inputs) (orig : option Client) (cur : Client) :
  _id (pre_save i orig cur) = _id cur.
Proof. unfold pre_save. now destruct (isModified _ _ _ _). Qed.

(** What [save] does to the world: nothing (the document is unchanged, or
    the save throws), or the stored document is replaced. *)
Lemma save_inv (v : bool) (i : Inputs) (orig cur : Client) (w w' : World)
  (r : Result Client) (c : Client) :
  c = pre_save i (Some orig) cur ->
  save v i orig cur w = (r, w') ->
  (w' = w /\ ((r = Ok c /\ orig = c) \/ exists f, r = Throw f))
  \/ (r = Ok (set_updatedAt (now i) c)
      /\ w' = mkWorld (replace_doc (set_updatedAt (now i) c) (db w)) (outbox w)).
Proof.
  intros Hc. unfold save. rewrite <- Hc. clear Hc. monad_unfold. intros E.
  destruct (v && negb (validate cur))%bool.
  - injection E as <- <-. left. split; [reflexivity | right; eauto].
  - destruct (client_eqb orig c) eqn:Ec.
    + injection E as <- <-. left. split; [reflexivity | left].
      split; [reflexivity | now apply client_eqb_eq].
    + destruct ((isModified String.eqb email (Some orig) c
                 || isModified String.eqb phone (Some orig) c)
                && duplicate_key c (db w))%bool.
      * injection E as <- <-. left. split; [reflexivity | right; eauto].
      * injection E as <- <-. right. split; reflexivity.
Qed.

Lemma pre_save_same_password (i : Inputs) (orig cur : Client) :
  password cur = password orig -> pre_save i (Some orig) cur = cur.
Proof.
  intros E. unfold pre_save, isModified. now rewrite E, String.eqb_refl.
Qed.

(** A save that leaves [email] and [phone] as loaded and is valid (or not
    validated) goes through: the stored document becomes [s]. *)
Lemma save_ok (v : bool) (i : Inputs) (orig cur : Client) (w : World) :
  findById (_id orig) (db w) = Some orig ->
  _id cur = _id orig -> email cur = email orig -> phone cur = phone orig ->
  (v && negb (validate cur))%bool = false ->
  exists s w',
    save v i orig cur w = (Ok s, w')
    /\ outbox w' = outbox w
    /\ findById (_id orig) (db w') = Some s
    /\ ((s = pre_save i (Some orig) cur /\ s = orig /\ w' = w)
        \/ (s = set_updatedAt (now i) (pre_save i (Some orig) cur)
            /\ db w' = replace_doc s (db w))).
Proof.
  intros Hf Hid He Hp Hv.
  set (c := pre_save i (Some orig) cur).
  assert (Hc : _id c = _id orig) by (unfold c; now rewrite pre_save_id).
  assert (Hm : (isModified String.eqb email (Some orig) c
                || isModified String.eqb phone (Some orig) c)%bool = false).
  { unfold c, pre_save, isModified.
    destruct (negb (String.eqb (password orig) (password cur))); simpl;
      now rewrite He, Hp, !String.eqb_refl. }
  unfold save. fold c. monad_unfold. rewrite Hv, Hm. simpl.
  destruct (client_eqb orig c) eqn:Ec.
  - apply client_eqb_eq in Ec. exists c, w.
    repeat split; auto. now rewrite Hf, Ec.
  - eexists _, _. split; [reflexivity |]. simpl.
    split; [reflexivity |].
    split; [apply findById_replace_doc with (c := orig); auto |].
    right. auto.
Qed.

(** [generateAccessRefreshTokens] on a stored client always succeeds, and
    the refresh token it returns is the one the record then holds. *)
Lemma generateAccessRefreshTokens_ok (i : Inputs) (id : ObjectId) (w : World)
  (client : Client) :
  findById id (db w) = Some client ->
  exists c' w',
    generateAccessRefreshTokens env i (Some id) w
    = (Ok (generateAccessToken env (now i) client,
           generateRefreshToken env (now i) client), w')
    /\ (c' = set_refreshToken (Val (generateRefreshToken env (now i) client)) client
        \/ c' = set_updatedAt (now i)
                  (set_refreshToken
                     (Val (generateRefreshToken env (now i) client)) client))
    /\ findById id (db w') = Some c'
    /\ (db w' = db w \/ db w' = replace_doc c' (db w))
    /\ outbox w' = outbox w.
Proof.
  intros Hf. pose proof (findById_id _ _ _ Hf) as Hid. subst id.
  set (cur := set_refreshToken (Val (generateRefreshToken env (now i) client)) client).
  destruct (save_ok false i client cur w Hf) as (s & w' & Es & Ho & Hf' & Hs);
    try reflexivity.
  rewrite (pre_save_same_password i client cur eq_refl) in Hs.
  exists s, w'. unfold generateAccessRefreshTokens. mstep.
  rewrite Hf. fold cur. rewrite (bind_ok _ _ _ _ _ Es). mstep.
  split; [reflexivity |].
  destruct Hs as [(Hs & _ & Hw) | (Hs & Hdb)].
  - subst w'. auto.
  - auto.
Qed.

Lemma findById_of_In (c : Client) (d : list Client) :
  In c d -> exists c0, findById (_id c) d = Some c0.
Proof.
  intros Hin. unfold findById.
  destruct (find (fun x => Nat.eqb (_id x) (_id c)) d) eqn:E; [eauto |].
  pose proof (find_none _ _ E _ Hin) as Hn. simpl in Hn.
  now rewrite Nat.eqb_refl in Hn.
Qed.

(** ** Login *)

(** C4 (amended). Login fails with 404 when no record matches the email (as
    trimmed); otherwise, for a request that carries a password, with 401
    when the password does not verify against the stored hash, and
    otherwise with 401 when the record is not verified; none of these
    failures touches the store.  A verified record with matching
    credentials is issued a token pair, and only such a record is.  A
    request without a password whose email matches a record gets no 401:
    [bcrypt.compare] throws its own error, and nothing is issued. *)
Theorem loginClient_gates (i : Inputs) (req : Req) (w : World) :
  (findOne_email (body_email (body req)) (db w) = None ->
   loginClient env i req w
   = (Throw (ApiError 404 "Requested user doesn't exist"), w))
  /\ (forall client p,
        findOne_email (body_email (body req)) (db w) = Some client ->
        body_password (body req) = Some p ->
        isPasswordCorrect client p = false ->
        loginClient env i req w
        = (Throw (ApiError 401 "Invalid user credentials"), w))
  /\ (forall client p,
        findOne_email (body_email (body req)) (db w) = Some client ->
        body_password (body req) = Some p ->
        isPasswordCorrect client p = true ->
        verified client = false ->
        loginClient env i req w
        = (Throw (ApiError 401 "Please verify your email first"), w))
  /\ (forall client p,
        findOne_email (body_email (body req)) (db w) = Some client ->
        body_password (body req) = Some p ->
        isPasswordCorrect client p = true ->
        verified client = true ->
        exists resp w',
          loginClient env i req w = (Ok resp, w')
          /\ status resp = 200
          /\ exists accessToken refreshToken,
              cookies resp = token_cookies accessToken refreshToken)
  /\ (forall resp w',
        loginClient env i req w = (Ok resp, w') ->
        exists client p,
          findOne_email (body_email (body req)) (db w) = Some client
          /\ body_password (body req) = Some p
          /\ isPasswordCorrect client p = true
          /\ verified client = true)
  /\ (forall client,
        findOne_email (body_email (body req)) (db w) = Some client ->
        body_password (body req) = None ->
        loginClient env i req w = (Throw IllegalArguments, w)).
Proof.
  unfold loginClient. monad_unfold.
  repeat split.
  - intros ->. reflexivity.
  - intros client p E1 E2 E3. rewrite E1, E2. cbv beta iota.
    rewrite E3. reflexivity.
  - intros client p E1 E2 E3 E4. rewrite E1, E2. cbv beta iota.
    rewrite E3, E4. reflexivity.
  - intros client p E E2 E3 E4. rewrite E, E2. cbv beta iota.
    rewrite E3, E4. cbv beta iota delta [negb].
    apply find_some in E. destruct E as [Hin _].
    destruct (findById_of_In _ _ Hin) as [c0 Hc0].
    destruct (generateAccessRefreshTokens_ok i _ w c0 Hc0)
      as (c' & w' & -> & _).
    eexists _, _. split; [reflexivity |]. simpl. eauto.
  - intros resp w'.
    destruct (findOne_email (body_email (body req)) (db w)) as [client |];
      [| discriminate].
    destruct (body_password (body req)) as [p |]; [| discriminate].
    destruct (isPasswordCorrect client p) eqn:Ep; [| discriminate].
    destruct (verified client) eqn:Ev; [| discriminate].
    intros _. eauto 10.
  - intros client E1 E2. rewrite E1, E2. reflexivity.
Qed.

(** ** Token refresh *)

Lemma differs_iff (stored : Field string) (s : string) :
  differs stored s = false <-> stored = Val s.
Proof.
  destruct stored as [| | a]; simpl; split; try discriminate.
  - intros E. apply negb_false_iff, String.eqb_eq in E. now subst.
  - intros [= ->]. now rewrite String.eqb_refl.
Qed.

Lemma differs_true (stored : Field string) (s : string) :
  stored <> Val s -> differs stored s = true.
Proof.
  intros Hn. destruct (differs stored s) eqn:E; [reflexivity |].
  now apply differs_iff in E.
Qed.

Lemma jwt_verify_pure (tok secret : string) (clock : Z) (w w0 : World)
  (r : Result Claims) :
  jwt_verify tok secret clock w = (r, w0) ->
  w0 = w /\ forall w1, jwt_verify tok secret clock w1 = (r, w1).
Proof.
  unfold jwt_verify. monad_unfold.
  destruct (jwt_decode tok secret) as [c |].
  - destruct (exp c <=? clock / 1000); intros [= <- <-]; auto.
  - intros [= <- <-]; auto.
Qed.

Lemma jwt_verify_unexpired (tok secret : string) (clock : Z) (w : World)
  (claims : Claims) :
  jwt_decode tok secret = Some claims -> clock / 1000 < exp claims ->
  jwt_verify tok secret clock w = (Ok claims, w).
Proof.
  intros Hd Hx. unfold jwt_verify. rewrite Hd.
  assert (Hle : (exp claims <=? clock / 1000) = false) by (apply Z.leb_gt; lia).
  now rewrite Hle.
Qed.

Lemma jwt_verify_inv (tok secret : string) (clock : Z) (w w0 : World)
  (claims : Claims) :
  jwt_verify tok secret clock w = (Ok claims, w0) ->
  jwt_decode tok secret = Some claims /\ clock / 1000 < exp claims.
Proof.
  unfold jwt_verify. monad_unfold.
  destruct (jwt_decode tok secret) as [c |]; [| discriminate].
  destruct (exp c <=? clock / 1000) eqn:E; [discriminate |].
  intros [= <-]. split; [reflexivity | now apply Z.leb_gt].
Qed.

(** A presented token whose expiry second has come is not looked up:
    [jwt.verify] throws, and the handler does not catch it. *)
Lemma refreshAccessToken_expired (i : Inputs) (req : Req) (w : World)
  (tok : string) (claims : Claims) :
  incomingToken req = Some tok -> tok <> "" ->
  jwt_decode tok (REFRESH_TOKEN_SECRET env) = Some claims ->
  exp claims <= now i / 1000 ->
  refreshAccessToken env i req w = (Throw TokenExpiredError, w).
Proof.
  intros Hin Hne Hd Hexp.
  assert (Ht : truthy (Some tok) = true).
  { simpl. apply negb_true_iff. now apply String.eqb_neq. }
  unfold refreshAccessToken. cbv zeta. rewrite Hin, Ht. mstep.
  unfold jwt_verify at 1. rewrite Hd.
  assert (Hx : (exp claims <=? now i / 1000) = true) by now apply Z.leb_le.
  now rewrite Hx.
Qed.

(** The refresh token is a function of the subject and of the second it is
    signed in. *)
Lemma generateRefreshToken_second (t1 t2 : Z) (c : Client) :
  t1 / 1000 = t2 / 1000 ->
  generateRefreshToken env t1 c = generateRefreshToken env t2 c.
Proof. intros Ht. unfold generateRefreshToken, jwt_sign. now rewrite Ht. Qed.

(** A presented token that verifies but is not the one stored on its
    subject's record is refused, and the store is left as it is. *)
Lemma refreshAccessToken_mismatch (i : Inputs) (req : Req) (w : World)
  (tok : string) (claims : Claims) :
  incomingToken req = Some tok -> tok <> "" ->
  jwt_verify tok (REFRESH_TOKEN_SECRET env) (now i) w = (Ok claims, w) ->
  (forall client,
      findById_opt (p_id (payload claims)) (db w) = Some client ->
      refreshToken client <> Val tok) ->
  refreshAccessToken env i req w
  = (Throw (ApiError 401 "Invalid or expired refresh token"), w).
Proof.
  intros Hin Hne Hv Hmis.
  unfold refreshAccessToken. cbv zeta. rewrite Hin.
  assert (Ht : truthy (Some tok) = true).
  { simpl. apply negb_true_iff. now apply String.eqb_neq. }
  mstep. rewrite Ht. mstep. rewrite (bind_ok _ _ _ _ _ Hv). mstep.
  destruct (findById_opt (p_id (payload claims)) (db w)) as [client |] eqn:Ef;
    [| reflexivity].
  mstep. now rewrite (differs_true _ _ (Hmis client eq_refl)).
Qed.

(** The presented token is the stored one: a new pair is issued, returned
    and stored. *)
Lemma refreshAccessToken_match (i : Inputs) (req : Req) (w : World)
  (tok : string) (claims : Claims) (client : Client) :
  incomingToken req = Some tok -> tok <> "" ->
  jwt_verify tok (REFRESH_TOKEN_SECRET env) (now i) w = (Ok claims, w) ->
  findById_opt (p_id (payload claims)) (db w) = Some client ->
  refreshToken client = Val tok ->
  exists resp w' c',
    refreshAccessToken env i req w = (Ok resp, w')
    /\ status resp = 200
    /\ cookies resp
       = token_cookies (generateAccessToken env (now i) client)
           (generateRefreshToken env (now i) client)
    /\ data (json resp)
       = DTokens (generateAccessToken env (now i) client)
           (generateRefreshToken env (now i) client)
    /\ findById_opt (p_id (payload claims)) (db w') = Some c'
    /\ refreshToken c' = Val (generateRefreshToken env (now i) client).
Proof.
  intros Hin Hne Hv Hf Hm.
  assert (Ht : truthy (Some tok) = true).
  { simpl. apply negb_true_iff. now apply String.eqb_neq. }
  destruct (p_id (payload claims)) as [id |] eqn:Eid; [| discriminate].
  simpl in Hf.
  pose proof (findById_id _ _ _ Hf) as Hid.
  destruct (generateAccessRefreshTokens_ok i id w client Hf)
    as (c' & w' & Eg & Hc' & Hf' & _).
  unfold refreshAccessToken. cbv zeta. rewrite Hin.
  mstep. rewrite Ht. mstep. rewrite (bind_ok _ _ _ _ _ Hv). mstep.
  rewrite Eid. mstep. rewrite Hf. mstep.
  apply differs_iff in Hm. rewrite Hm. mstep.
  rewrite Hid, (bind_ok _ _ _ _ _ Eg). mstep.
  eexists _, _, c'. split; [reflexivity |]. simpl.
  repeat split; auto.
  destruct Hc' as [-> | ->]; reflexivity.
Qed.

(** C3 (amended). [refreshAccessToken] fails with 401 when no token is
    presented, and with 401 when the presented token verifies but is not
    the refresh token stored on the decoded subject's record (or the
    subject has no record).  When it is the stored one, the call succeeds,
    a new pair is issued and returned, and the new refresh token is stored.
    If the presented token was issued in another second than the rotation
    (and the new token decodes to the claims it was signed with), the
    stored token is no longer the presented one, and every replay of the
    presented token is refused: with 401 until its expiry second, with
    [TokenExpiredError] from then on.  If it was issued in the second of
    the rotation, the token signed is the same and stays stored. *)
Theorem refreshAccessToken_rotation (i : Inputs) (req : Req) (w : World) :
  (truthy (incomingToken req) = false ->
   refreshAccessToken env i req w
   = (Throw (ApiError 401 "Unauthorized request"), w))
  /\ (forall tok claims,
        incomingToken req = Some tok -> tok <> "" ->
        jwt_verify tok (REFRESH_TOKEN_SECRET env) (now i) w = (Ok claims, w) ->
        (forall client,
            findById_opt (p_id (payload claims)) (db w) = Some client ->
            refreshToken client <> Val tok) ->
        refreshAccessToken env i req w
        = (Throw (ApiError 401 "Invalid or expired refresh token"), w))
  /\ (forall tok claims client,
        incomingToken req = Some tok -> tok <> "" ->
        jwt_verify tok (REFRESH_TOKEN_SECRET env) (now i) w = (Ok claims, w) ->
        findById_opt (p_id (payload claims)) (db w) = Some client ->
        refreshToken client = Val tok ->
        exists resp w' c',
          refreshAccessToken env i req w = (Ok resp, w')
          /\ cookies resp
             = token_cookies (generateAccessToken env (now i) client)
                 (generateRefreshToken env (now i) client)
          /\ data (json resp)
             = DTokens (generateAccessToken env (now i) client)
                 (generateRefreshToken env (now i) client)
          /\ findById_opt (p_id (payload claims)) (db w') = Some c'
          /\ refreshToken c' = Val (generateRefreshToken env (now i) client)
          /\ (iat claims <> now i / 1000 ->
              jwt_decode (generateRefreshToken env (now i) client)
                (REFRESH_TOKEN_SECRET env)
              = Some (mkClaims (mkPayload (Some (_id client)) None None None)
                        (now i / 1000)
                        (now i / 1000 + REFRESH_TOKEN_EXPIRY env)) ->
              refreshToken c' <> Val tok
              /\ forall i' req',
                  incomingToken req' = Some tok ->
                  (now i' / 1000 < exp claims ->
                   refreshAccessToken env i' req' w'
                   = (Throw (ApiError 401 "Invalid or expired refresh token"),
                      w'))
                  /\ (exp claims <= now i' / 1000 ->
                      refreshAccessToken env i' req' w'
                      = (Throw TokenExpiredError, w')))
          /\ (forall t0,
                tok = generateRefreshToken env t0 client ->
                t0 / 1000 = now i / 1000 ->
                refreshToken c' = Val tok)).
Proof.
  split; [| split].
  - intros Ht. unfold refreshAccessToken. cbv zeta. mstep. now rewrite Ht.
  - intros tok claims. apply refreshAccessToken_mismatch.
  - intros tok claims client Hin Hne Hv Hf Hm.
    destruct (refreshAccessToken_match i req w tok claims client Hin Hne Hv Hf Hm)
      as (resp & w' & c' & E & _ & Hc & Hd & Hf' & Hr).
    destruct (jwt_verify_inv _ _ _ _ _ _ Hv) as [Hdec _].
    exists resp, w', c'. do 5 (split; [assumption |]). split.
    + intros Hiat Hnew.
      assert (Hdiff : generateRefreshToken env (now i) client <> tok).
      { intros Heq. rewrite Heq, Hdec in Hnew. injection Hnew as Hcl.
        apply Hiat. now rewrite Hcl. }
      assert (Hstale : refreshToken c' <> Val tok).
      { rewrite Hr. intros [= E']. auto. }
      split; [exact Hstale |].
      intros i' req' Hin'. split.
      * intros Hx.
        apply (refreshAccessToken_mismatch i' req' w' tok claims); auto.
        -- now apply jwt_verify_unexpired.
        -- intros client0 Hf0. rewrite Hf' in Hf0. now injection Hf0 as <-.
      * intros Hx. now apply (refreshAccessToken_expired i' req' w' tok claims).
    + intros t0 Htok Hsec. rewrite Hr, Htok. f_equal.
      now apply generateRefreshToken_second.
Qed.

(** ** OTP verification *)

Lemma validate_unmodified (orig cur : Client) :
  name cur = name orig -> email cur = email orig ->
  gender cur = gender orig -> password cur = password orig ->
  phone cur = phone orig ->
  validate cur = validate orig.
Proof.
  intros Hn He Hg Hpw Hp. unfold validate.
  now rewrite Hn, He, Hg, Hpw, Hp.
Qed.

Lemma bind_throw {A B} (m : M A) (k : A -> M B) (w w' : World) (f : Failure) :
  m w = (Throw f, w') -> bind m k w = (Throw f, w').
Proof. unfold bind. now intros ->. Qed.

(** A validating save of a document that fails a validator throws and
    stores nothing. *)
Lemma save_invalid (i : Inputs) (orig cur : Client) (w : World) :
  validate cur = false -> save true i orig cur w = (Throw ValidationError, w).
Proof. intros Hv. unfold save. monad_unfold. now rewrite Hv. Qed.

(** A validating save that returns has validated the document. *)
Lemma save_validated (i : Inputs) (orig cur s : Client) (w w' : World) :
  save true i orig cur w = (Ok s, w') -> validate cur = true.
Proof.
  unfold save. monad_unfold.
  destruct (validate cur); [reflexivity | discriminate].
Qed.

(** Saving the outcome of a verification: the stored record becomes
    verified, with [otp] and [otpExpires] as assigned. *)
Lemma save_verification (i : Inputs) (client : Client) (o : Field string)
  (e : Field Z) (w : World) :
  findById (_id client) (db w) = Some client ->
  validate client = true ->
  exists s w',
    save true i client (set_verification o e client) w = (Ok s, w')
    /\ outbox w' = outbox w
    /\ findById (_id client) (db w') = Some s
    /\ _id s = _id client /\ email s = email client
    /\ verified s = true /\ otp s = o /\ otpExpires s = e
    /\ refreshToken s = refreshToken client
    /\ ((s = client /\ w' = w) \/ db w' = replace_doc s (db w)).
Proof.
  intros Hf Hval.
  destruct (save_ok true i client (set_verification o e client) w Hf)
    as (s & w' & Es & Ho & Hf' & Hs); try reflexivity.
  { rewrite (validate_unmodified client) by reflexivity. now rewrite Hval. }
  rewrite (pre_save_same_password i client (set_verification o e client) eq_refl)
    in Hs.
  exists s, w'. split; [exact Es |]. split; [exact Ho |]. split; [exact Hf' |].
  destruct Hs as [(Hs & Hc & Hw) | (Hs & Hdb)].
  - rewrite Hs. simpl. repeat split. left. split; congruence.
  - rewrite Hs. simpl. repeat split. right. now rewrite <- Hs.
Qed.

Lemma otp_check_fails (client : Client) (code : string) (clock : Z) :
  otp client <> Val code
  \/ (exists t, otpExpires client = Val t /\ t < clock) ->
  (differs (otp client) code || before (otpExpires client) clock)%bool = true.
Proof.
  intros [Hn | (t & Et & Hlt)].
  - now rewrite (differs_true _ _ Hn).
  - rewrite Et. simpl. apply orb_true_iff. right. now apply Z.ltb_lt.
Qed.

Lemma truthy_Some (s : string) : s <> "" -> truthy (Some s) = true.
Proof. intros Hn. simpl. apply negb_true_iff. now apply String.eqb_neq. Qed.

Lemma truthy_inv (o : option string) :
  truthy o = true -> exists s, o = Some s /\ s <> "".
Proof.
  destruct o as [s |]; simpl; [| discriminate].
  intros E. exists s. split; [reflexivity |].
  now apply negb_true_iff, String.eqb_neq in E.
Qed.

Lemma verifyEmail_rejects (i : Inputs) (req : Req) (w : World)
  (client : Client) (code : string) :
  truthy (body_email (body req)) = true ->
  body_otp (body req) = Some code -> code <> "" ->
  findOne_email (body_email (body req)) (db w) = Some client ->
  otp client <> Val code
  \/ (exists t, otpExpires client = Val t /\ t < now i) ->
  verifyEmail i req w = (Throw (ApiError 400 "Invalid or expired OTP"), w).
Proof.
  intros Hte Ho Hne Hf Hbad.
  unfold verifyEmail. cbv zeta. rewrite Hte, Ho, (truthy_Some _ Hne). mstep.
  rewrite Hf. mstep. now rewrite (otp_check_fails _ _ _ Hbad).
Qed.

Lemma verifyOtp_rejects (i : Inputs) (req : Req) (w : World) (id : ObjectId)
  (client : Client) (code : string) :
  body_clientId (body req) = Some id ->
  body_otp (body req) = Some code -> code <> "" ->
  findById id (db w) = Some client ->
  otp client <> Val code
  \/ (exists t, otpExpires client = Val t /\ t < now i) ->
  verifyOtp env i req w = (Throw (ApiError 400 "Invalid or expired OTP"), w).
Proof.
  intros Hid Ho Hne Hf Hbad.
  unfold verifyOtp. cbv zeta. rewrite Hid, Ho, (truthy_Some _ Hne). mstep.
  rewrite Hf. mstep. now rewrite (otp_check_fails _ _ _ Hbad).
Qed.

(** What a successful email-keyed verification has checked and done. *)
Lemma verifyEmail_ok (i : Inputs) (req : Req) (w w' : World) (resp : Response) :
  verifyEmail i req w = (Ok resp, w') ->
  exists client code s,
    truthy (body_email (body req)) = true
    /\ body_otp (body req) = Some code /\ code <> ""
    /\ findOne_email (body_email (body req)) (db w) = Some client
    /\ otp client = Val code
    /\ before (otpExpires client) (now i) = false
    /\ save true i client (set_verification Unset Unset client) w = (Ok s, w')
    /\ resp = mkResponse 200 [] []
                (mkApiResponse 200 (DMessage "Email verified successfully") None).
Proof.
  unfold verifyEmail. cbv zeta. monad_unfold.
  destruct (truthy (body_email (body req))) eqn:Hte; [| discriminate].
  destruct (truthy (body_otp (body req))) eqn:Hto; [| discriminate].
  destruct (truthy_inv _ Hto) as (code & Ho & Hne). rewrite Ho.
  cbv beta iota delta [negb orb str].
  destruct (findOne_email (body_email (body req)) (db w)) as [client |] eqn:Hf;
    [| discriminate].
  destruct (differs (otp client) code) eqn:Hd; [discriminate |].
  destruct (before (otpExpires client) (now i)) eqn:Hb; [discriminate |].
  cbv beta iota delta [orb].
  destruct (save true i client (set_verification Unset Unset client) w)
    as [[s | f] w1] eqn:Es; [| discriminate].
  intros [= <- <-]. apply differs_iff in Hd.
  exists client, code, s. auto 10.
Qed.

(** What a successful id-keyed verification has checked and done. *)
Lemma verifyOtp_ok (i : Inputs) (req : Req) (w w' : World) (resp : Response) :
  verifyOtp env i req w = (Ok resp, w') ->
  exists id client code s,
    body_clientId (body req) = Some id
    /\ body_otp (body req) = Some code /\ code <> ""
    /\ findById id (db w) = Some client
    /\ otp client = Val code
    /\ before (otpExpires client) (now i) = false
    /\ save true i client (set_verification Null Null client) w = (Ok s, w')
    /\ cookies resp
       = token_cookies
           (jwt_sign (mkPayload (Some (_id client)) None None None)
              (ACCESS_TOKEN_SECRET env) (ACCESS_TOKEN_EXPIRY env) (now i))
           (jwt_sign (mkPayload (Some (_id client)) None None None)
              (REFRESH_TOKEN_SECRET env) (REFRESH_TOKEN_EXPIRY env) (now i)).
Proof.
  unfold verifyOtp. cbv zeta. monad_unfold.
  destruct (body_clientId (body req)) as [id |] eqn:Hid; [| discriminate].
  destruct (truthy (body_otp (body req))) eqn:Hto; [| discriminate].
  destruct (truthy_inv _ Hto) as (code & Ho & Hne). rewrite Ho.
  cbv beta iota delta [negb str].
  destruct (findById id (db w)) as [client |] eqn:Hf; [| discriminate].
  destruct (differs (otp client) code) eqn:Hd; [discriminate |].
  destruct (before (otpExpires client) (now i)) eqn:Hb; [discriminate |].
  cbv beta iota delta [orb].
  destruct (save true i client (set_verification Null Null client) w)
    as [[s | f] w1] eqn:Es; [| discriminate].
  intros [= <- <-]. apply differs_iff in Hd.
  exists id, client, code, s. auto 10.
Qed.

(** A successful email-keyed verification leaves the record verified, with
    [otp] and [otpExpires] unset. *)
Lemma verifyEmail_clears (i : Inputs) (req : Req) (w w' : World)
  (resp : Response) :
  verifyEmail i req w = (Ok resp, w') ->
  exists c' code,
    truthy (body_email (body req)) = true
    /\ body_otp (body req) = Some code /\ code <> ""
    /\ findOne_email (body_email (body req)) (db w') = Some c'
    /\ verified c' = true /\ otp c' = Unset /\ otpExpires c' = Unset.
Proof.
  intros E.
  destruct (verifyEmail_ok i req w w' resp E)
    as (client & code & s & Hte & Ho & Hne & Hf & Hotp & _ & Es & _).
  pose proof (pre_save_same_password i client
                (set_verification Unset Unset client) eq_refl) as Hps.
  destruct (save_inv true i client _ w w' (Ok s) _ (eq_sym Hps) Es)
    as [(_ & [(_ & Hc) | (f & Hr)]) | (Hr & Hw)].
  - rewrite Hc in Hotp. discriminate.
  - discriminate.
  - injection Hr as ->. subst w'. simpl db.
    exists (set_updatedAt (now i) (set_verification Unset Unset client)), code.
    do 3 (split; [assumption |]).
    split; [| repeat split].
    unfold findOne_email in *.
    apply find_replace_doc with (c := client); auto.
    apply find_some in Hf. apply Hf.
Qed.

(** A successful id-keyed verification leaves the record verified, with
    [otp] and [otpExpires] null. *)
Lemma verifyOtp_clears (i : Inputs) (req : Req) (w w' : World)
  (resp : Response) :
  verifyOtp env i req w = (Ok resp, w') ->
  exists id c' code,
    body_clientId (body req) = Some id
    /\ body_otp (body req) = Some code /\ code <> ""
    /\ findById id (db w') = Some c'
    /\ verified c' = true /\ otp c' = Null /\ otpExpires c' = Null.
Proof.
  intros E.
  destruct (verifyOtp_ok i req w w' resp E)
    as (id & client & code & s & Hid & Ho & Hne & Hf & Hotp & _ & Es & _).
  pose proof (findById_id _ _ _ Hf) as Hcid. subst id.
  destruct (save_verification i client Null Null w Hf
              (save_validated _ _ _ _ _ _ Es))
    as (s0 & w0 & Es0 & _ & Hf0 & _ & _ & Hv & Hotp0 & Hexp0 & _).
  rewrite Es in Es0. injection Es0 as <- <-.
  exists (_id client), s, code. auto 10.
Qed.

(** C5. Both OTP verification entry points fail with the invalid-or-expired
    error when the supplied code is not the stored one or the stored expiry
    is earlier than the clock; on success the stored record is verified,
    its [otp] and [otpExpires] are cleared, and verifying again with the
    same request fails with that error. *)
Theorem otp_verification (i : Inputs) (req : Req) (w : World) :
  (forall client code,
      truthy (body_email (body req)) = true ->
      body_otp (body req) = Some code -> code <> "" ->
      findOne_email (body_email (body req)) (db w) = Some client ->
      otp client <> Val code
      \/ (exists t, otpExpires client = Val t /\ t < now i) ->
      verifyEmail i req w
      = (Throw (ApiError 400 "Invalid or expired OTP"), w))
  /\ (forall resp w',
        verifyEmail i req w = (Ok resp, w') ->
        exists c',
          findOne_email (body_email (body req)) (db w') = Some c'
          /\ verified c' = true /\ otp c' = Unset /\ otpExpires c' = Unset
          /\ forall i',
              verifyEmail i' req w'
              = (Throw (ApiError 400 "Invalid or expired OTP"), w'))
  /\ (forall id client code,
        body_clientId (body req) = Some id ->
        body_otp (body req) = Some code -> code <> "" ->
        findById id (db w) = Some client ->
        otp client <> Val code
        \/ (exists t, otpExpires client = Val t /\ t < now i) ->
        verifyOtp env i req w
        = (Throw (ApiError 400 "Invalid or expired OTP"), w))
  /\ (forall resp w',
        verifyOtp env i req w = (Ok resp, w') ->
        exists id c',
          body_clientId (body req) = Some id
          /\ findById id (db w') = Some c'
          /\ verified c' = true /\ otp c' = Null /\ otpExpires c' = Null
          /\ forall i',
              verifyOtp env i' req w'
              = (Throw (ApiError 400 "Invalid or expired OTP"), w')).
Proof.
  split; [intros client code; apply verifyEmail_rejects |].
  split; [| split; [intros id client code; apply verifyOtp_rejects |]].
  - intros resp w' E.
    destruct (verifyEmail_clears i req w w' resp E)
      as (c' & code & Hte & Ho & Hne & Hf & Hv & Hotp & Hexp).
    exists c'. do 4 (split; [assumption |]).
    intros i'. eapply verifyEmail_rejects; eauto.
    left. rewrite Hotp. discriminate.
  - intros resp w' E.
    destruct (verifyOtp_clears i req w w' resp E)
      as (id & c' & code & Hid & Ho & Hne & Hf & Hv & Hotp & Hexp).
    exists id, c'. do 5 (split; [assumption |]).
    intros i'. eapply verifyOtp_rejects; eauto.
    left. rewrite Hotp. discriminate.
Qed.

(** C8 (amended). The refresh token the id-keyed [verifyOtp] returns is
    not written to the record: the stored [refreshToken] is what it was.
    A later [refreshAccessToken] presenting the returned token is refused
    with 401 until the token's expiry second, unless the token equals the
    stored one, in which case it is accepted; from the expiry second on it
    is not answered with 401: [jwt.verify] throws [TokenExpiredError]. *)
Theorem verifyOtp_token_not_stored (i : Inputs) (req : Req) (w w' : World)
  (resp : Response) :
  verifyOtp env i req w = (Ok resp, w') ->
  exists id stored stored' accessToken returned,
    body_clientId (body req) = Some id
    /\ findById id (db w) = Some stored
    /\ findById id (db w') = Some stored'
    /\ refreshToken stored' = refreshToken stored
    /\ cookies resp = token_cookies accessToken returned
    /\ forall i' req' claims,
        incomingToken req' = Some returned ->
        jwt_decode returned (REFRESH_TOKEN_SECRET env) = Some claims ->
        p_id (payload claims) = Some id ->
        (now i' / 1000 < exp claims ->
         (refreshToken stored <> Val returned ->
          exists msg,
            refreshAccessToken env i' req' w' = (Throw (ApiError 401 msg), w'))
         /\ (refreshToken stored = Val returned -> returned <> "" ->
             exists resp' w'',
               refreshAccessToken env i' req' w' = (Ok resp', w'')))
        /\ (exp claims <= now i' / 1000 -> returned <> "" ->
            refreshAccessToken env i' req' w' = (Throw TokenExpiredError, w')).
Proof.
  intros E.
  destruct (verifyOtp_ok i req w w' resp E)
    as (id & client & code & s & Hid & _ & _ & Hf & _ & _ & Es & Hck).
  pose proof (findById_id _ _ _ Hf) as Hcid. subst id.
  destruct (save_verification i client Null Null w Hf
              (save_validated _ _ _ _ _ _ Es))
    as (s0 & w0 & Es0 & _ & Hf0 & _ & _ & _ & _ & _ & Hrt & _).
  rewrite Es in Es0. injection Es0 as <- <-.
  eexists (_id client), client, s, _, _.
  do 5 (split; [eauto |]).
  intros i' req' claims Hin Hdec Hsub. split.
  - intros Hx.
    pose proof (jwt_verify_unexpired _ _ (now i') w' claims Hdec Hx) as Hv.
    split.
    + intros Hne.
      destruct (String.eqb
                  (jwt_sign (mkPayload (Some (_id client)) None None None)
                     (REFRESH_TOKEN_SECRET env) (REFRESH_TOKEN_EXPIRY env) (now i))
                  "") eqn:Eempty.
      * apply String.eqb_eq in Eempty.
        exists "Unauthorized request".
        unfold refreshAccessToken. cbv zeta. rewrite Hin, Eempty. reflexivity.
      * apply String.eqb_neq in Eempty.
        exists "Invalid or expired refresh token".
        eapply refreshAccessToken_mismatch; eauto.
        rewrite Hsub. simpl. intros c Hc. rewrite Hf0 in Hc. injection Hc as <-.
        now rewrite Hrt.
    + intros Heq Hne.
      destruct (refreshAccessToken_match i' req' w' _ claims s Hin Hne Hv)
        as (resp' & w'' & _ & Er & _).
      * rewrite Hsub. exact Hf0.
      * now rewrite Hrt.
      * eauto.
  - intros Hx Hne.
    eapply refreshAccessToken_expired; eauto.
Qed.

(** What a successful login returns and stores. *)
Lemma loginClient_ok (i : Inputs) (req : Req) (w w' : World) (resp : Response) :
  loginClient env i req w = (Ok resp, w') ->
  exists client c' accessToken refreshToken',
    findOne_email (body_email (body req)) (db w) = Some client
    /\ resp = mkResponse 200 (token_cookies accessToken refreshToken') []
                (mkApiResponse 200
                   (DLogin
                      (Some (select_minus ["password"; "refreshToken"] (toJSON c')))
                      accessToken refreshToken')
                   (Some "Client logged in successfully!"))
    /\ findById (_id client) (db w') = Some c'
    /\ refreshToken c' = Val refreshToken'.
Proof.
  unfold loginClient. mstep.
  destruct (findOne_email (body_email (body req)) (db w)) as [client |] eqn:Ef;
    [| discriminate].
  destruct (body_password (body req)) as [p |]; [| discriminate].
  destruct (isPasswordCorrect client p); [| discriminate].
  destruct (verified client); [| discriminate].
  mstep.
  apply find_some in Ef. destruct Ef as [Hin _].
  destruct (findById_of_In _ _ Hin) as [c0 Hc0].
  destruct (generateAccessRefreshTokens_ok i _ w c0 Hc0)
    as (c' & w1 & Eg & Hc' & Hf' & _).
  rewrite (bind_ok _ _ _ _ _ Eg). mstep. rewrite Hf'. intros [= <- <-].
  eexists client, c', _, _. simpl. repeat split; eauto.
  destruct Hc' as [-> | ->]; reflexivity.
Qed.

(** ** Projections *)

Lemma has_key_select_minus (k : string) (excl : list string) (o : Doc) :
  has_key k (select_minus excl o)
  = (has_key k o && negb (existsb (String.eqb k) excl))%bool.
Proof.
  unfold has_key, select_minus.
  induction o as [| [k' v] o IH]; simpl; [reflexivity |].
  destruct (String.eqb k' k) eqn:Ek.
  - apply String.eqb_eq in Ek. subst k'.
    destruct (existsb (String.eqb k) excl); simpl.
    + rewrite IH. now rewrite andb_false_r.
    + now rewrite String.eqb_refl.
  - destruct (existsb (String.eqb k') excl); simpl.
    + exact IH.
    + now rewrite Ek.
Qed.

Lemma select_minus_excludes (k : string) (excl : list string) (o : Doc) :
  existsb (String.eqb k) excl = true ->
  has_key k (select_minus excl o) = false.
Proof.
  intros E. rewrite has_key_select_minus, E. apply andb_false_r.
Qed.

Lemma has_key_otp (c : Client) :
  has_key "otp" (toJSON c) = negb (is_unset (otp c))
  /\ has_key "otpExpires" (toJSON c) = negb (is_unset (otpExpires c)).
Proof.
  destruct c as [? ? ? ? ? ? ? ? ? rt vt ? o oe ? ? ?].
  unfold toJSON; simpl.
  destruct rt, vt, o, oe; split; reflexivity.
Qed.

Lemma redacted_select_minus (excl : list string) (o : Doc) :
  existsb (String.eqb "password") excl = true ->
  existsb (String.eqb "refreshToken") excl = true ->
  existsb (String.eqb "otp") excl = true ->
  existsb (String.eqb "otpExpires") excl = true ->
  redacted (select_minus excl o).
Proof.
  intros. repeat split; now apply select_minus_excludes.
Qed.

(** C2 (amended). The success responses of [getCurrentClient],
    [getAllClients] and [getClientById] never contain the [password],
    [refreshToken], [otp] or [otpExpires] path of a record.  The document
    in a login response never contains [password] or [refreshToken]; its
    projection strips nothing else, so [otp] and [otpExpires] are in it
    exactly when the record has them, as a value or as [null]. *)
Theorem sanitized_outputs (i : Inputs) (req : Req) (w : World) :
  (forall resp w',
      loginClient env i req w = (Ok resp, w') ->
      exists c' doc accessToken refreshToken',
        data (json resp) = DLogin (Some doc) accessToken refreshToken'
        /\ In c' (db w')
        /\ doc = select_minus ["password"; "refreshToken"] (toJSON c')
        /\ has_key "password" doc = false
        /\ has_key "refreshToken" doc = false
        /\ has_key "otp" doc = negb (is_unset (otp c'))
        /\ has_key "otpExpires" doc = negb (is_unset (otpExpires c')))
  /\ (forall resp w' doc,
        getCurrentClient i req w = (Ok resp, w') ->
        data (json resp) = DClient doc -> redacted doc)
  /\ (forall resp w' docs pg,
        getAllClients i req w = (Ok resp, w') ->
        data (json resp) = DClients docs pg -> Forall redacted docs)
  /\ (forall resp w' doc,
        getClientById i req w = (Ok resp, w') ->
        data (json resp) = DClient doc -> redacted doc).
Proof.
  split; [| split; [| split]].
  - intros resp w' E.
    destruct (loginClient_ok i req w w' resp E)
      as (client & c' & a & r & _ & -> & Hf & _).
    exists c', (select_minus ["password"; "refreshToken"] (toJSON c')), a, r.
    split; [reflexivity |].
    split; [unfold findById in Hf; now apply find_some in Hf |].
    split; [reflexivity |].
    rewrite !has_key_select_minus.
    destruct (has_key_otp c') as [-> ->]. simpl.
    now rewrite !andb_false_r, !andb_true_r.
  - intros resp w' doc. unfold getCurrentClient. mstep.
    intros [= <- <-]. simpl.
    destruct (findById (client_id req) (db w)); simpl; [| discriminate].
    intros [= <-]. now apply redacted_select_minus.
  - intros resp w' docs pg. unfold getAllClients. cbv zeta.
    match goal with |- context [throw_if ?c _] => destruct c end;
      mstep; [discriminate |].
    intros [= <- <-]. simpl. intros [= <- _].
    apply Forall_forall. intros doc Hin.
    apply in_map_iff in Hin. destruct Hin as (c & <- & _).
    now apply redacted_select_minus.
  - intros resp w' doc. unfold getClientById.
    destruct (params_clientId req) as [id |]; [| discriminate]. mstep.
    destruct (findById id (db w)); mstep; [| discriminate].
    intros [= <- <-]. simpl. intros [= <-].
    now apply redacted_select_minus.
Qed.

(** ** Listing *)

Lemma insert_sorted_perm (cmp : Client -> Client -> comparison) (x : Client)
  (l : list Client) :
  Permutation (x :: l) (insert_sorted cmp x l).
Proof.
  induction l as [| y l IH]; simpl; [reflexivity |].
  destruct (cmp x y); try reflexivity.
  rewrite perm_swap. now constructor.
Qed.

Lemma sort_docs_perm (cmp : Client -> Client -> comparison) (l : list Client) :
  Permutation l (sort_docs cmp l).
Proof.
  unfold sort_docs. induction l as [| x l IH]; simpl; [reflexivity |].
  rewrite <- insert_sorted_perm. now constructor.
Qed.

Lemma ceil_div_pos (a b : Z) :
  0 < b ->
  exists q, ceil_div a b = Fin q /\ (q - 1) * b < a <= q * b.
Proof.
  intros Hb. unfold ceil_div.
  destruct (b =? 0) eqn:E; [apply Z.eqb_eq in E; lia |].
  exists (- (- a / b)). split; [reflexivity |].
  pose proof (Z.mul_div_le (- a) b Hb).
  pose proof (Z.mul_succ_div_gt (- a) b Hb).
  nia.
Qed.

(** What a listing with a positive page and limit returns. *)
Lemma getAllClients_page (i : Inputs) (req : Req) (w : World) (page limit : Z) :
  requested_page (query req) = page ->
  requested_limit (query req) = limit ->
  1 <= page -> 1 <= limit ->
  getAllClients i req w
  = (Ok (mkResponse 200 [] []
           (mkApiResponse 200
              (DClients
                 (map (fun c => select_minus
                                  ["password"; "refreshToken"; "otp";
                                   "otpExpires"; "verificationToken"] (toJSON c))
                    (firstn (Z.to_nat limit)
                       (skipn (Z.to_nat ((page - 1) * limit))
                          (sort_docs (requested_order (query req))
                             (matching (query req) (db w))))))
                 (mkPagination page
                    (ceil_div (Z.of_nat (List.length (matching (query req) (db w))))
                       limit)
                    (Z.of_nat (List.length (matching (query req) (db w))))
                    (js_lt page
                       (ceil_div
                          (Z.of_nat (List.length (matching (query req) (db w))))
                          limit))
                    (1 <? page)))
              (Some "Clients retrieved successfully"))), w).
Proof.
  intros Hp Hl Hp1 Hl1.
  unfold getAllClients. cbv zeta.
  change (match query_page (query req) with Some p => p | None => 1 end)
    with (requested_page (query req)).
  change (match query_limit (query req) with Some l => l | None => 10 end)
    with (requested_limit (query req)).
  rewrite Hp, Hl.
  assert (Hs : ((page - 1) * limit <? 0) = false) by (apply Z.ltb_ge; nia).
  mstep. rewrite Hs. mstep.
  unfold limit_docs.
  assert (Hz : (limit =? 0) = false) by (apply Z.eqb_neq; lia).
  rewrite Hz. rewrite (Z.abs_eq limit) by lia. reflexivity.
Qed.

(** C7. A listing with [page=2] and [limit=10] over 25 matching records
    returns 10 records with [totalPages = 3], [hasNextPage = true] and
    [hasPrevPage = true].  In general, for a positive page and limit, it
    returns at most [limit] of the matching records in the requested order
    after skipping [(page - 1) * limit] of them, [totalPages] is the ceiling
    of [totalClients / limit], [hasNextPage] holds iff [page < totalPages]
    and [hasPrevPage] iff [page > 1]. *)
Theorem getAllClients_pagination (i : Inputs) (req : Req) (w : World) :
  (forall page limit,
      requested_page (query req) = page ->
      requested_limit (query req) = limit ->
      1 <= page -> 1 <= limit ->
      exists resp docs pg sorted,
        getAllClients i req w = (Ok resp, w)
        /\ data (json resp) = DClients docs pg
        /\ sorted
           = sort_docs (requested_order (query req))
               (matching (query req) (db w))
        /\ Permutation (matching (query req) (db w)) sorted
        /\ docs
           = map (fun c => select_minus
                             ["password"; "refreshToken"; "otp"; "otpExpires";
                              "verificationToken"] (toJSON c))
               (firstn (Z.to_nat limit)
                  (skipn (Z.to_nat ((page - 1) * limit)) sorted))
        /\ currentPage pg = page
        /\ totalClients pg
           = Z.of_nat (List.length (matching (query req) (db w)))
        /\ (exists tp,
              totalPages pg = Fin tp
              /\ (tp - 1) * limit < totalClients pg <= tp * limit
              /\ (hasNextPage pg = true <-> page < tp))
        /\ (hasPrevPage pg = true <-> 1 < page))
  /\ (requested_page (query req) = 2 ->
      requested_limit (query req) = 10 ->
      List.length (matching (query req) (db w)) = 25%nat ->
      exists resp docs pg,
        getAllClients i req w = (Ok resp, w)
        /\ data (json resp) = DClients docs pg
        /\ List.length docs = 10%nat
        /\ totalPages pg = Fin 3
        /\ hasNextPage pg = true
        /\ hasPrevPage pg = true).
Proof.
  split.
  - intros page limit Hp Hl Hp1 Hl1.
    rewrite (getAllClients_page i req w page limit Hp Hl Hp1 Hl1).
    eexists _, _, _, _. split; [reflexivity |]. simpl.
    split; [reflexivity |].
    split; [reflexivity |].
    split; [apply sort_docs_perm |].
    split; [reflexivity |].
    split; [reflexivity |].
    split; [reflexivity |].
    split; [| apply Z.ltb_lt].
    destruct (ceil_div_pos
                (Z.of_nat (List.length (matching (query req) (db w)))) limit)
      as (tp & -> & Htp); [lia |].
    exists tp. split; [reflexivity |]. split; [exact Htp |].
    simpl. apply Z.ltb_lt.
  - intros Hp Hl Hn.
    rewrite (getAllClients_page i req w 2 10 Hp Hl) by lia.
    eexists _, _, _. split; [reflexivity |].
    cbn [json data totalPages hasNextPage hasPrevPage].
    split; [reflexivity |].
    rewrite Hn. split; [| repeat split].
    rewrite length_map, length_firstn, length_skipn.
    rewrite <- (Permutation_length (sort_docs_perm _ _)), Hn. reflexivity.
Qed.

(** ** Registration *)

Lemma fresh_id_bound (d : list Client) (x : Client) :
  In x d -> (_id x < fresh_id d)%nat.
Proof.
  unfold fresh_id. induction d as [| y d IH]; simpl; [contradiction |].
  intros [-> | Hin]; [lia |]. specialize (IH Hin). lia.
Qed.

Lemma find_app_last (P : Client -> bool) (d : list Client) (c : Client) :
  (forall x, In x d -> P x = false) -> P c = true ->
  find P (d ++ [c]) = Some c.
Proof.
  intros Hd Hc. induction d as [| y d IH]; simpl.
  - now rewrite Hc.
  - rewrite (Hd y (or_introl eq_refl)). apply IH.
    intros x Hin. apply Hd. now right.
Qed.

Lemma findById_fresh (d : list Client) (c : Client) :
  _id c = fresh_id d -> findById (fresh_id d) (d ++ [c]) = Some c.
Proof.
  intros Hc. unfold findById. apply find_app_last.
  - intros x Hin. apply Nat.eqb_neq. pose proof (fresh_id_bound d x Hin). lia.
  - rewrite Hc. apply Nat.eqb_refl.
Qed.

(** What a successful registration returns and stores: the response
    carries the created record as it is, and the record then stored under
    its id is that record with the issued refresh token. *)
Lemma registerClient_ok (i : Inputs) (req : Req) (w w' : World)
  (resp : Response) :
  registerClient env i req w = (Ok resp, w') ->
  exists c',
    resp = mkResponse 201
             (token_cookies (generateAccessToken env (now i) (created env i req w))
                (generateRefreshToken env (now i) (created env i req w)))
             []
             (mkApiResponse 201 (DClient (toJSON (created env i req w)))
                (Some "Client registered successfully!"))
    /\ findById (fresh_id (db w)) (db w') = Some c'
    /\ (c' = set_refreshToken
               (Val (generateRefreshToken env (now i) (created env i req w)))
               (created env i req w)
        \/ c' = set_updatedAt (now i)
                  (set_refreshToken
                     (Val (generateRefreshToken env (now i) (created env i req w)))
                     (created env i req w)))
    /\ (db w' = (db w ++ [created env i req w])%list
        \/ db w' = replace_doc c' (db w ++ [created env i req w])%list)
    /\ outbox w'
       = ((outbox w ++ [Sms (str (body_phone (body req))) (generateOTP i)])
          ++ [Email (EMAIL_USER env) (str (body_email (body req)))
                "Your OTP for Email Verification"
                ("<p>Your OTP is: <strong>" ++ generateOTP i
                 ++ "</strong></p><p>This OTP is valid for 5 minutes.</p>")])%list.
Proof.
  unfold registerClient, create. monad_unfold. cbv zeta.
  destruct (blank (body_name (body req)) || _ || _ || _ || _ || _)%bool;
    cbv beta iota; [discriminate |].
  cbn [db outbox].
  destruct (findOne_email_or_phone _ _ None (db w)); [discriminate |].
  cbn [db outbox].
  destruct (is_number _ && validate _)%bool; cbv beta iota delta [negb];
    [| discriminate].
  destruct (duplicate_key _ _); cbv beta iota; [discriminate |].
  unfold pre_save, isModified.
  cbn [set_password _id name email age gender password phone avatar verified
       refreshToken verificationToken tokenVersion otp otpExpires createdAt
       updatedAt __v].
  change (now i + 5 * 60 * 1000) with (now i + 300000).
  fold (created env i req w).
  match goal with
  | |- context [generateAccessRefreshTokens env i (Some ?id) ?w1] =>
      destruct (generateAccessRefreshTokens_ok i id w1 (created env i req w))
        as (c' & w2 & Eg & Hc' & Hf' & Hdb & Hout);
      [apply findById_fresh; reflexivity |]
  end.
  rewrite Eg. intros [= <- <-].
  exists c'. auto.
Qed.

(** C10. The 201 response of a successful registration carries the created
    record as it is, with no projection: its plaintext [otp] (the code that
    was sent), its [otpExpires], its hashed [password] and its
    [verificationToken] are all in the body. *)
Theorem registerClient_response_unredacted (i : Inputs) (req : Req)
  (w w' : World) (resp : Response) :
  registerClient env i req w = (Ok resp, w') ->
  status resp = 201
  /\ statusCode (json resp) = 201
  /\ exists doc,
      data (json resp) = DClient doc
      /\ doc = toJSON (created env i req w)
      /\ get_key "otp" doc = Some (JStr (generateOTP i))
      /\ In (Sms (str (body_phone (body req))) (generateOTP i)) (outbox w')
      /\ get_key "otpExpires" doc = Some (JNum (now i + 5 * 60 * 1000))
      /\ get_key "password" doc
         = Some (JStr (bcrypt_hash (str (body_password (body req))) (salt_hook i)))
      /\ get_key "verificationToken" doc
         = Some (JStr (jwt_sign (mkPayload None (body_email (body req)) None None)
                         (EMAIL_SECRET env) 86400 (now i))).
Proof.
  intros E.
  destruct (registerClient_ok i req w w' resp E)
    as (c' & -> & _ & _ & _ & Hout).
  split; [reflexivity |]. split; [reflexivity |].
  exists (toJSON (created env i req w)).
  repeat split; try reflexivity.
  rewrite Hout. apply in_or_app. left. apply in_or_app. right. now left.
Qed.

(** ** Profile update *)

(** What a successful update with a password has saved. *)
Lemma updateClient_ok (i : Inputs) (req : Req) (w w' : World)
  (resp : Response) (p : string) :
  body_password (body req) = Some p -> p <> "" ->
  updateClient i req w = (Ok resp, w') ->
  exists client cur saved,
    findById (client_id req) (db w) = Some client
    /\ _id cur = _id client
    /\ password cur = bcrypt_hash p (salt_controller i)
    /\ save true i client cur w = (Ok saved, w')
    /\ resp = mkResponse 200 [] []
                (mkApiResponse 200 (DClient (toJSON saved))
                   (Some "Client updated successfully")).
Proof.
  intros Hp Hne. unfold updateClient. cbv zeta. monad_unfold.
  rewrite Hp, (truthy_Some _ Hne). cbn [str].
  destruct (findById (client_id req) (db w)) as [client |] eqn:Hf;
    [| discriminate].
  destruct (ne_stored (body_email (body req)) (email client)
            || ne_stored (body_phone (body req)) (phone client))%bool;
    [destruct (findOne_email_or_phone _ _ _ (db w)); [discriminate |] |];
    (destruct (body_name (body req)) as [n |]; [| discriminate];
     destruct (body_email (body req)) as [e |]; [| discriminate];
     destruct (body_phone (body req)) as [ph |]; [| discriminate];
     destruct (cast_age (body_age (body req))) as [a |]; [| discriminate];
     destruct (body_gender (body req)) as [g |]; [| discriminate];
     match goal with
     | |- context [save true i client ?c w] =>
         destruct (save true i client c w) as [[saved | f] w1] eqn:Es;
         [| discriminate];
         intros [= <- <-]; exists client, c, saved;
         repeat split; auto;
         destruct (truthy (file_path req)); reflexivity
     end).
Qed.

(** C9. An update that supplies a non-empty password [p] hashes it in the
    controller and again in the pre-save hook, so the stored password is
    the hash of a hash: [isPasswordCorrect p] is then false on the stored
    record and a login with [p] fails with 401.  The bcrypt round trip
    ([compare x (hash y)] holds iff [x = y]), a hash never being its own
    input, and the controller's hash differing from the password loaded
    (so that the hook sees the path modified) are assumed. *)
Theorem updateClient_password_double_hashed (i : Inputs) (req : Req)
  (w w' : World) (resp : Response) (p : string) :
  (forall x y s, bcrypt_compare x (bcrypt_hash y s) = String.eqb x y) ->
  (forall y s, bcrypt_hash y s <> y) ->
  body_password (body req) = Some p -> p <> "" ->
  (forall client,
      findById (client_id req) (db w) = Some client ->
      bcrypt_hash p (salt_controller i) <> password client) ->
  updateClient i req w = (Ok resp, w') ->
  exists c',
    findById (client_id req) (db w') = Some c'
    /\ password c'
       = bcrypt_hash (bcrypt_hash p (salt_controller i)) (salt_hook i)
    /\ isPasswordCorrect c' p = false
    /\ forall i' login,
        findOne_email (body_email (body login)) (db w') = Some c' ->
        body_password (body login) = Some p ->
        loginClient env i' login w'
        = (Throw (ApiError 401 "Invalid user credentials"), w').
Proof.
  intros Hcmp Hfix Hp Hne Hnew E.
  destruct (updateClient_ok i req w w' resp p Hp Hne E)
    as (client & cur & saved & Hf & Hid & Hpw & Es & _).
  specialize (Hnew client Hf).
  assert (Hps : pre_save i (Some client) cur
                = set_password
                    (bcrypt_hash (bcrypt_hash p (salt_controller i)) (salt_hook i))
                    cur).
  { unfold pre_save, isModified. rewrite Hpw.
    assert (Hm : String.eqb (password client) (bcrypt_hash p (salt_controller i))
                 = false) by (apply String.eqb_neq; congruence).
    now rewrite Hm. }
  assert (Hstored : exists c',
             findById (client_id req) (db w') = Some c'
             /\ password c'
                = bcrypt_hash (bcrypt_hash p (salt_controller i)) (salt_hook i)).
  { pose proof (findById_id _ _ _ Hf) as Hcid.
    destruct (save_inv true i client cur w w' (Ok saved) _ eq_refl Es)
      as [(-> & [(_ & Hc) | (f & Hr)]) | (Hr & ->)].
    - exists client. split; [exact Hf |]. rewrite Hc at 1. now rewrite Hps.
    - discriminate.
    - injection Hr as ->. eexists. split.
      + simpl db. rewrite <- Hcid.
        apply findById_replace_doc with (c := client); [now rewrite Hcid |].
        simpl. now rewrite pre_save_id.
      + rewrite Hps. reflexivity. }
  destruct Hstored as (c' & Hf' & Hpw').
  assert (Hwrong : isPasswordCorrect c' p = false).
  { unfold isPasswordCorrect. rewrite Hpw', Hcmp.
    apply String.eqb_neq. intros Heq. apply (Hfix p (salt_controller i)).
    now symmetry. }
  exists c'. repeat split; auto.
  intros i' login Hl Hlp. unfold loginClient. mstep.
  rewrite Hl, Hlp. mstep. now rewrite Hwrong.
Qed.

(** ** The pairing of [otp] and [otpExpires] *)

Lemma keeps_ret {A} (a : A) (Q : A -> Prop) : Q a -> keeps (ret a) Q.
Proof. intros HQ w r w' [= <- <-] Hw. split; [exact Hw |]. now intros ? [= <-]. Qed.

Lemma keeps_throw {A} (f : Failure) (Q : A -> Prop) : keeps (throw f) Q.
Proof. intros w r w' [= <- <-] Hw. split; [exact Hw |]. discriminate. Qed.

Lemma keeps_throw_if (c : bool) (f : Failure) :
  keeps (throw_if c f) (fun _ => True).
Proof. unfold throw_if. destruct c; [apply keeps_throw | now apply keeps_ret]. Qed.

Lemma keeps_get_db : keeps get_db (Forall otp_paired).
Proof. intros w r w' [= <- <-] Hw. split; [exact Hw |]. now intros ? [= <-]. Qed.

Lemma keeps_put_db (d : list Client) :
  Forall otp_paired d -> keeps (put_db d) (fun _ => True).
Proof. intros Hd w r w' [= <- <-] Hw. split; [exact Hd | trivial]. Qed.

Lemma keeps_send (m : Mail) : keeps (send m) (fun _ => True).
Proof. intros w r w' [= <- <-] Hw. split; [exact Hw | trivial]. Qed.

Lemma keeps_bind {A B} (m : M A) (k : A -> M B) (Q : A -> Prop)
  (R : B -> Prop) :
  keeps m Q -> (forall a, Q a -> keeps (k a) R) -> keeps (bind m k) R.
Proof.
  intros Hm Hk w r w' E Hw. unfold bind in E.
  destruct (m w) as [[a | f] w1] eqn:Em.
  - destruct (Hm w _ _ Em Hw) as [Hw1 HQ].
    exact (Hk a (HQ a eq_refl) w1 r w' E Hw1).
  - injection E as <- <-. destruct (Hm w _ _ Em Hw) as [Hw1 _].
    split; [exact Hw1 | discriminate].
Qed.

Lemma keeps_try_catch {A} (m : M A) (f : Failure) (Q : A -> Prop) :
  keeps m Q -> keeps (try_catch m f) Q.
Proof.
  intros Hm w r w' E Hw. unfold try_catch in E.
  destruct (m w) as [[a | f'] w1] eqn:Em; injection E as <- <-;
    destruct (Hm w _ _ Em Hw) as [Hw1 HQ]; split; auto; discriminate.
Qed.

Lemma keeps_jwt_verify (tok secret : string) (clock : Z) :
  keeps (jwt_verify tok secret clock) (fun _ => True).
Proof.
  intros w r w' E Hw. apply jwt_verify_pure in E. destruct E as [-> _].
  split; [exact Hw | trivial].
Qed.

Lemma otp_paired_pre_save (i : Inputs) (orig : option Client) (cur : Client) :
  otp_paired cur -> otp_paired (pre_save i orig cur).
Proof. unfold pre_save. now destruct (isModified _ _ _ _). Qed.

Lemma keeps_save (v : bool) (i : Inputs) (orig cur : Client) :
  otp_paired cur -> keeps (save v i orig cur) otp_paired.
Proof.
  intros Hc w r w' E Hw.
  pose proof (otp_paired_pre_save i (Some orig) cur Hc) as Hp.
  destruct (save_inv v i orig cur w w' r _ eq_refl E)
    as [(-> & [(-> & _) | (f & ->)]) | (-> & ->)].
  - split; [exact Hw |]. now intros a [= <-].
  - split; [exact Hw | discriminate].
  - split; [| now intros a [= <-]].
    simpl db. apply Forall_replace_doc; [exact Hp | exact Hw].
Qed.

Lemma keeps_create (i : Inputs) (n e p pw : string) (a : option Z) (g av : string)
  (v : bool) (vt o : string) (oe : Z) :
  keeps (create i n e p pw a g av v vt o oe) otp_paired.
Proof.
  unfold create.
  eapply keeps_bind; [apply keeps_get_db |]. intros d Hd. cbv zeta.
  eapply keeps_bind; [apply keeps_throw_if |]. intros _ _.
  eapply keeps_bind; [apply keeps_throw_if |]. intros _ _.
  assert (Hc : otp_paired
                 (pre_save i None
                    (mkClient (fresh_id d) (trim n) (trim e) (num a) g pw (trim p)
                       av v Null (Val vt) 0 (Val o) (Val oe) (now i) (now i) 0))).
  { apply otp_paired_pre_save. reflexivity. }
  eapply keeps_bind.
  - apply keeps_put_db. apply Forall_app. split; [exact Hd |].
    constructor; [exact Hc | constructor].
  - intros _ _. now apply keeps_ret.
Qed.

Lemma otp_paired_found (id : ObjectId) (d : list Client) (c : Client) :
  Forall otp_paired d -> findById id d = Some c -> otp_paired c.
Proof.
  intros Hd Hf. unfold findById in Hf. apply find_some in Hf.
  rewrite Forall_forall in Hd. apply Hd, Hf.
Qed.

Lemma keeps_generateAccessRefreshTokens (i : Inputs) (id : option ObjectId) :
  keeps (generateAccessRefreshTokens env i id) (fun _ => True).
Proof.
  unfold generateAccessRefreshTokens.
  destruct id as [id |]; [| apply keeps_throw].
  eapply keeps_bind; [apply keeps_get_db |]. intros d Hd.
  destruct (findById id d) as [client |] eqn:Hf; [| apply keeps_throw].
  cbv zeta. eapply keeps_bind.
  - apply keeps_save. exact (otp_paired_found _ _ _ Hd Hf).
  - intros _ _. now apply keeps_ret.
Qed.

Lemma otp_paired_logout (clock : Z) (id : ObjectId) (d : list Client) :
  Forall otp_paired d ->
  Forall otp_paired (findByIdAndUpdate_refreshToken_null clock id d).
Proof.
  intros Hd. unfold findByIdAndUpdate_refreshToken_null.
  destruct (findById id d) as [c |] eqn:Hf; [| exact Hd].
  apply Forall_replace_doc; [| exact Hd].
  exact (otp_paired_found _ _ _ Hd Hf).
Qed.

(** The side condition of a save: the document to store is paired, because
    it assigns both paths together or neither. *)
Ltac paired :=
  first
    [ reflexivity
    | match goal with
      | Hd : Forall otp_paired ?d, Hf : findById _ ?d = Some ?c |- _ =>
          let Hc := fresh "Hc" in
          pose proof (otp_paired_found _ _ _ Hd Hf) as Hc;
          unfold otp_paired in *;
          repeat match goal with
                 | |- context [if ?b then _ else _] => destruct b
                 end;
          exact Hc
      end ].

Ltac keeps_step :=
  lazymatch goal with
  | |- keeps (throw _) _ => apply keeps_throw
  | |- keeps (ret _) _ =>
      first [apply keeps_ret; exact I | apply (keeps_ret _ (fun _ => True) I)]
  | |- keeps (generateAccessRefreshTokens _ _ _) _ =>
      apply keeps_generateAccessRefreshTokens
  | |- keeps (jwt_verify _ _ _) _ => apply keeps_jwt_verify
  | |- keeps get_db _ => apply keeps_get_db
  | |- keeps (send _) _ => apply keeps_send
  | |- keeps (throw_if _ _) _ => apply keeps_throw_if
  | |- keeps (try_catch (create _ _ _ _ _ _ _ _ _ _ _ _) _) _ =>
      apply keeps_try_catch; apply keeps_create
  | |- keeps (save _ _ _ _) _ => apply keeps_save; paired
  | |- keeps (put_db _) _ =>
      apply keeps_put_db; apply otp_paired_logout; assumption
  | |- keeps (bind _ _) _ => eapply keeps_bind
  | |- keeps (match ?x with _ => _ end) _ => destruct x eqn:?
  | |- keeps _ _ => progress cbv zeta
  | |- _ => progress intros
  end.

Lemma keeps_handle (op : Operation) (i : Inputs) (req : Req) :
  keeps (handle env op i req) (fun _ => True).
Proof.
  destruct op; simpl handle.
  - unfold registerClient. repeat keeps_step.
  - unfold loginClient. repeat keeps_step.
  - unfold verifyEmail. repeat keeps_step.
  - unfold logoutClient. repeat keeps_step.
  - unfold updateClient. repeat keeps_step.
  - unfold refreshAccessToken. repeat keeps_step.
  - unfold verifyOtp. repeat keeps_step.
  - unfold getCurrentClient. repeat keeps_step.
  - unfold getAllClients. repeat keeps_step.
  - unfold getClientById. repeat keeps_step.
Qed.

(** C6. Every operation, whether it succeeds or fails, keeps [otp] and
    [otpExpires] populated together or not at all on every stored record.
    Registration sets both, the expiry five minutes after the clock; the
    two verification paths clear both. *)
Theorem otp_fields_paired (op : Operation) (i : Inputs) (req : Req) (w : World) :
  (Forall otp_paired (db w) ->
   Forall otp_paired (db (snd (handle env op i req w))))
  /\ (forall resp w',
        registerClient env i req w = (Ok resp, w') ->
        exists c,
          findById (fresh_id (db w)) (db w') = Some c
          /\ otp c = Val (generateOTP i)
          /\ otpExpires c = Val (now i + 5 * 60 * 1000))
  /\ (forall resp w',
        verifyEmail i req w = (Ok resp, w') ->
        exists c,
          findOne_email (body_email (body req)) (db w') = Some c
          /\ otp c = Unset /\ otpExpires c = Unset)
  /\ (forall resp w',
        verifyOtp env i req w = (Ok resp, w') ->
        exists id c,
          body_clientId (body req) = Some id
          /\ findById id (db w') = Some c
          /\ otp c = Null /\ otpExpires c = Null).
Proof.
  split; [| split; [| split]].
  - intros Hw.
    destruct (handle env op i req w) as [r w'] eqn:E.
    exact (proj1 (keeps_handle op i req w r w' E Hw)).
  - intros resp w' E.
    destruct (registerClient_ok i req w w' resp E)
      as (c' & _ & Hf & Hc & _).
    exists c'. split; [exact Hf |].
    destruct Hc as [-> | ->]; split; reflexivity.
  - intros resp w' E.
    destruct (verifyEmail_clears i req w w' resp E)
      as (c' & code & _ & _ & _ & Hf & _ & Ho & He).
    exists c'. auto.
  - intros resp w' E.
    destruct (verifyOtp_clears i req w w' resp E)
      as (id & c' & code & Hid & _ & _ & Hf & _ & Ho & He).
    exists id, c'. auto.
Qed.

(** The three operations that issue tokens through
    [generateAccessRefreshTokens] store the refresh token they return. *)
Lemma issued_refresh_token_stored (i : Inputs) (req : Req) (w w' : World)
  (resp : Response) :
  (registerClient env i req w = (Ok resp, w') ->
   exists c' accessToken issued,
     cookies resp = token_cookies accessToken issued
     /\ findById (fresh_id (db w)) (db w') = Some c'
     /\ refreshToken c' = Val issued)
  /\ (loginClient env i req w = (Ok resp, w') ->
      exists client c' accessToken issued,
        findOne_email (body_email (body req)) (db w) = Some client
        /\ cookies resp = token_cookies accessToken issued
        /\ findById (_id client) (db w') = Some c'
        /\ refreshToken c' = Val issued)
  /\ (refreshAccessToken env i req w = (Ok resp, w') ->
      forall tok claims client,
        incomingToken req = Some tok -> tok <> "" ->
        jwt_verify tok (REFRESH_TOKEN_SECRET env) (now i) w = (Ok claims, w) ->
        findById_opt (p_id (payload claims)) (db w) = Some client ->
        refreshToken client = Val tok ->
        exists c' accessToken issued,
          cookies resp = token_cookies accessToken issued
          /\ findById_opt (p_id (payload claims)) (db w') = Some c'
          /\ refreshToken c' = Val issued).
Proof.
  split; [| split].
  - intros E.
    destruct (registerClient_ok i req w w' resp E)
      as (c' & -> & Hf & Hc & _).
    eexists c', _, _. split; [reflexivity |]. split; [exact Hf |].
    destruct Hc as [-> | ->]; reflexivity.
  - intros E.
    destruct (loginClient_ok i req w w' resp E)
      as (client & c' & a & r & Hf & -> & Hf' & Hr).
    exists client, c', a, r. auto.
  - intros E tok claims client Hin Hne Hv Hf Hm.
    destruct (refreshAccessToken_match i req w tok claims client Hin Hne Hv Hf Hm)
      as (resp0 & w0 & c' & E0 & _ & Hc & _ & Hf' & Hr).
    rewrite E in E0. injection E0 as <- <-.
    eexists c', _, _. eauto.
Qed.

End Properties.

(** * Further properties of the controllers *)

Section MoreProperties.

Context `{Libs} (env : Env).

(** ** Registration: what is refused, and when *)

Lemma find_In_true (P : Client -> bool) (d : list Client) (c : Client) :
  In c d -> P c = true -> exists y, find P d = Some y.
Proof.
  intros Hin HP. destruct (find P d) as [y |] eqn:E; [eauto |].
  rewrite (find_none _ _ E c Hin) in HP. discriminate.
Qed.

Lemma blank_false (o : option string) :
  blank o = false -> exists s, o = Some s /\ trim s <> "" /\ s <> "".
Proof.
  destruct o as [s |]; simpl; [| discriminate].
  intros E. apply String.eqb_neq in E. exists s. repeat split; auto.
  intros ->. now apply E.
Qed.

Lemma complete_inv (b : Body) :
  complete b = true ->
  exists n e p pw a g,
    body_name b = Some n /\ body_email b = Some e /\ body_phone b = Some p
    /\ body_password b = Some pw /\ body_age b = Some a /\ body_gender b = Some g
    /\ trim n <> "" /\ trim e <> "" /\ trim p <> "" /\ pw <> "" /\ g <> "".
Proof.
  unfold complete. intros Hc. apply negb_true_iff in Hc.
  repeat (apply orb_false_iff in Hc; destruct Hc as [Hc ?]).
  destruct (blank_false _ Hc) as (n & Hn & Hn' & _).
  destruct (blank_false _ H4) as (e & He & He' & _).
  destruct (blank_false _ H3) as (p & Hp & Hp' & _).
  destruct (blank_false _ H2) as (pw & Hpw & _ & Hpw').
  destruct (blank_false _ H0) as (g & Hg & _ & Hg').
  destruct (body_age b) as [a |]; [| discriminate].
  exists n, e, p, pw, a, g. auto 15.
Qed.

(** No stored record holds the email or the phone: the unique indexes
    accept a new record that carries them. *)
Lemma no_conflict_no_duplicate (e p : string) (d : list Client) (c : Client) :
  findOne_email_or_phone (Some e) (Some p) None d = None ->
  email c = trim e -> phone c = trim p ->
  duplicate_key c d = false.
Proof.
  unfold findOne_email_or_phone, duplicate_key. intros Hf He Hp.
  induction d as [| x d IH]; simpl in *; [reflexivity |].
  destruct ((String.eqb (trim e) (email x) || String.eqb (trim p) (phone x))
            && true)%bool eqn:Ex; [discriminate |].
  rewrite andb_true_r in Ex. specialize (IH Hf). rewrite He, Hp in *.
  rewrite (String.eqb_sym (email x)), (String.eqb_sym (phone x)), Ex.
  rewrite andb_false_r. simpl. exact IH.
Qed.

Lemma no_conflict_no_match (e p : string) (d : list Client) (x : Client) :
  findOne_email_or_phone (Some e) (Some p) None d = None ->
  In x d -> email x <> trim e /\ phone x <> trim p.
Proof.
  unfold findOne_email_or_phone. intros Hf Hin.
  pose proof (find_none _ _ Hf x Hin) as Hx. simpl in Hx.
  rewrite andb_true_r in Hx. apply orb_false_iff in Hx. destruct Hx as [H1 H2].
  apply String.eqb_neq in H1. apply String.eqb_neq in H2. split; congruence.
Qed.

Lemma registerClient_incomplete (i : Inputs) (req : Req) (w : World) :
  complete (body req) = false ->
  registerClient env i req w
  = (Throw (ApiError 400 "All fields are required"), w).
Proof.
  intros Hc. unfold complete in Hc. apply negb_false_iff in Hc.
  unfold registerClient. monad_unfold. cbv zeta. now rewrite Hc.
Qed.

(** X1. A registration is refused with 400 before anything is sent or
    stored when a required field is missing or blank (nothing but white
    space, as [trim] sees it), and when a stored record already holds the
    email or the phone (as trimmed). *)
Theorem registerClient_refused (i : Inputs) (req : Req) (w : World) :
  (complete (body req) = false ->
   registerClient env i req w
   = (Throw (ApiError 400 "All fields are required"), w))
  /\ (forall e p c,
        complete (body req) = true ->
        body_email (body req) = Some e -> body_phone (body req) = Some p ->
        In c (db w) -> email c = trim e \/ phone c = trim p ->
        registerClient env i req w
        = (Throw (ApiError 400 "Email or phone already exists"), w)).
Proof.
  split.
  - apply registerClient_incomplete.
  - intros e p c Hc He Hp Hin Hsame.
    unfold complete in Hc. apply negb_true_iff in Hc.
    unfold registerClient. monad_unfold. cbv zeta. rewrite Hc.
    cbv beta iota. cbn [db]. rewrite He, Hp.
    destruct (find_In_true
                (fun x => ((matches (Some e) (email x) || matches (Some p) (phone x))
                           && true)%bool) (db w) c Hin) as [y Hy].
    { simpl. rewrite andb_true_r. apply orb_true_iff.
      destruct Hsame as [-> | ->]; [left | right]; apply String.eqb_refl. }
    unfold findOne_email_or_phone. now rewrite Hy.
Qed.

Lemma required_true (s : string) : s <> "" -> required s = true.
Proof. intros Hs. unfold required. now apply negb_true_iff, String.eqb_neq. Qed.

Lemma toString_nonempty (z : Z) : toString z <> "".
Proof.
  unfold toString. destruct (Z.to_int z) as [d | d]; simpl;
    [destruct d | ]; discriminate.
Qed.

Lemma replace_doc_app_fresh (d : list Client) (c c' : Client) :
  (forall x, In x d -> _id x <> _id c') -> _id c = _id c' ->
  replace_doc c' (d ++ [c]) = (d ++ [c'])%list.
Proof.
  intros Hd Hc. induction d as [| x d IH]; simpl.
  - now rewrite Hc, Nat.eqb_refl.
  - assert (Hx : Nat.eqb (_id x) (_id c') = false).
    { apply Nat.eqb_neq. apply Hd. now left. }
    rewrite Hx. f_equal. apply IH. intros y Hy. apply Hd. now right.
Qed.

(** A complete registration that meets no conflict but fails the schema's
    validators is refused with 500 once both messages have gone out. *)
Lemma registerClient_invalid (i : Inputs) (req : Req) (w : World) :
  complete (body req) = true ->
  findOne_email_or_phone (body_email (body req)) (body_phone (body req)) None
    (db w) = None ->
  gender_enum (str (body_gender (body req))) = false
  \/ phone_match (trim (str (body_phone (body req)))) = false
  \/ cast_age (body_age (body req)) = None ->
  registerClient env i req w
  = (Throw (ApiError 500 "Could not create client"),
     mkWorld (db w) (outbox w ++ otp_messages env i (body req))).
Proof.
  intros Hc Hf Hbad.
  unfold complete in Hc. apply negb_true_iff in Hc.
  unfold registerClient, create. monad_unfold. cbv zeta. rewrite Hc.
  cbv beta iota. cbn [db outbox]. rewrite Hf. cbn [db outbox].
  match goal with
  | |- context [(is_number ?a && validate ?c)%bool] =>
      assert (Hv : (is_number a && validate c)%bool = false)
  end.
  { unfold validate. cbn [name email gender password phone].
    destruct Hbad as [-> | [-> | ->]];
      now rewrite ?andb_false_r, ?andb_false_l. }
  rewrite Hv. cbv beta iota delta [negb]. unfold otp_messages.
  now rewrite <- app_assoc.
Qed.

(** A complete registration that meets no conflict and passes the
    validators is accepted: one record is appended, under a new id. *)
Lemma registerClient_valid (i : Inputs) (req : Req) (w : World) :
  complete (body req) = true ->
  findOne_email_or_phone (body_email (body req)) (body_phone (body req)) None
    (db w) = None ->
  gender_enum (str (body_gender (body req))) = true ->
  phone_match (trim (str (body_phone (body req)))) = true ->
  is_number (cast_age (body_age (body req))) = true ->
  exists resp w' c',
    registerClient env i req w = (Ok resp, w')
    /\ db w' = (db w ++ [c'])%list
    /\ outbox w' = (outbox w ++ otp_messages env i (body req))%list
    /\ findById (fresh_id (db w)) (db w') = Some c'
    /\ (c' = set_refreshToken
               (Val (generateRefreshToken env (now i) (created env i req w)))
               (created env i req w)
        \/ c' = set_updatedAt (now i)
                  (set_refreshToken
                     (Val (generateRefreshToken env (now i) (created env i req w)))
                     (created env i req w))).
Proof.
  intros Hc Hf Hg Hp Hage.
  destruct (complete_inv _ Hc)
    as (n & e & p & pw & a & g & Hn & He & Hph & Hpw & Ha & Hgd
        & Hn' & He' & Hp' & Hpw' & Hg').
  assert (Hrun : exists resp w', registerClient env i req w = (Ok resp, w')).
  { unfold complete in Hc. apply negb_true_iff in Hc.
    unfold registerClient, create. monad_unfold. cbv zeta. rewrite Hc.
    cbv beta iota. cbn [db outbox]. rewrite Hf. cbn [db outbox].
    match goal with
    | |- context [(is_number ?a && validate ?c)%bool] =>
        assert (Hv : (is_number a && validate c)%bool = true)
    end.
    { rewrite Hage. unfold validate. cbn [name email gender password phone].
      rewrite Hg, Hp. rewrite Hn, He, Hph, Hpw, Hgd in *. cbn [str] in *.
      now rewrite !required_true. }
    rewrite Hv. cbv beta iota delta [negb].
    match goal with
    | |- context [duplicate_key ?c (db w)] =>
        assert (Hd : duplicate_key c (db w) = false)
    end.
    { rewrite He, Hph in *. cbn [str].
      apply (no_conflict_no_duplicate e p); [exact Hf | |];
        unfold pre_save, isModified; reflexivity. }
    rewrite Hd. cbv beta iota.
    unfold pre_save, isModified.
    cbn [set_password _id name email age gender password phone avatar verified
         refreshToken verificationToken tokenVersion otp otpExpires createdAt
         updatedAt __v].
    change (now i + 5 * 60 * 1000) with (now i + 300000).
    fold (created env i req w).
    match goal with
    | |- context [generateAccessRefreshTokens env i (Some ?id) ?w1] =>
        destruct (generateAccessRefreshTokens_ok env i id w1 (created env i req w))
          as (c' & w2 & Eg & _);
        [apply findById_fresh; reflexivity |]
    end.
    rewrite Eg. eauto. }
  destruct Hrun as (resp & w' & E).
  destruct (registerClient_ok env i req w w' resp E)
    as (c' & _ & Hfc & Hc' & Hdb & Hout).
  exists resp, w', c'. split; [exact E |].
  assert (Hid : _id (created env i req w) = _id c').
  { destruct Hc' as [-> | ->]; reflexivity. }
  split; [| split; [| split; [exact Hfc | exact Hc']]].
  - destruct Hdb as [Hdb | Hdb].
    + rewrite Hdb in Hfc.
      rewrite (findById_fresh (db w) (created env i req w) eq_refl) in Hfc.
      injection Hfc as <-. exact Hdb.
    + rewrite Hdb. apply replace_doc_app_fresh; [| exact Hid].
      intros x Hin. pose proof (fresh_id_bound (db w) x Hin) as Hb.
      rewrite <- Hid. simpl. lia.
  - rewrite Hout. unfold otp_messages. now rewrite <- app_assoc.
Qed.

(** X2. When a complete registration meets no conflict, the schema
    decides it.  A gender outside the enum, a phone that fails the pattern
    or an age that does not cast to a number is refused with 500 only after
    the code has been sent by SMS and by mail, and nothing is stored.
    Otherwise the registration succeeds: both messages are sent and exactly
    one record is appended, under an id no stored record has, unverified,
    with the age as cast, the hashed password and the code that was sent. *)
Theorem registerClient_outcome (i : Inputs) (req : Req) (w : World) :
  complete (body req) = true ->
  findOne_email_or_phone (body_email (body req)) (body_phone (body req)) None
    (db w) = None ->
  (gender_enum (str (body_gender (body req))) = false
   \/ phone_match (trim (str (body_phone (body req)))) = false
   \/ cast_age (body_age (body req)) = None ->
   registerClient env i req w
   = (Throw (ApiError 500 "Could not create client"),
      mkWorld (db w) (outbox w ++ otp_messages env i (body req))))
  /\ (forall a,
        gender_enum (str (body_gender (body req))) = true ->
        phone_match (trim (str (body_phone (body req)))) = true ->
        cast_age (body_age (body req)) = Some a ->
        exists resp w' c',
          registerClient env i req w = (Ok resp, w')
          /\ db w' = (db w ++ [c'])%list
          /\ outbox w' = (outbox w ++ otp_messages env i (body req))%list
          /\ (forall x, In x (db w) -> _id x <> _id c')
          /\ verified c' = false
          /\ name c' = trim (str (body_name (body req)))
          /\ email c' = trim (str (body_email (body req)))
          /\ phone c' = trim (str (body_phone (body req)))
          /\ age c' = a
          /\ password c'
             = bcrypt_hash (str (body_password (body req))) (salt_hook i)
          /\ otp c' = Val (generateOTP i)
          /\ otpExpires c' = Val (now i + 300000)).
Proof.
  intros Hc Hf. split; [now apply registerClient_invalid |].
  intros a Hg Hp Ha.
  assert (Hage : is_number (cast_age (body_age (body req))) = true)
    by now rewrite Ha.
  destruct (registerClient_valid i req w Hc Hf Hg Hp Hage)
    as (resp & w' & c' & E & Hdb & Hout & _ & Hc').
  exists resp, w', c'. do 3 (split; [assumption |]).
  assert (Hid : _id c' = fresh_id (db w)).
  { destruct Hc' as [-> | ->]; reflexivity. }
  split.
  - intros x Hin. pose proof (fresh_id_bound (db w) x Hin). lia.
  - destruct Hc' as [-> | ->]; simpl; rewrite Ha; repeat split.
Qed.

(** ** Verification: what is accepted, and what it leaves alone *)

Lemma findById_replace_doc_other (id : ObjectId) (c : Client) (d : list Client) :
  _id c <> id -> findById id (replace_doc c d) = findById id d.
Proof.
  intros Hne. unfold findById.
  induction d as [| x d IH]; simpl; [reflexivity |].
  destruct (Nat.eqb (_id x) (_id c)) eqn:Ex; simpl.
  - apply Nat.eqb_eq in Ex.
    assert (Hc : Nat.eqb (_id c) id = false) by now apply Nat.eqb_neq.
    assert (Hx : Nat.eqb (_id x) id = false) by (apply Nat.eqb_neq; congruence).
    now rewrite Hc, Hx.
  - destruct (Nat.eqb (_id x) id); [reflexivity | exact IH].
Qed.

(** The save of a verification, with what it leaves as it was. *)
Lemma save_verification_frame (i : Inputs) (client : Client) (o : Field string)
  (e : Field Z) (w : World) :
  findById (_id client) (db w) = Some client ->
  validate client = true ->
  exists s w',
    save true i client (set_verification o e client) w = (Ok s, w')
    /\ outbox w' = outbox w
    /\ findById (_id client) (db w') = Some s
    /\ (s = set_verification o e client
        \/ s = set_updatedAt (now i) (set_verification o e client))
    /\ (db w' = db w /\ s = client \/ db w' = replace_doc s (db w))
    /\ forall id, id <> _id client -> findById id (db w') = findById id (db w).
Proof.
  intros Hf Hval.
  destruct (save_ok true i client (set_verification o e client) w Hf)
    as (s & w' & Es & Ho & Hf' & Hs); try reflexivity.
  { rewrite (validate_unmodified client) by reflexivity. now rewrite Hval. }
  rewrite (pre_save_same_password i client (set_verification o e client) eq_refl)
    in Hs.
  exists s, w'. do 3 (split; [assumption |]).
  destruct Hs as [(Hs & Hc & Hw) | (Hs & Hdb)].
  - subst w'. split; [now left |]. split; [left; auto |]. reflexivity.
  - split; [now right |]. split; [now right |].
    intros id Hid. rewrite Hdb. apply findById_replace_doc_other.
    rewrite Hs. simpl. congruence.
Qed.

Lemma verifyEmail_accepts (i : Inputs) (req : Req) (w : World)
  (client : Client) (code : string) :
  truthy (body_email (body req)) = true ->
  body_otp (body req) = Some code -> code <> "" ->
  findOne_email (body_email (body req)) (db w) = Some client ->
  findById (_id client) (db w) = Some client ->
  otp client = Val code ->
  before (otpExpires client) (now i) = false ->
  validate client = true ->
  exists s w',
    verifyEmail i req w
    = (Ok (mkResponse 200 [] []
             (mkApiResponse 200 (DMessage "Email verified successfully") None)),
       w')
    /\ outbox w' = outbox w
    /\ findOne_email (body_email (body req)) (db w') = Some s
    /\ findById (_id client) (db w') = Some s
    /\ (s = set_verification Unset Unset client
        \/ s = set_updatedAt (now i) (set_verification Unset Unset client))
    /\ forall id, id <> _id client -> findById id (db w') = findById id (db w).
Proof.
  intros Hte Ho Hne Hf Hid Hotp Hb Hval.
  destruct (save_verification_frame i client Unset Unset w Hid Hval)
    as (s & w' & Es & Hout & Hf' & Hs & Hdb & Hframe).
  exists s, w'.
  split.
  { unfold verifyEmail. cbv zeta. rewrite Hte, Ho, (truthy_Some _ Hne). mstep.
    rewrite Hf. mstep.
    assert (Hd : differs (otp client) code = false) by now apply differs_iff.
    rewrite Hd, Hb. mstep. now rewrite (bind_ok _ _ _ _ _ Es). }
  split; [assumption |].
  split; [| auto].
  unfold findOne_email in *.
  destruct Hdb as [(-> & ->) | ->]; [exact Hf |].
  apply find_replace_doc with (c := client); auto.
  - destruct Hs as [-> | ->]; reflexivity.
  - apply find_some in Hf. destruct Hs as [-> | ->]; apply Hf.
Qed.

Lemma verifyOtp_accepts (i : Inputs) (req : Req) (w : World) (id : ObjectId)
  (client : Client) (code : string) :
  body_clientId (body req) = Some id ->
  body_otp (body req) = Some code -> code <> "" ->
  findById id (db w) = Some client ->
  otp client = Val code ->
  before (otpExpires client) (now i) = false ->
  validate client = true ->
  exists resp s w',
    verifyOtp env i req w = (Ok resp, w')
    /\ status resp = 200
    /\ data (json resp) = DVerified id "OTP verified successfully!"
    /\ outbox w' = outbox w
    /\ findById id (db w') = Some s
    /\ (s = set_verification Null Null client
        \/ s = set_updatedAt (now i) (set_verification Null Null client))
    /\ forall id', id' <> id -> findById id' (db w') = findById id' (db w).
Proof.
  intros Hid Ho Hne Hf Hotp Hb Hval.
  pose proof (findById_id _ _ _ Hf) as Hcid. subst id.
  destruct (save_verification_frame i client Null Null w Hf Hval)
    as (s & w' & Es & Hout & Hf' & Hs & Hdb & Hframe).
  eexists _, s, w'.
  split.
  { unfold verifyOtp. cbv zeta. rewrite Hid, Ho, (truthy_Some _ Hne). mstep.
    rewrite Hf. mstep.
    assert (Hd : differs (otp client) code = false) by now apply differs_iff.
    rewrite Hd, Hb. mstep. rewrite (bind_ok _ _ _ _ _ Es). reflexivity. }
  simpl. auto 10.
Qed.

(** A stored record that fails a validator cannot be verified: the save
    throws mongoose's [ValidationError] and the record stays as it was. *)
Lemma verification_of_invalid_record (i : Inputs) (req : Req) (w : World)
  (client : Client) (code : string) :
  body_otp (body req) = Some code -> code <> "" ->
  otp client = Val code ->
  before (otpExpires client) (now i) = false ->
  validate client = false ->
  (truthy (body_email (body req)) = true ->
   findOne_email (body_email (body req)) (db w) = Some client ->
   verifyEmail i req w = (Throw ValidationError, w))
  /\ (body_clientId (body req) = Some (_id client) ->
      findById (_id client) (db w) = Some client ->
      verifyOtp env i req w = (Throw ValidationError, w)).
Proof.
  intros Ho Hne Hotp Hb Hval.
  assert (Hd : differs (otp client) code = false) by now apply differs_iff.
  split.
  - intros Hte Hf. unfold verifyEmail. cbv zeta.
    rewrite Hte, Ho, (truthy_Some _ Hne). mstep. rewrite Hf. mstep.
    rewrite Hd, Hb. mstep.
    apply bind_throw. apply save_invalid. exact Hval.
  - intros Hid Hf. unfold verifyOtp. cbv zeta.
    rewrite Hid, Ho, (truthy_Some _ Hne). mstep. rewrite Hf. mstep.
    rewrite Hd, Hb. mstep.
    apply bind_throw. apply save_invalid. exact Hval.
Qed.

(** X4. Both verification entry points accept the stored code on any clock
    up to and including the stored expiry, provided the stored record
    passes the schema's validators, which [save] runs on every path.  The
    record found is then verified with both OTP paths cleared; its other
    paths except [updatedAt], every other record and the outbox are as they
    were.  On a stored record that fails a validator the save throws
    [ValidationError] instead, and nothing changes. *)
Theorem otp_verification_accepts (i : Inputs) (req : Req) (w : World)
  (client : Client) (code : string) (expiry : Z) :
  body_otp (body req) = Some code -> code <> "" ->
  findById (_id client) (db w) = Some client ->
  otp client = Val code -> otpExpires client = Val expiry ->
  now i <= expiry ->
  (truthy (body_email (body req)) = true ->
   findOne_email (body_email (body req)) (db w) = Some client ->
   (validate client = true ->
    exists resp s w',
      verifyEmail i req w = (Ok resp, w')
      /\ cookies resp = []
      /\ outbox w' = outbox w
      /\ findById (_id client) (db w') = Some s
      /\ set_updatedAt (updatedAt client) s = set_verification Unset Unset client
      /\ forall id, id <> _id client -> findById id (db w') = findById id (db w))
   /\ (validate client = false ->
       verifyEmail i req w = (Throw ValidationError, w)))
  /\ (body_clientId (body req) = Some (_id client) ->
      (validate client = true ->
       exists resp s w',
         verifyOtp env i req w = (Ok resp, w')
         /\ outbox w' = outbox w
         /\ findById (_id client) (db w') = Some s
         /\ set_updatedAt (updatedAt client) s = set_verification Null Null client
         /\ forall id, id <> _id client -> findById id (db w') = findById id (db w))
      /\ (validate client = false ->
          verifyOtp env i req w = (Throw ValidationError, w))).
Proof.
  intros Ho Hne Hf Hotp Hexp Hclock.
  assert (Hb : before (otpExpires client) (now i) = false).
  { rewrite Hexp. simpl. apply Z.ltb_ge. exact Hclock. }
  split.
  - intros Hte Hfe. split.
    + intros Hval.
      destruct (verifyEmail_accepts i req w client code Hte Ho Hne Hfe Hf Hotp Hb
                  Hval)
        as (s & w' & E & Hout & _ & Hf' & Hs & Hframe).
      eexists _, s, w'. split; [exact E |]. simpl.
      repeat split; auto.
      destruct Hs as [-> | ->]; reflexivity.
    + intros Hval.
      now apply (proj1 (verification_of_invalid_record i req w client code
                          Ho Hne Hotp Hb Hval)).
  - intros Hid. split.
    + intros Hval.
      destruct (verifyOtp_accepts i req w _ client code Hid Ho Hne Hf Hotp Hb Hval)
        as (resp & s & w' & E & _ & _ & Hout & Hf' & Hs & Hframe).
      exists resp, s, w'. repeat split; auto.
      destruct Hs as [-> | ->]; reflexivity.
    + intros Hval.
      now apply (proj2 (verification_of_invalid_record i req w client code
                          Ho Hne Hotp Hb Hval)).
Qed.

(** ** From registration to the first login *)

Lemma registerClient_conflict (i : Inputs) (req : Req) (w : World) (y : Client) :
  complete (body req) = true ->
  findOne_email_or_phone (body_email (body req)) (body_phone (body req)) None
    (db w) = Some y ->
  registerClient env i req w
  = (Throw (ApiError 400 "Email or phone already exists"), w).
Proof.
  intros Hc Hf. unfold complete in Hc. apply negb_true_iff in Hc.
  unfold registerClient. monad_unfold. cbv zeta. rewrite Hc.
  cbv beta iota. cbn [db]. now rewrite Hf.
Qed.

(** What a successful registration has passed, and the one record it has
    appended. *)
Lemma registerClient_success (i : Inputs) (req : Req) (w w' : World)
  (resp : Response) :
  registerClient env i req w = (Ok resp, w') ->
  complete (body req) = true
  /\ findOne_email_or_phone (body_email (body req)) (body_phone (body req)) None
       (db w) = None
  /\ gender_enum (str (body_gender (body req))) = true
  /\ phone_match (trim (str (body_phone (body req)))) = true
  /\ is_number (cast_age (body_age (body req))) = true
  /\ exists c',
      db w' = (db w ++ [c'])%list
      /\ findById (fresh_id (db w)) (db w') = Some c'
      /\ (c' = set_refreshToken
                 (Val (generateRefreshToken env (now i) (created env i req w)))
                 (created env i req w)
          \/ c' = set_updatedAt (now i)
                    (set_refreshToken
                       (Val (generateRefreshToken env (now i) (created env i req w)))
                       (created env i req w))).
Proof.
  intros E.
  destruct (complete (body req)) eqn:Hc.
  2:{ rewrite (registerClient_incomplete i req w Hc) in E. discriminate. }
  destruct (findOne_email_or_phone (body_email (body req))
              (body_phone (body req)) None (db w)) as [y |] eqn:Hf.
  { rewrite (registerClient_conflict i req w y Hc Hf) in E. discriminate. }
  destruct (gender_enum (str (body_gender (body req)))) eqn:Hg.
  2:{ rewrite (registerClient_invalid i req w Hc Hf (or_introl Hg)) in E.
      discriminate. }
  destruct (phone_match (trim (str (body_phone (body req))))) eqn:Hp.
  2:{ rewrite (registerClient_invalid i req w Hc Hf (or_intror (or_introl Hp)))
        in E.
      discriminate. }
  destruct (cast_age (body_age (body req))) as [a |] eqn:Ha.
  2:{ rewrite (registerClient_invalid i req w Hc Hf
                 (or_intror (or_intror Ha))) in E.
      discriminate. }
  assert (Hage : is_number (cast_age (body_age (body req))) = true)
    by now rewrite Ha.
  destruct (registerClient_valid i req w Hc Hf Hg Hp Hage)
    as (resp0 & w0 & c' & E0 & Hdb & _ & Hfc & Hc').
  rewrite E in E0. injection E0 as <- <-.
  repeat split; auto. exists c'. auto.
Qed.

(** The record a registration creates passes every validator of the
    schema, with its password hashed. *)
Lemma created_valid (i : Inputs) (req : Req) (w : World) :
  complete (body req) = true ->
  gender_enum (str (body_gender (body req))) = true ->
  phone_match (trim (str (body_phone (body req)))) = true ->
  validate (created env i req w) = true.
Proof.
  intros Hc Hg Hp.
  destruct (complete_inv _ Hc)
    as (n & e & p & pw & a & g & Hn & He & Hph & Hpw & Ha & Hgd
        & Hn' & He' & Hp' & Hpw' & Hg').
  unfold validate, created. cbn [name email gender password phone].
  rewrite Hg, Hp. rewrite Hn, He, Hph, Hgd in *. cbn [str] in *.
  rewrite !required_true; auto. apply bcrypt_hash_nonempty.
Qed.

(** The record a registration appended is the one its email resolves to. *)
Lemma registered_found_by_email (e p : string) (d : list Client) (c' : Client) :
  findOne_email_or_phone (Some e) (Some p) None d = None ->
  email c' = trim e ->
  findOne_email (Some e) (d ++ [c']) = Some c'.
Proof.
  intros Hf He. unfold findOne_email. apply find_app_last.
  - intros x Hin. destruct (no_conflict_no_match e p d x Hf Hin) as [Hx _].
    simpl. apply String.eqb_neq. congruence.
  - simpl. rewrite He. apply String.eqb_refl.
Qed.

(** X3. After a successful registration, a login with the registered email
    and password is refused with 401 until the account is verified.  The
    code that was sent, presented to [verifyEmail] on any clock up to and
    including five minutes after the registration, is accepted, and the
    same login then succeeds.  (bcrypt's [compare] is assumed to accept a
    password against its own hash.) *)
Theorem registration_lifecycle (i : Inputs) (req : Req) (w w1 : World)
  (resp : Response) (e pw : string) (login : Req) :
  registerClient env i req w = (Ok resp, w1) ->
  body_email (body req) = Some e -> body_password (body req) = Some pw ->
  (forall s salt, bcrypt_compare s (bcrypt_hash s salt) = true) ->
  body_email (body login) = Some e -> body_password (body login) = Some pw ->
  (forall il,
      loginClient env il login w1
      = (Throw (ApiError 401 "Please verify your email first"), w1))
  /\ (forall iv vreq,
        body_email (body vreq) = Some e ->
        body_otp (body vreq) = Some (generateOTP i) ->
        now iv <= now i + 300000 ->
        exists vresp w2,
          verifyEmail iv vreq w1 = (Ok vresp, w2)
          /\ forall il,
              exists lresp w3,
                loginClient env il login w2 = (Ok lresp, w3)
                /\ status lresp = 200).
Proof.
  intros E He Hpw Hbcrypt Hle Hlpw.
  destruct (registerClient_success i req w w1 resp E)
    as (Hc & Hf & Hg & Hpm & _ & c' & Hdb & Hfc & Hc').
  assert (Hval : validate c' = true).
  { pose proof (created_valid i req w Hc Hg Hpm) as Hv.
    destruct Hc' as [-> | ->]; exact Hv. }
  destruct (complete_inv _ Hc)
    as (n & e0 & p & pw0 & a & g & _ & He0 & Hp & _ & _ & _ & _ & He' & _).
  rewrite He in He0. injection He0 as <-.
  rewrite He, Hp in Hf.
  assert (Hfacts : _id c' = fresh_id (db w) /\ email c' = trim e
                   /\ verified c' = false
                   /\ password c' = bcrypt_hash pw (salt_hook i)
                   /\ otp c' = Val (generateOTP i)
                   /\ otpExpires c' = Val (now i + 300000)).
  { destruct Hc' as [-> | ->]; simpl; rewrite He, Hpw; repeat split. }
  destruct Hfacts as (Hid & Hem & Hver & Hpass & Hotp & Hexp).
  assert (Hfe : findOne_email (Some e) (db w1) = Some c').
  { rewrite Hdb. now apply (registered_found_by_email e p). }
  split.
  - intros il. unfold loginClient. mstep. rewrite Hle, Hfe, Hlpw. mstep.
    unfold isPasswordCorrect. rewrite Hpass, Hbcrypt, Hver. reflexivity.
  - intros iv vreq Hve Hvo Hclock.
    assert (Hne : e <> "") by (intros ->; now apply He').
    rewrite <- Hid in Hfc.
    destruct (verifyEmail_accepts iv vreq w1 c' (generateOTP i))
      as (s & w2 & Ev & _ & Hfs & Hfid & Hs & _); auto.
    + rewrite Hve. now apply truthy_Some.
    + apply toString_nonempty.
    + now rewrite Hve.
    + rewrite Hexp. simpl. now apply Z.ltb_ge.
    + eexists _, w2. split; [exact Ev |].
      intros il.
      assert (Hsf : _id s = _id c' /\ verified s = true
                    /\ password s = password c').
      { destruct Hs as [-> | ->]; repeat split. }
      destruct Hsf as (Hsid & Hsv & Hsp).
      rewrite <- Hsid in Hfid.
      destruct (generateAccessRefreshTokens_ok env il (_id s) w2 s Hfid)
        as (c2 & w3 & Eg & _).
      eexists _, w3. split.
      * unfold loginClient. mstep. rewrite Hle. rewrite Hve in Hfs.
        rewrite Hfs, Hlpw. mstep.
        unfold isPasswordCorrect. rewrite Hsp, Hpass, Hbcrypt, Hsv. mstep.
        rewrite (bind_ok _ _ _ _ _ Eg). mstep. reflexivity.
      * reflexivity.
Qed.

(** ** Token issuance, refresh and logout *)

(** X5. [generateAccessRefreshTokens] fails with 400 without an id and with
    400 for an id no record has, leaving the world as it is.  For a stored
    record it always succeeds and changes nothing but that record's
    [refreshToken] (now the returned token) and [updatedAt]: its other
    paths, every other record and the outbox are as they were. *)
Theorem generateAccessRefreshTokens_effect (i : Inputs) (id : ObjectId)
  (w : World) :
  generateAccessRefreshTokens env i None w
  = (Throw (ApiError 400 "Client ID is required"), w)
  /\ (findById id (db w) = None ->
      generateAccessRefreshTokens env i (Some id) w
      = (Throw (ApiError 400 "No client found with that ID"), w))
  /\ (forall client,
        findById id (db w) = Some client ->
        exists accessToken refreshToken' c' w',
          generateAccessRefreshTokens env i (Some id) w
          = (Ok (accessToken, refreshToken'), w')
          /\ findById id (db w') = Some c'
          /\ set_updatedAt (updatedAt client) c'
             = set_refreshToken (Val refreshToken') client
          /\ outbox w' = outbox w
          /\ forall id', id' <> id -> findById id' (db w') = findById id' (db w)).
Proof.
  split; [reflexivity |]. split.
  - intros Hf. unfold generateAccessRefreshTokens. mstep. now rewrite Hf.
  - intros client Hf.
    destruct (generateAccessRefreshTokens_ok env i id w client Hf)
      as (c' & w' & E & Hc' & Hf' & Hdb & Hout).
    eexists _, _, c', w'. split; [exact E |]. split; [exact Hf' |].
    split; [destruct Hc' as [-> | ->]; now destruct client |].
    split; [exact Hout |].
    intros id' Hne. destruct Hdb as [-> | ->]; [reflexivity |].
    apply findById_replace_doc_other.
    pose proof (findById_id _ _ _ Hf) as Hid.
    destruct Hc' as [-> | ->]; simpl; congruence.
Qed.

(** What a successful login has issued. *)
Lemma loginClient_issues (i : Inputs) (req : Req) (w w' : World) (resp : Response) :
  loginClient env i req w = (Ok resp, w') ->
  exists client c0 c',
    findOne_email (body_email (body req)) (db w) = Some client
    /\ findById (_id client) (db w) = Some c0
    /\ cookies resp
       = token_cookies (generateAccessToken env (now i) c0)
           (generateRefreshToken env (now i) c0)
    /\ findById (_id client) (db w') = Some c'
    /\ refreshToken c' = Val (generateRefreshToken env (now i) c0).
Proof.
  unfold loginClient. mstep.
  destruct (findOne_email (body_email (body req)) (db w)) as [client |] eqn:Ef;
    [| discriminate].
  destruct (body_password (body req)) as [p |]; [| discriminate].
  destruct (isPasswordCorrect client p); [| discriminate].
  destruct (verified client); [| discriminate].
  mstep.
  pose proof Ef as Hin. apply find_some in Hin. destruct Hin as [Hin _].
  destruct (findById_of_In _ _ Hin) as [c0 Hc0].
  destruct (generateAccessRefreshTokens_ok env i _ w c0 Hc0)
    as (c' & w1 & Eg & Hc' & Hf' & _).
  rewrite (bind_ok _ _ _ _ _ Eg). mstep. rewrite Hf'. intros [= <- <-].
  exists client, c0, c'. simpl. repeat split; auto.
  destruct Hc' as [-> | ->]; reflexivity.
Qed.

(** X6. The refresh token a login returns is accepted by
    [refreshAccessToken] on any clock before its expiry second, and from
    that second on the call throws [TokenExpiredError], which is not an
    [ApiError], and leaves the store as it is.  (The issued token is
    assumed not to be the empty string and to decode, under the refresh
    secret, to the claims that were signed.) *)
Theorem login_then_refresh (i : Inputs) (req : Req) (w w1 : World)
  (resp : Response) (accessToken issued : string) :
  loginClient env i req w = (Ok resp, w1) ->
  cookies resp = token_cookies accessToken issued ->
  issued <> "" ->
  (forall client,
      findOne_email (body_email (body req)) (db w) = Some client ->
      jwt_decode issued (REFRESH_TOKEN_SECRET env)
      = Some (mkClaims (mkPayload (Some (_id client)) None None None)
                (now i / 1000) (now i / 1000 + REFRESH_TOKEN_EXPIRY env))) ->
  forall i' req',
    incomingToken req' = Some issued ->
    (now i' / 1000 < now i / 1000 + REFRESH_TOKEN_EXPIRY env ->
     exists resp' w2,
       refreshAccessToken env i' req' w1 = (Ok resp', w2)
       /\ status resp' = 200)
    /\ (now i / 1000 + REFRESH_TOKEN_EXPIRY env <= now i' / 1000 ->
        refreshAccessToken env i' req' w1 = (Throw TokenExpiredError, w1)).
Proof.
  intros E Hck' Hne Hcodec.
  destruct (loginClient_issues i req w w1 resp E)
    as (client & c0 & c' & Hfo & Hc0 & Hck & Hf' & Hr).
  rewrite Hck in Hck'. unfold token_cookies in Hck'.
  injection Hck' as _ Hi. subst issued.
  intros i' req' Hin.
  pose proof (findById_id _ _ _ Hc0) as Hid.
  set (claims := mkClaims (mkPayload (Some (_id client)) None None None)
                   (now i / 1000) (now i / 1000 + REFRESH_TOKEN_EXPIRY env)).
  pose proof (Hcodec client Hfo) as Hdec. fold claims in Hdec.
  split.
  - intros Hclock.
    destruct (refreshAccessToken_match env i' req' w1 _ claims c' Hin Hne)
      as (resp' & w2 & c2 & E2 & Hs & _); auto.
    + unfold jwt_verify. rewrite Hdec. unfold claims. cbn [exp].
      assert (Hx : (now i / 1000 + REFRESH_TOKEN_EXPIRY env <=? now i' / 1000)
                   = false) by (apply Z.leb_gt; lia).
      now rewrite Hx.
    + eauto.
  - intros Hclock. unfold refreshAccessToken. cbv zeta. rewrite Hin.
    mstep. rewrite (truthy_Some _ Hne). mstep.
    unfold jwt_verify at 1. rewrite Hdec. unfold claims. cbn [exp].
    assert (Hx : (now i / 1000 + REFRESH_TOKEN_EXPIRY env <=? now i' / 1000)
                 = true) by (apply Z.leb_le; lia).
    rewrite Hx. reflexivity.
Qed.

Lemma findById_refreshToken_null (clock : Z) (id : ObjectId) (d : list Client) :
  (forall c, findById id d = Some c ->
             findById id (findByIdAndUpdate_refreshToken_null clock id d)
             = Some (set_updatedAt clock (set_refreshToken Null c)))
  /\ (findById id d = None -> findByIdAndUpdate_refreshToken_null clock id d = d)
  /\ (forall id', id' <> id ->
        findById id' (findByIdAndUpdate_refreshToken_null clock id d)
        = findById id' d).
Proof.
  unfold findByIdAndUpdate_refreshToken_null.
  destruct (findById id d) as [c |] eqn:Hf.
  - pose proof (findById_id _ _ _ Hf) as Hid.
    split; [| split; [discriminate |]].
    + intros c0 [= <-]. apply findById_replace_doc with (c := c); auto.
    + intros id' Hne. apply findById_replace_doc_other. simpl. congruence.
  - split; [discriminate | split; reflexivity].
Qed.

(** X7. Logout always answers 200 and clears both cookies.  It sets the
    caller's stored [refreshToken] to [null], touching no other path but
    [updatedAt] and no other record, and does nothing when the caller has
    no record.  Afterwards no refresh token whose subject is the caller is
    accepted: [refreshAccessToken] answers 401 until the token's expiry
    second and throws [TokenExpiredError] from then on. *)
Theorem logoutClient_revokes (i : Inputs) (req : Req) (w : World) :
  exists w',
    logoutClient i req w
    = (Ok (mkResponse 200 [] ["accessToken"; "refreshToken"]
             (mkApiResponse 200 DEmpty (Some "Client logged out successfully"))),
       w')
    /\ outbox w' = outbox w
    /\ (findById (client_id req) (db w) = None -> w' = w)
    /\ (forall c,
          findById (client_id req) (db w) = Some c ->
          findById (client_id req) (db w')
          = Some (set_updatedAt (now i) (set_refreshToken Null c)))
    /\ (forall id,
          id <> client_id req -> findById id (db w') = findById id (db w))
    /\ (forall i' req' tok claims,
          incomingToken req' = Some tok ->
          jwt_decode tok (REFRESH_TOKEN_SECRET env) = Some claims ->
          p_id (payload claims) = Some (client_id req) ->
          (now i' / 1000 < exp claims ->
           exists msg,
             refreshAccessToken env i' req' w' = (Throw (ApiError 401 msg), w'))
          /\ (exp claims <= now i' / 1000 -> tok <> "" ->
              refreshAccessToken env i' req' w' = (Throw TokenExpiredError, w'))).
Proof.
  destruct (findById_refreshToken_null (now i) (client_id req) (db w))
    as (Hset & Hnone & Hother).
  eexists. split; [reflexivity |]. cbn [db outbox].
  split; [reflexivity |].
  split; [intros Hf; rewrite (Hnone Hf); now destruct w |].
  split; [exact Hset |]. split; [exact Hother |].
  intros i' req' tok claims Hin Hdec Hsub. split.
  - intros Hx.
    destruct (String.eqb tok "") eqn:Et.
    + apply String.eqb_eq in Et. subst tok. exists "Unauthorized request".
      unfold refreshAccessToken. cbv zeta. rewrite Hin. reflexivity.
    + apply String.eqb_neq in Et. exists "Invalid or expired refresh token".
      eapply (refreshAccessToken_mismatch env i' req' _ tok claims); eauto.
      * now apply jwt_verify_unexpired.
      * rewrite Hsub. cbn [db findById_opt]. intros c Hc.
        destruct (findById (client_id req) (db w)) as [c0 |] eqn:Hf.
        -- rewrite (Hset c0 eq_refl) in Hc. injection Hc as <-. discriminate.
        -- rewrite (Hnone eq_refl), Hf in Hc. discriminate.
  - intros Hx Hne.
    eapply refreshAccessToken_expired; eauto.
Qed.

(** X8. A presented refresh token that [jwt.verify] rejects makes
    [refreshAccessToken] throw the library's error, not an [ApiError]: a
    token that does not decode under the secret throws
    [JsonWebTokenError], one whose expiry second has come throws
    [TokenExpiredError]; the store is left as it is. *)
Theorem refreshAccessToken_unverifiable (i : Inputs) (req : Req) (w : World)
  (tok : string) :
  incomingToken req = Some tok -> tok <> "" ->
  (jwt_decode tok (REFRESH_TOKEN_SECRET env) = None ->
   refreshAccessToken env i req w = (Throw JsonWebTokenError, w))
  /\ (forall claims,
        jwt_decode tok (REFRESH_TOKEN_SECRET env) = Some claims ->
        exp claims <= now i / 1000 ->
        refreshAccessToken env i req w = (Throw TokenExpiredError, w)).
Proof.
  intros Hin Hne. split.
  - intros Hd. unfold refreshAccessToken. cbv zeta. rewrite Hin.
    mstep. rewrite (truthy_Some _ Hne). mstep.
    unfold jwt_verify at 1. now rewrite Hd.
  - intros claims Hd Hexp. unfold refreshAccessToken. cbv zeta. rewrite Hin.
    mstep. rewrite (truthy_Some _ Hne). mstep.
    unfold jwt_verify at 1. rewrite Hd.
    assert (Hx : (exp claims <=? now i / 1000) = true) by now apply Z.leb_le.
    now rewrite Hx.
Qed.

(** ** Lookups *)

Lemma get_key_select_minus (k : string) (excl : list string) (o : Doc) :
  existsb (String.eqb k) excl = false ->
  get_key k (select_minus excl o) = get_key k o.
Proof.
  intros Hk. unfold get_key, select_minus. f_equal.
  induction o as [| [k' v] o IH]; simpl; [reflexivity |].
  destruct (String.eqb k' k) eqn:Ek.
  - apply String.eqb_eq in Ek. subst k'. rewrite Hk. simpl.
    now rewrite String.eqb_refl.
  - destruct (existsb (String.eqb k') excl); simpl; [exact IH |].
    now rewrite Ek.
Qed.

Lemma has_key_verificationToken (c : Client) :
  has_key "verificationToken" (toJSON c) = negb (is_unset (verificationToken c)).
Proof.
  destruct c as [? ? ? ? ? ? ? ? ? rt vt ? o oe ? ? ?].
  unfold toJSON; simpl. destruct rt, vt, o, oe; reflexivity.
Qed.

(** X9. [getClientById] answers 400 without an id, 404 for an id no record
    has, and otherwise 200 with the record's document, from which
    [verificationToken] is stripped too.  [getCurrentClient] never fails:
    for a caller without a record it answers 200 with [null] data, and its
    document keeps [verificationToken] whenever the record has one.
    Neither changes the world. *)
Theorem client_lookups (i : Inputs) (req : Req) (w : World) :
  (params_clientId req = None ->
   getClientById i req w = (Throw (ApiError 400 "Client ID is required"), w))
  /\ (forall id,
        params_clientId req = Some id -> findById id (db w) = None ->
        getClientById i req w = (Throw (ApiError 404 "Client not found"), w))
  /\ (forall id c,
        params_clientId req = Some id -> findById id (db w) = Some c ->
        exists doc,
          getClientById i req w
          = (Ok (mkResponse 200 [] []
                   (mkApiResponse 200 (DClient doc)
                      (Some "Client retrieved successfully"))), w)
          /\ get_key "_id" doc = Some (JNum (Z.of_nat id))
          /\ get_key "email" doc = Some (JStr (email c))
          /\ has_key "verificationToken" doc = false)
  /\ (findById (client_id req) (db w) = None ->
      getCurrentClient i req w
      = (Ok (mkResponse 200 [] []
               (mkApiResponse 200 DNull (Some "Current Client Data"))), w))
  /\ (forall c,
        findById (client_id req) (db w) = Some c ->
        exists doc,
          getCurrentClient i req w
          = (Ok (mkResponse 200 [] []
                   (mkApiResponse 200 (DClient doc) (Some "Current Client Data"))),
             w)
          /\ get_key "email" doc = Some (JStr (email c))
          /\ has_key "__v" doc = false
          /\ has_key "verificationToken" doc
             = negb (is_unset (verificationToken c))).
Proof.
  split; [| split; [| split; [| split]]].
  - intros Hp. unfold getClientById. now rewrite Hp.
  - intros id Hp Hf. unfold getClientById. rewrite Hp. mstep. now rewrite Hf.
  - intros id c Hp Hf. unfold getClientById. rewrite Hp. mstep. rewrite Hf.
    eexists. split; [reflexivity |].
    rewrite !get_key_select_minus by reflexivity.
    split; [rewrite <- (findById_id _ _ _ Hf); reflexivity |].
    split; [reflexivity |].
    now apply select_minus_excludes.
  - intros Hf. unfold getCurrentClient. mstep. now rewrite Hf.
  - intros c Hf. unfold getCurrentClient. mstep. rewrite Hf.
    eexists. split; [reflexivity |].
    rewrite get_key_select_minus by reflexivity.
    split; [reflexivity |].
    split; [now apply select_minus_excludes |].
    rewrite has_key_select_minus, has_key_verificationToken.
    simpl. now rewrite andb_true_r.
Qed.

(** ** Listing: filter, order and page sizes *)

Lemma getAllClients_eval (i : Inputs) (req : Req) (w : World) :
  getAllClients i req w
  = if (requested_page (query req) - 1) * requested_limit (query req) <? 0
    then (Throw MongoServerError, w)
    else (Ok (mkResponse 200 [] []
                (mkApiResponse 200
                   (DClients (map public_doc (page_of (query req) (db w)))
                      (mkPagination (requested_page (query req))
                         (ceil_div
                            (Z.of_nat (List.length (matching (query req) (db w))))
                            (requested_limit (query req)))
                         (Z.of_nat (List.length (matching (query req) (db w))))
                         (js_lt (requested_page (query req))
                            (ceil_div
                               (Z.of_nat
                                  (List.length (matching (query req) (db w))))
                               (requested_limit (query req))))
                         (1 <? requested_page (query req))))
                   (Some "Clients retrieved successfully"))), w).
Proof.
  unfold getAllClients. cbv zeta.
  change (match query_page (query req) with Some p => p | None => 1 end)
    with (requested_page (query req)).
  change (match query_limit (query req) with Some l => l | None => 10 end)
    with (requested_limit (query req)).
  mstep.
  destruct ((requested_page (query req) - 1) * requested_limit (query req) <? 0);
    reflexivity.
Qed.

Lemma In_limit_docs {A} (n : Z) (l : list A) (x : A) :
  In x (limit_docs n l) -> In x l.
Proof.
  unfold limit_docs. destruct (n =? 0); [auto |].
  intros Hin. rewrite <- (firstn_skipn (Z.to_nat (Z.abs n)) l).
  apply in_or_app. now left.
Qed.

Lemma In_skipn {A} (n : nat) (l : list A) (x : A) : In x (skipn n l) -> In x l.
Proof.
  intros Hin. rewrite <- (firstn_skipn n l). apply in_or_app. now right.
Qed.

Lemma In_page_of (q : Query) (d : list Client) (c : Client) :
  In c (page_of q d) -> In c (matching q d).
Proof.
  unfold page_of. intros Hin.
  apply In_limit_docs, In_skipn in Hin.
  apply (Permutation_in c (Permutation_sym (sort_docs_perm _ _)) Hin).
Qed.

Lemma In_matching (q : Query) (d : list Client) (c : Client) :
  In c (matching q d)
  <-> In c d
      /\ (forall v, query_verified q = Some v -> verified c = String.eqb v "true")
      /\ (forall g, query_gender q = Some g -> g <> "" -> gender c = g).
Proof.
  unfold matching, filter_docs. rewrite filter_In, andb_true_iff.
  split; intros (Hin & Hv & Hg); (split; [exact Hin |]).
  - split.
    + intros v Ev. rewrite Ev in Hv. simpl in Hv. now apply Bool.eqb_prop.
    + intros g Eg Hne. rewrite Eg, (truthy_Some _ Hne) in Hg.
      now apply String.eqb_eq.
  - split.
    + destruct (query_verified q) as [v |]; simpl; [| reflexivity].
      rewrite (Hv v eq_refl). apply Bool.eqb_reflx.
    + destruct (truthy (query_gender q)) eqn:Et; [| reflexivity].
      destruct (truthy_inv _ Et) as (g & Eg & Hne). rewrite Eg.
      rewrite (Hg g Eg Hne). apply String.eqb_refl.
Qed.

(** X10. A listing that succeeds changes nothing and returns documents of
    stored records only, each of which passes the filter: with [verified]
    in the query the record's flag equals [verified === 'true'] (so any
    other string selects the unverified records), and with a non-empty
    [gender] the record's gender is that string.  [totalClients] counts
    exactly the stored records that pass the filter, whatever the page. *)
Theorem getAllClients_filter (i : Inputs) (req : Req) (w w' : World)
  (resp : Response) :
  getAllClients i req w = (Ok resp, w') ->
  w' = w
  /\ exists pg,
      data (json resp) = DClients (map public_doc (page_of (query req) (db w))) pg
      /\ (forall c,
            In c (page_of (query req) (db w)) ->
            In c (db w)
            /\ (forall v, query_verified (query req) = Some v ->
                          verified c = String.eqb v "true")
            /\ (forall g, query_gender (query req) = Some g -> g <> "" ->
                          gender c = g))
      /\ totalClients pg
         = Z.of_nat (List.length (matching (query req) (db w)))
      /\ forall c,
          In c (matching (query req) (db w))
          <-> In c (db w)
              /\ (forall v, query_verified (query req) = Some v ->
                            verified c = String.eqb v "true")
              /\ (forall g, query_gender (query req) = Some g -> g <> "" ->
                            gender c = g).
Proof.
  rewrite getAllClients_eval.
  destruct ((requested_page (query req) - 1) * requested_limit (query req) <? 0);
    [discriminate |].
  intros [= <- <-]. split; [reflexivity |].
  eexists. split; [reflexivity |]. simpl.
  split; [| split; [reflexivity | apply In_matching]].
  intros c Hin. apply In_matching. now apply In_page_of.
Qed.








(** X12. For a positive page and limit, a page holds
    [min limit (max 0 (totalClients - (page - 1) * limit))] records: every
    page up to [totalPages] is non-empty, every page before the last is
    full, and a page after [totalPages] is empty with [hasNextPage] false. *)
Theorem getAllClients_page_size (i : Inputs) (req : Req) (w : World)
  (page limit : Z) :
  requested_page (query req) = page ->
  requested_limit (query req) = limit ->
  1 <= page -> 1 <= limit ->
  exists resp docs pg tp,
    getAllClients i req w = (Ok resp, w)
    /\ data (json resp) = DClients docs pg
    /\ totalPages pg = Fin tp
    /\ Z.of_nat (List.length docs)
       = Z.min limit (Z.max 0 (totalClients pg - (page - 1) * limit))
    /\ (page <= tp -> docs <> [])
    /\ (page < tp -> Z.of_nat (List.length docs) = limit)
    /\ (tp < page -> docs = [] /\ hasNextPage pg = false).
Proof.
  intros Hp Hl Hp1 Hl1.
  rewrite (getAllClients_page i req w page limit Hp Hl Hp1 Hl1).
  destruct (ceil_div_pos
              (Z.of_nat (List.length (matching (query req) (db w)))) limit)
    as (tp & Etp & Htp); [lia |].
  eexists _, _, _, tp. split; [reflexivity |].
  cbn [json data totalPages totalClients hasNextPage].
  split; [reflexivity |]. split; [exact Etp |].
  set (n := List.length (matching (query req) (db w))) in *.
  assert (Hlen : Z.of_nat
                   (List.length
                      (map (fun c => select_minus
                                       ["password"; "refreshToken"; "otp";
                                        "otpExpires"; "verificationToken"]
                                       (toJSON c))
                         (firstn (Z.to_nat limit)
                            (skipn (Z.to_nat ((page - 1) * limit))
                               (sort_docs (requested_order (query req))
                                  (matching (query req) (db w)))))))
                 = Z.min limit (Z.max 0 (Z.of_nat n - (page - 1) * limit))).
  { rewrite length_map, length_firstn, length_skipn.
    rewrite <- (Permutation_length (sort_docs_perm _ _)). fold n. nia. }
  split; [exact Hlen |].
  split; [| split].
  - intros Hle Hnil. rewrite Hnil in Hlen. simpl in Hlen. nia.
  - intros Hlt. rewrite Hlen. nia.
  - intros Hgt. split.
    + apply length_zero_iff_nil. nia.
    + rewrite Etp. simpl. apply Z.ltb_ge. lia.
Qed.

(** X13. With [limit=0] the division by zero shows in the page metadata:
    [totalPages] is [Infinity] and [hasNextPage] is true when some record
    matches, and [totalPages] is [NaN] and [hasNextPage] false when none
    does.  Nothing is skipped, on any page, and every matching record is
    returned. *)
Theorem getAllClients_limit_zero (i : Inputs) (req : Req) (w : World) :
  requested_limit (query req) = 0 ->
  exists resp docs pg,
    getAllClients i req w = (Ok resp, w)
    /\ data (json resp) = DClients docs pg
    /\ List.length docs = List.length (matching (query req) (db w))
    /\ totalPages pg
       = (if totalClients pg =? 0 then NaN else Infinity)
    /\ hasNextPage pg = negb (totalClients pg =? 0).
Proof.
  intros Hl. rewrite getAllClients_eval, Hl.
  rewrite Z.mul_0_r. simpl (0 <? 0).
  eexists _, _, _. split; [reflexivity |].
  cbn [json data totalPages totalClients hasNextPage].
  split; [reflexivity |].
  unfold page_of. rewrite Hl, Z.mul_0_r. simpl.
  split.
  - rewrite length_map. symmetry. apply Permutation_length, sort_docs_perm.
  - unfold ceil_div. simpl.
    destruct (Z.of_nat (List.length (matching (query req) (db w))) =? 0);
      split; reflexivity.
Qed.

(** ** Profile update: what it keeps, refuses and returns *)

(** What a successful update has loaded, saved and answered. *)
Lemma updateClient_inv (i : Inputs) (req : Req) (w w' : World) (resp : Response) :
  updateClient i req w = (Ok resp, w') ->
  exists client saved,
    findById (client_id req) (db w) = Some client
    /\ assignable (body req) = true
    /\ save true i client (update_target i req client) w = (Ok saved, w')
    /\ resp = mkResponse 200 [] []
                (mkApiResponse 200 (DClient (toJSON saved))
                   (Some "Client updated successfully")).
Proof.
  unfold updateClient, update_target, assignable. cbv zeta. monad_unfold.
  destruct (findById (client_id req) (db w)) as [client |] eqn:Hf;
    [| discriminate].
  destruct (ne_stored (body_email (body req)) (email client)
            || ne_stored (body_phone (body req)) (phone client))%bool;
    [destruct (findOne_email_or_phone _ _ _ (db w)); [discriminate |] |];
    (destruct (body_name (body req)) as [n |]; [| discriminate];
     destruct (body_email (body req)) as [e |]; [| discriminate];
     destruct (body_phone (body req)) as [ph |]; [| discriminate];
     destruct (cast_age (body_age (body req))) as [a |]; [| discriminate];
     destruct (body_gender (body req)) as [g |]; [| discriminate];
     cbn [str num];
     match goal with
     | |- context [save true i client ?c w] =>
         destruct (save true i client c w) as [[saved | f] w1] eqn:Es;
         [| discriminate];
         intros [= <- <-]; exists client, saved; auto
     end).
Qed.

(** The record an update leaves stored under the caller's id. *)
Lemma updateClient_stored (i : Inputs) (req : Req) (w w' : World)
  (resp : Response) :
  updateClient i req w = (Ok resp, w') ->
  exists client saved,
    findById (client_id req) (db w) = Some client
    /\ findById (client_id req) (db w') = Some saved
    /\ (saved = pre_save i (Some client) (update_target i req client)
        \/ saved = set_updatedAt (now i)
                     (pre_save i (Some client) (update_target i req client)))
    /\ data (json resp) = DClient (toJSON saved)
    /\ outbox w' = outbox w
    /\ forall id, id <> client_id req -> findById id (db w') = findById id (db w).
Proof.
  intros E.
  destruct (updateClient_inv i req w w' resp E)
    as (client & saved & Hf & _ & Es & ->).
  pose proof (findById_id _ _ _ Hf) as Hid.
  assert (Htid : _id (update_target i req client) = _id client).
  { unfold update_target. cbv zeta.
    destruct (truthy (body_password (body req)));
      destruct (truthy (file_path req)); reflexivity. }
  exists client, saved. split; [exact Hf |].
  destruct (save_inv true i client _ w w' (Ok saved) _ eq_refl Es)
    as [(-> & [(Hr & Hc) | (f & Hr)]) | (Hr & ->)].
  - injection Hr as ->. rewrite <- Hc. auto 10.
  - discriminate.
  - injection Hr as ->. cbn [db outbox].
    split.
    { rewrite <- Hid. apply findById_replace_doc with (c := client);
        [now rewrite Hid |].
      simpl. now rewrite pre_save_id. }
    split; [now right |]. split; [reflexivity |]. split; [reflexivity |].
    intros id Hne. apply findById_replace_doc_other.
    simpl. rewrite pre_save_id. congruence.
Qed.

(** X14. A successful profile update changes, on the caller's record, only
    the assigned fields, the avatar when a file is uploaded, the password
    when one is supplied, and [updatedAt]: [verified], the stored refresh
    token, both OTP paths, the verification token and [tokenVersion] are
    as they were, and so are every other record and the outbox.  Without a
    password in the body the stored hash is kept, so a password verifies
    after the update exactly when it did before. *)
Theorem updateClient_keeps (i : Inputs) (req : Req) (w w' : World)
  (resp : Response) :
  updateClient i req w = (Ok resp, w') ->
  exists client saved,
    findById (client_id req) (db w) = Some client
    /\ findById (client_id req) (db w') = Some saved
    /\ _id saved = _id client
    /\ verified saved = verified client
    /\ refreshToken saved = refreshToken client
    /\ otp saved = otp client /\ otpExpires saved = otpExpires client
    /\ verificationToken saved = verificationToken client
    /\ tokenVersion saved = tokenVersion client
    /\ name saved = trim (str (body_name (body req)))
    /\ email saved = trim (str (body_email (body req)))
    /\ phone saved = trim (str (body_phone (body req)))
    /\ (truthy (file_path req) = false -> avatar saved = avatar client)
    /\ (truthy (body_password (body req)) = false ->
        password saved = password client
        /\ forall p, isPasswordCorrect saved p = isPasswordCorrect client p)
    /\ outbox w' = outbox w
    /\ forall id, id <> client_id req -> findById id (db w') = findById id (db w).
Proof.
  intros E.
  destruct (updateClient_stored i req w w' resp E)
    as (client & saved & Hf & Hf' & Hs & _ & Hout & Hframe).
  exists client, saved. do 2 (split; [assumption |]).
  assert (Hfields :
            forall c,
              c = pre_save i (Some client) (update_target i req client) ->
              _id c = _id client /\ verified c = verified client
              /\ refreshToken c = refreshToken client
              /\ otp c = otp client /\ otpExpires c = otpExpires client
              /\ verificationToken c = verificationToken client
              /\ tokenVersion c = tokenVersion client
              /\ name c = trim (str (body_name (body req)))
              /\ email c = trim (str (body_email (body req)))
              /\ phone c = trim (str (body_phone (body req)))
              /\ (truthy (file_path req) = false -> avatar c = avatar client)
              /\ (truthy (body_password (body req)) = false ->
                  password c = password client)).
  { intros c ->. unfold pre_save, update_target. cbv zeta.
    destruct (truthy (body_password (body req))) eqn:Hp;
      destruct (truthy (file_path req)) eqn:Hfile;
      match goal with
      | |- context [isModified String.eqb password ?o ?c] =>
          destruct (isModified String.eqb password o c) eqn:Hm
      end;
      repeat split; try discriminate; try reflexivity;
      intros _; unfold isModified in Hm; simpl in Hm;
      rewrite String.eqb_refl in Hm; discriminate. }
  assert (Hall : _id saved = _id client /\ verified saved = verified client
                 /\ refreshToken saved = refreshToken client
                 /\ otp saved = otp client /\ otpExpires saved = otpExpires client
                 /\ verificationToken saved = verificationToken client
                 /\ tokenVersion saved = tokenVersion client
                 /\ name saved = trim (str (body_name (body req)))
                 /\ email saved = trim (str (body_email (body req)))
                 /\ phone saved = trim (str (body_phone (body req)))
                 /\ (truthy (file_path req) = false -> avatar saved = avatar client)
                 /\ (truthy (body_password (body req)) = false ->
                     password saved = password client)).
  { destruct Hs as [-> | ->]; [now apply Hfields |].
    exact (Hfields _ eq_refl). }
  destruct Hall as (H1 & H2 & H3 & H4 & H5 & H6 & H7 & H8 & H9 & H10 & H11 & H12).
  repeat (split; [assumption |]).
  split; [| auto].
  intros Hp. split; [auto |].
  intros p. unfold isPasswordCorrect. now rewrite (H12 Hp).
Qed.

(** X15. A profile update is refused, with the world left as it is: with
    404 when the caller has no record; with 400 when the body's email or
    phone differs from the caller's and another record already holds the
    email or the phone (as trimmed); and, past that check, with mongoose's
    [ValidationError] (not an [ApiError]) when one of the five assigned
    fields is missing from the body or the age does not cast to a number. *)
Theorem updateClient_refused (i : Inputs) (req : Req) (w : World) :
  (findById (client_id req) (db w) = None ->
   updateClient i req w = (Throw (ApiError 404 "Client not found"), w))
  /\ (forall client e p x,
        findById (client_id req) (db w) = Some client ->
        body_email (body req) = Some e -> body_phone (body req) = Some p ->
        e <> email client \/ p <> phone client ->
        In x (db w) -> _id x <> _id client ->
        email x = trim e \/ phone x = trim p ->
        updateClient i req w
        = (Throw (ApiError 400 "Email or phone already in use"), w))
  /\ (forall client,
        findById (client_id req) (db w) = Some client ->
        findOne_email_or_phone (body_email (body req)) (body_phone (body req))
          (Some (_id client)) (db w) = None ->
        assignable (body req) = false ->
        updateClient i req w = (Throw ValidationError, w)).
Proof.
  split; [| split].
  - intros Hf. unfold updateClient. cbv zeta. mstep. now rewrite Hf.
  - intros client e p x Hf He Hp Hne Hin Hid Hsame.
    unfold updateClient. cbv zeta. monad_unfold. rewrite Hf, He, Hp.
    assert (Hc : (ne_stored (Some e) (email client)
                  || ne_stored (Some p) (phone client))%bool = true).
    { simpl. apply orb_true_iff.
      destruct Hne as [Hne | Hne]; [left | right];
        now apply negb_true_iff, String.eqb_neq. }
    rewrite Hc.
    destruct (find_In_true
                (fun c => ((matches (Some e) (email c) || matches (Some p) (phone c))
                           && negb (Nat.eqb (_id c) (_id client)))%bool)
                (db w) x Hin) as [y Hy].
    { apply andb_true_iff. split.
      - simpl. apply orb_true_iff.
        destruct Hsame as [-> | ->]; [left | right]; apply String.eqb_refl.
      - now apply negb_true_iff, Nat.eqb_neq. }
    unfold findOne_email_or_phone. now rewrite Hy.
  - intros client Hf Hnone Hmiss.
    unfold updateClient. cbv zeta. monad_unfold. rewrite Hf, Hnone.
    unfold assignable in Hmiss.
    destruct (ne_stored (body_email (body req)) (email client)
              || ne_stored (body_phone (body req)) (phone client))%bool;
      destruct (body_name (body req)); try reflexivity;
      destruct (body_email (body req)); try reflexivity;
      destruct (body_phone (body req)); try reflexivity;
      destruct (cast_age (body_age (body req))); try reflexivity;
      destruct (body_gender (body req)); try reflexivity; discriminate.
Qed.

Lemma get_key_credentials (c : Client) :
  get_key "password" (toJSON c) = Some (JStr (password c))
  /\ forall t, refreshToken c = Val t ->
               get_key "refreshToken" (toJSON c) = Some (JStr t).
Proof.
  split; [reflexivity |].
  intros t Ht. destruct c as [? ? ? ? ? ? ? ? ? rt vt ? o oe ? ? ?].
  simpl in Ht. subst rt. reflexivity.
Qed.

(** X16. The 200 response of a profile update carries the stored record as
    it is, with no projection: the stored password hash is in the body,
    and so is the stored refresh token when the record has one. *)
Theorem updateClient_response_unredacted (i : Inputs) (req : Req)
  (w w' : World) (resp : Response) :
  updateClient i req w = (Ok resp, w') ->
  exists saved doc,
    findById (client_id req) (db w') = Some saved
    /\ status resp = 200
    /\ data (json resp) = DClient doc
    /\ doc = toJSON saved
    /\ get_key "password" doc = Some (JStr (password saved))
    /\ forall t, refreshToken saved = Val t ->
                 get_key "refreshToken" doc = Some (JStr t).
Proof.
  intros E.
  destruct (updateClient_inv i req w w' resp E) as (c0 & s0 & _ & _ & _ & Hr).
  destruct (updateClient_stored i req w w' resp E)
    as (client & saved & _ & Hf' & _ & Hd & _).
  exists saved, (toJSON saved).
  split; [exact Hf' |]. split; [now rewrite Hr |]. split; [exact Hd |].
  split; [reflexivity |]. apply get_key_credentials.
Qed.

(** ** The unique keys of the collection *)

Lemma findById_In_unique (d : list Client) (c : Client) :
  NoDup (map _id d) -> In c d -> findById (_id c) d = Some c.
Proof.
  unfold findById. induction d as [| x d IH]; simpl; [contradiction |].
  intros Hnd [-> | Hin].
  - now rewrite Nat.eqb_refl.
  - inversion Hnd as [| ? ? Hx Hd]; subst.
    destruct (Nat.eqb (_id x) (_id c)) eqn:Ex; [| now apply IH].
    apply Nat.eqb_eq in Ex. exfalso. apply Hx. rewrite Ex.
    now apply in_map.
Qed.

Lemma map_replace_doc_same {B} (f : Client -> B) (d : list Client)
  (c' c0 : Client) :
  findById (_id c') d = Some c0 -> f c' = f c0 ->
  map f (replace_doc c' d) = map f d.
Proof.
  unfold findById. intros Hf Hsame.
  induction d as [| x d IH]; simpl in *; [reflexivity |].
  destruct (Nat.eqb (_id x) (_id c')); simpl.
  - injection Hf as ->. now rewrite Hsame.
  - f_equal. now apply IH.
Qed.

Lemma In_replace_doc (c' : Client) (d : list Client) (y : Client) :
  In y (replace_doc c' d) -> In y d \/ y = c'.
Proof.
  induction d as [| x d IH]; simpl; [contradiction |].
  destruct (Nat.eqb (_id x) (_id c')); simpl.
  - intros [<- | Hin]; auto.
  - intros [<- | Hin]; auto. destruct (IH Hin); auto.
Qed.

Lemma NoDup_replace_doc {B} (f : Client -> B) (d : list Client) (c' : Client) :
  NoDup (map _id d) -> NoDup (map f d) ->
  (forall x, In x d -> _id x <> _id c' -> f x <> f c') ->
  NoDup (map f (replace_doc c' d)).
Proof.
  induction d as [| x d IH]; simpl; intros Hid Hf Hother; [constructor |].
  inversion Hid as [| ? ? Hxid Hid']; subst.
  inversion Hf as [| ? ? Hxf Hf']; subst.
  destruct (Nat.eqb (_id x) (_id c')) eqn:Ex; simpl.
  - apply Nat.eqb_eq in Ex. constructor; [| exact Hf'].
    intros Hin. apply in_map_iff in Hin. destruct Hin as (y & Hy & Hyin).
    apply (Hother y); auto.
    intros Heq. apply Hxid. rewrite Ex, <- Heq. now apply in_map.
  - apply Nat.eqb_neq in Ex. constructor; [| apply IH; auto].
    intros Hin. apply in_map_iff in Hin. destruct Hin as (y & Hy & Hyin).
    destruct (In_replace_doc _ _ _ Hyin) as [Hyd | ->].
    + apply Hxf. rewrite <- Hy. now apply in_map.
    + apply (Hother x); auto.
Qed.

Lemma duplicate_key_false (c : Client) (d : list Client) (x : Client) :
  duplicate_key c d = false -> In x d -> _id x <> _id c ->
  email x <> email c /\ phone x <> phone c.
Proof.
  unfold duplicate_key. intros Hd Hin Hid.
  destruct (existsb_exists
              (fun x => (negb (Nat.eqb (_id x) (_id c))
                         && (String.eqb (email x) (email c)
                             || String.eqb (phone x) (phone c)))%bool) d)
    as [_ Hex].
  destruct (String.eqb (email x) (email c) || String.eqb (phone x) (phone c))%bool
    eqn:E.
  - rewrite Hex in Hd; [discriminate |]. exists x. split; [exact Hin |].
    apply andb_true_iff. split; [| exact E].
    now apply negb_true_iff, Nat.eqb_neq.
  - apply orb_false_iff in E. destruct E as [E1 E2].
    apply String.eqb_neq in E1. apply String.eqb_neq in E2. auto.
Qed.

Lemma unique_keys_replace (d : list Client) (c' c0 : Client) :
  unique_keys d -> findById (_id c') d = Some c0 ->
  (email c' = email c0 /\ phone c' = phone c0) \/ duplicate_key c' d = false ->
  unique_keys (replace_doc c' d).
Proof.
  intros (Hid & He & Hp) Hf Hkeys.
  pose proof (findById_id _ _ _ Hf) as Hcid.
  split; [now rewrite (map_replace_doc_same _id d c' c0 Hf) |].
  destruct Hkeys as [[Hes Hps] | Hdup].
  - now rewrite (map_replace_doc_same email d c' c0 Hf Hes),
      (map_replace_doc_same phone d c' c0 Hf Hps).
  - split; apply NoDup_replace_doc; auto; intros x Hin Hne;
      now destruct (duplicate_key_false c' d x Hdup Hin Hne).
Qed.

Lemma NoDup_snoc {B} (l : list B) (a : B) :
  NoDup l -> ~ In a l -> NoDup (l ++ [a]).
Proof.
  induction l as [| x l IH]; simpl; intros Hl Ha.
  - repeat constructor. auto.
  - inversion Hl as [| ? ? Hx Hl']; subst. constructor.
    + intros Hin. apply in_app_or in Hin. destruct Hin as [Hin | [-> | []]]; auto.
    + apply IH; auto.
Qed.

Lemma unique_keys_app (d : list Client) (c : Client) :
  unique_keys d ->
  (forall x, In x d -> _id x <> _id c /\ email x <> email c /\ phone x <> phone c) ->
  unique_keys (d ++ [c]).
Proof.
  intros (Hid & He & Hp) Hnew. unfold unique_keys. rewrite !map_app. simpl.
  repeat split; apply NoDup_snoc; auto; intros Hin;
    apply in_map_iff in Hin; destruct Hin as (x & Hx & Hin);
    destruct (Hnew x Hin) as (H1 & H2 & H3); congruence.
Qed.

Lemma pre_save_keys (i : Inputs) (orig : option Client) (cur : Client) :
  email (pre_save i orig cur) = email cur
  /\ phone (pre_save i orig cur) = phone cur.
Proof. unfold pre_save. now destruct (isModified _ _ _ _). Qed.

(** A save of a record loaded from the collection keeps the keys unique:
    it goes through only if the email and the phone are as loaded or no
    other record holds them. *)
Lemma save_unique (v : bool) (i : Inputs) (orig cur : Client) (w w' : World)
  (r : Result Client) :
  save v i orig cur w = (r, w') ->
  findById (_id orig) (db w) = Some orig -> _id cur = _id orig ->
  unique_keys (db w) -> unique_keys (db w').
Proof.
  unfold save. monad_unfold. intros E Hf Hid Hu.
  destruct (v && negb (validate cur))%bool;
    [now injection E as <- <- |].
  set (c := pre_save i (Some orig) cur) in *.
  destruct (client_eqb orig c); [now injection E as <- <- |].
  cbv beta iota in E. cbn [db] in E.
  destruct ((isModified String.eqb email (Some orig) c
             || isModified String.eqb phone (Some orig) c)
            && duplicate_key c (db w))%bool eqn:Hd;
    [now injection E as <- <- |].
  injection E as <- <-. cbn [db].
  assert (Hcid : _id c = _id orig) by (unfold c; now rewrite pre_save_id).
  apply unique_keys_replace with (c0 := orig); auto.
  - simpl. now rewrite Hcid.
  - apply andb_false_iff in Hd. destruct Hd as [Hm | Hdup]; [left | right; exact Hdup].
    apply orb_false_iff in Hm. destruct Hm as [Hme Hmp].
    unfold isModified in Hme, Hmp.
    apply negb_false_iff, String.eqb_eq in Hme.
    apply negb_false_iff, String.eqb_eq in Hmp. simpl. auto.
Qed.

Lemma ku_ret {A} (d0 : list Client) (a : A) (Q : A -> list Client -> Prop) :
  Q a d0 -> keeps_unique d0 (ret a) Q.
Proof.
  intros HQ w r w' [= <- <-] Hd Hu. rewrite Hd.
  split; [exact Hu |]. now intros ? [= <-].
Qed.

Lemma ku_ret_pure {A} (d0 : list Client) (a : A) :
  keeps_unique d0 (ret a) (fun _ d => d = d0).
Proof. now apply ku_ret. Qed.

Lemma ku_throw {A} (d0 : list Client) (f : Failure)
  (Q : A -> list Client -> Prop) :
  keeps_unique d0 (throw f) Q.
Proof.
  intros w r w' [= <- <-] Hd Hu. rewrite Hd. split; [exact Hu | discriminate].
Qed.

Lemma ku_throw_if (d0 : list Client) (c : bool) (f : Failure) :
  keeps_unique d0 (throw_if c f) (fun _ d => d = d0).
Proof. unfold throw_if. destruct c; [apply ku_throw | apply ku_ret_pure]. Qed.

Lemma ku_get_db (d0 : list Client) :
  keeps_unique d0 get_db (fun d d' => d = d0 /\ d' = d0).
Proof.
  intros w r w' [= <- <-] Hd Hu. rewrite Hd.
  split; [exact Hu |]. now intros ? [= <-].
Qed.

Lemma ku_send (d0 : list Client) (m : Mail) :
  keeps_unique d0 (send m) (fun _ d => d = d0).
Proof.
  intros w r w' [= <- <-] Hd Hu. cbn [db]. rewrite Hd.
  split; [exact Hu |]. now intros ? _.
Qed.

Lemma ku_jwt_verify (d0 : list Client) (tok secret : string) (clock : Z) :
  keeps_unique d0 (jwt_verify tok secret clock) (fun _ d => d = d0).
Proof.
  intros w r w' E Hd Hu. apply jwt_verify_pure in E. destruct E as [-> _].
  rewrite Hd. split; [exact Hu |]. now intros ? _.
Qed.

Lemma ku_bind {A B} (d0 : list Client) (m : M A) (k : A -> M B)
  (Q : A -> list Client -> Prop) (R : B -> list Client -> Prop) :
  keeps_unique d0 m Q ->
  (forall a d1, Q a d1 -> unique_keys d1 -> keeps_unique d1 (k a) R) ->
  keeps_unique d0 (bind m k) R.
Proof.
  intros Hm Hk w r w' E Hd Hu. unfold bind in E.
  destruct (m w) as [[a | f] w1] eqn:Em.
  - destruct (Hm w _ _ Em Hd Hu) as [Hu1 HQ].
    exact (Hk a (db w1) (HQ a eq_refl) Hu1 w1 r w' E eq_refl Hu1).
  - injection E as <- <-. destruct (Hm w _ _ Em Hd Hu) as [Hu1 _].
    split; [exact Hu1 | discriminate].
Qed.

Lemma ku_save (d0 : list Client) (v : bool) (i : Inputs) (orig cur : Client) :
  findById (_id orig) d0 = Some orig -> _id cur = _id orig ->
  keeps_unique d0 (save v i orig cur) (fun _ _ => True).
Proof.
  intros Hf Hid w r w' E Hd Hu. subst d0.
  split; [exact (save_unique v i orig cur w w' r E Hf Hid Hu) | trivial].
Qed.

Lemma ku_create (d0 : list Client) (i : Inputs) (n e p pw : string)
  (a : option Z) (g av : string) (v : bool) (vt o : string) (oe : Z) (f : Failure) :
  keeps_unique d0 (try_catch (create i n e p pw a g av v vt o oe) f)
    (fun _ _ => True).
Proof.
  intros w r w' E Hd Hu. subst d0. split; [| trivial].
  unfold try_catch, create in E. monad_unfold.
  destruct (is_number _ && validate _)%bool; cbv beta iota delta [negb] in E;
    [| now injection E as <- <-].
  cbn [db] in E.
  destruct (duplicate_key _ (db w)) eqn:Hdup; cbv beta iota in E;
    [now injection E as <- <- |].
  injection E as <- <-. cbn [db].
  apply unique_keys_app; [exact Hu |].
  intros x Hin.
  assert (Hid : _id x <> fresh_id (db w)).
  { pose proof (fresh_id_bound (db w) x Hin). lia. }
  rewrite pre_save_id. cbn [_id]. split; [exact Hid |].
  apply (duplicate_key_false _ _ x Hdup Hin).
  rewrite pre_save_id. exact Hid.
Qed.

Lemma ku_logout (d0 : list Client) (clock : Z) (id : ObjectId) :
  keeps_unique d0 (put_db (findByIdAndUpdate_refreshToken_null clock id d0))
    (fun _ _ => True).
Proof.
  intros w r w' [= <- <-] Hd Hu. cbn [db]. split; [| trivial].
  unfold findByIdAndUpdate_refreshToken_null.
  destruct (findById id d0) as [c |] eqn:Hf; [| exact Hu].
  apply unique_keys_replace with (c0 := c); auto.
  simpl. now rewrite (findById_id _ _ _ Hf).
Qed.

(** The side conditions of a save: the record was loaded from the
    collection, and the document to store keeps its [_id]. *)
Ltac loaded :=
  match goal with
  | Hf : findById _ ?d = Some ?c |- findById (_id ?c) ?d = Some ?c =>
      now rewrite (findById_id _ _ _ Hf)
  | Hf : findOne_email _ ?d = Some ?c, Hu : unique_keys ?d
    |- findById (_id ?c) ?d = Some ?c =>
      apply findById_In_unique; [apply Hu | apply (find_some _ _ Hf)]
  | |- _id _ = _id _ =>
      repeat match goal with
             | |- context [if ?b then _ else _] => destruct b
             end;
      reflexivity
  end.

Ltac ku_step :=
  lazymatch goal with
  | |- keeps_unique _ (throw _) _ => apply ku_throw
  | |- keeps_unique _ (ret _) _ =>
      first [apply ku_ret_pure | apply ku_ret; exact I]
  | |- keeps_unique _ (jwt_verify _ _ _) _ => apply ku_jwt_verify
  | |- keeps_unique _ get_db _ => apply ku_get_db
  | |- keeps_unique _ (send _) _ => apply ku_send
  | |- keeps_unique _ (throw_if _ _) _ => apply ku_throw_if
  | |- keeps_unique _ (try_catch (create _ _ _ _ _ _ _ _ _ _ _ _) _) _ =>
      apply ku_create
  | |- keeps_unique _ (save _ _ _ _) _ => apply ku_save; loaded
  | |- keeps_unique _ (put_db _) _ => apply ku_logout
  | |- keeps_unique _ (bind _ _) _ => eapply ku_bind
  | |- keeps_unique _ (match ?x with _ => _ end) _ => destruct x eqn:?
  | |- keeps_unique _ _ _ => progress cbv zeta
  | |- forall _ _, _ -> unique_keys _ -> _ =>
      let HQ := fresh "HQ" in
      intros ? ? HQ ?; cbv beta in HQ;
      repeat match type of HQ with
             | _ /\ _ => let H1 := fresh "HQ" in destruct HQ as [H1 HQ]
             end;
      subst
  end.

Lemma ku_generateAccessRefreshTokens (d0 : list Client) (i : Inputs)
  (id : option ObjectId) :
  keeps_unique d0 (generateAccessRefreshTokens env i id) (fun _ _ => True).
Proof. unfold generateAccessRefreshTokens. repeat ku_step. Qed.

Ltac ku_handler :=
  repeat first
    [ apply ku_generateAccessRefreshTokens
    | ku_step ].

Lemma ku_handle (d0 : list Client) (op : Operation) (i : Inputs) (req : Req) :
  keeps_unique d0 (handle env op i req) (fun _ _ => True).
Proof.
  destruct op; simpl handle.
  - unfold registerClient. ku_handler.
  - unfold loginClient. ku_handler.
  - unfold verifyEmail. ku_handler.
  - unfold logoutClient. ku_handler.
  - unfold updateClient. ku_handler.
  - unfold refreshAccessToken. ku_handler.
  - unfold verifyOtp. ku_handler.
  - unfold getCurrentClient. ku_handler.
  - unfold getAllClients. ku_handler.
  - unfold getClientById. ku_handler.
Qed.

(** X17. Every operation, whether it succeeds or fails, keeps [_id],
    [email] and [phone] unique across the stored records: a registration
    appends a record only under a new id and with an email and a phone no
    record holds, and a save replaces a record only if its email and phone
    are as loaded or held by no other record. *)
Theorem unique_keys_kept (op : Operation) (i : Inputs) (req : Req) (w : World) :
  unique_keys (db w) -> unique_keys (db (snd (handle env op i req w))).
Proof.
  intros Hu. destruct (handle env op i req w) as [r w'] eqn:E.
  exact (proj1 (ku_handle (db w) op i req w r w' E eq_refl Hu)).
Qed.

(** ** The one-time code *)

Lemma of_lu_rev_bound (d : Decimal.uint) :
  (Unsigned.of_lu (Decimal.rev d) < 10 ^ Unsigned.usize d)%N.
Proof.
  induction d; unfold Decimal.rev; simpl Decimal.revapp;
    [simpl; lia | ..];
    rewrite Unsigned.of_lu_revapp; simpl Unsigned.usize;
    rewrite N.pow_succ_r'; simpl Unsigned.of_lu; lia.
Qed.

Lemma usize_nb_digits (d : Decimal.uint) :
  Unsigned.usize d = N.of_nat (Decimal.nb_digits d).
Proof.
  induction d; simpl Unsigned.usize; simpl Decimal.nb_digits;
    [reflexivity | ..]; rewrite IHd; lia.
Qed.

Lemma string_of_uint_length (d : Decimal.uint) :
  String.length (NilEmpty.string_of_uint d) = Decimal.nb_digits d.
Proof. induction d; simpl; congruence. Qed.

Lemma string_of_uint_digits (d : Decimal.uint) :
  all_digits (NilEmpty.string_of_uint d) = true.
Proof. induction d; simpl; auto. Qed.

Lemma to_uint_normal (p : positive) :
  Decimal.unorm (Pos.to_uint p) = Pos.to_uint p.
Proof.
  rewrite <- Unsigned.to_of, Unsigned.of_to. reflexivity.
Qed.

(** The decimal numeral of a positive number starts with a non-zero digit
    [k], and the number lies between [k * 10^u] and [(k + 1) * 10^u] for
    the [u] digits that follow. *)
Lemma to_uint_bounds (p : positive) :
  exists k d',
    (1 <= k <= 9)%N
    /\ NilZero.string_of_uint (Pos.to_uint p)
       = NilEmpty.string_of_uint (Pos.to_uint p)
    /\ Decimal.nb_digits (Pos.to_uint p) = S (Decimal.nb_digits d')
    /\ (k * 10 ^ Unsigned.usize d' <= Npos p
        < (k + 1) * 10 ^ Unsigned.usize d')%N.
Proof.
  pose proof (Unsigned.of_to p) as Hval.
  rewrite Unsigned.of_uint_alt in Hval.
  pose proof (to_uint_normal p) as Hnorm.
  pose proof (Unsigned.to_uint_nonzero p) as Hnz.
  destruct (Pos.to_uint p) as [| d' | d' | d' | d' | d' | d' | d' | d' | d' | d'].
  1: { simpl in Hval. discriminate. }
  1: { exfalso. rewrite unorm_D0 in Hnorm. unfold Decimal.unorm in Hnorm.
       destruct (Decimal.nzhead d') eqn:Hh; try discriminate.
       - injection Hnorm as <-. now apply Hnz.
       - now apply (nzhead_nonzero d' u). }
  all: unfold Decimal.rev in Hval; simpl Decimal.revapp in Hval;
    rewrite Unsigned.of_lu_revapp in Hval;
    match type of Hval with
    | context [(Unsigned.of_lu ?t * _)%N] => exists (Unsigned.of_lu t), d'
    end;
    simpl Unsigned.of_lu in *; pose proof (of_lu_rev_bound d');
    repeat split; lia.
Qed.

Lemma to_uint_head (p : positive) :
  String.get 0 (NilEmpty.string_of_uint (Pos.to_uint p)) <> Some "0"%char.
Proof.
  pose proof (to_uint_normal p) as Hnorm.
  pose proof (Unsigned.to_uint_nonzero p) as Hnz.
  destruct (Pos.to_uint p) as [| d' | d' | d' | d' | d' | d' | d' | d' | d' | d'];
    simpl; try discriminate.
  intros _. rewrite unorm_D0 in Hnorm. unfold Decimal.unorm in Hnorm.
  destruct (Decimal.nzhead d') eqn:Hh; try discriminate.
  - injection Hnorm as <-. now apply Hnz.
  - now apply (nzhead_nonzero d' u).
Qed.

Lemma toString_six_digits (z : Z) :
  100000 <= z <= 999999 ->
  exists p,
    z = Zpos p
    /\ toString z = NilEmpty.string_of_uint (Pos.to_uint p)
    /\ Decimal.nb_digits (Pos.to_uint p) = 6%nat.
Proof.
  intros Hz. destruct z as [| p | p]; try lia.
  destruct (to_uint_bounds p) as (k & d' & Hk & Hs & Hn & Hb).
  exists p. split; [reflexivity |].
  unfold toString. simpl Z.to_int. cbn [NilZero.string_of_int]. rewrite Hs.
  split; [reflexivity |].
  rewrite usize_nb_digits in Hb.
  destruct (Nat.lt_trichotomy (Decimal.nb_digits d') 5) as [Hlt | [He | Hgt]];
    [exfalso | now rewrite Hn, He | exfalso].
  - assert (Hp : (10 ^ N.of_nat (Decimal.nb_digits d') <= 10 ^ 4)%N)
      by (apply N.pow_le_mono_r; lia).
    change (10 ^ 4)%N with 10000%N in Hp. nia.
  - assert (Hp : (10 ^ 6 <= 10 ^ N.of_nat (Decimal.nb_digits d'))%N)
      by (apply N.pow_le_mono_r; lia).
    change (10 ^ 6)%N with 1000000%N in Hp. nia.
Qed.

(** X18. For a draw in [[0, 900000)] the generated code is a string of
    exactly six decimal digits that does not start with a zero, and two
    different draws give two different codes. *)
Theorem generateOTP_six_digits (i : Inputs) :
  0 <= otp_draw i < 900000 ->
  String.length (generateOTP i) = 6%nat
  /\ all_digits (generateOTP i) = true
  /\ String.get 0 (generateOTP i) <> Some "0"%char
  /\ forall j, 0 <= otp_draw j < 900000 ->
               generateOTP j = generateOTP i -> otp_draw j = otp_draw i.
Proof.
  intros Hd. unfold generateOTP.
  destruct (toString_six_digits (100000 + otp_draw i)) as (p & Hp & Hs & Hn);
    [lia |].
  split; [now rewrite Hs, string_of_uint_length |].
  split; [rewrite Hs; apply string_of_uint_digits |].
  split; [rewrite Hs; apply to_uint_head |].
  intros j Hj Heq.
  destruct (toString_six_digits (100000 + otp_draw j)) as (q & Hq & Hs' & _);
    [lia |].
  rewrite Hs, Hs' in Heq.
  assert (Hpq : Pos.to_uint q = Pos.to_uint p).
  { pose proof (NilEmpty.usu (Pos.to_uint q)) as Uq.
    pose proof (NilEmpty.usu (Pos.to_uint p)) as Up.
    rewrite Heq in Uq. congruence. }
  apply Unsigned.to_uint_inj in Hpq. lia.
Qed.

End MoreProperties.

(** * The controllers on the reference instance *)

Import Reference.

(** The reference hash never returns its input. *)
Lemma hash_not_fixed (y : string) (s : Z) : hash y s <> y.
Proof.
  unfold hash. intros E.
  apply (f_equal String.length) in E. simpl in E.
  induction (String.length y); [discriminate | now injection E].
Qed.

(** C1 (what the code does where the claim fails). The id-keyed
    [verifyOtp] returns a refresh token in its cookie that is not the one
    stored on the record: a minute after registration, client 1 is handed
    a token signed at second 1060 while the record keeps the token of
    second 1000. *)
Theorem verifyOtp_refresh_token_not_persisted :
  exists resp w' c',
    verifyOtp (H := libs) env (at_clock 1060000) (request verify_body)
      registered_world = (Ok resp, w')
    /\ cookies resp
       = token_cookies "access-secret|1||||1060|1960" returned_token
    /\ findById 1%nat (db w') = Some c'
    /\ refreshToken c' = Val stored_token
    /\ returned_token <> stored_token.
Proof.
  eexists _, _, _.
  split; [vm_compute; reflexivity |].
  split; [reflexivity |].
  split; [vm_compute; reflexivity |].
  split; [reflexivity | discriminate].
Qed.

(** C2, as stated, fails on login: after the id-keyed verification the
    record holds [otp] and [otpExpires] as [null], and the document in the
    login response contains both paths. *)
Lemma login_response_contains_otp_paths :
  exists resp w' doc accessToken refreshToken',
    loginClient (H := libs) env (at_clock 1120000) (request login_body)
      verified_world = (Ok resp, w')
    /\ data (json resp) = DLogin (Some doc) accessToken refreshToken'
    /\ has_key "otp" doc = true
    /\ has_key "otpExpires" doc = true
    /\ get_key "otp" doc = Some JNull.
Proof.
  eexists _, _, _, _, _.
  split; [vm_compute; reflexivity |].
  split; [reflexivity |].
  repeat split.
Qed.

(** C3, as stated, fails when the rotation happens in the second the
    stored token was signed in: the call succeeds and the newly stored
    refresh token is the previously stored one. *)
Lemma refresh_within_same_second_keeps_token :
  exists resp w' stored stored',
    refreshAccessToken (H := libs) env (at_clock 1000400)
      (refresh_request stored_token) registered_world = (Ok resp, w')
    /\ findById 1%nat (db registered_world) = Some stored
    /\ findById 1%nat (db w') = Some stored'
    /\ refreshToken stored = Val stored_token
    /\ refreshToken stored' = refreshToken stored
    /\ cookies resp
       = token_cookies "access-secret|1|asha@example.org|Client|0|1000|1900"
           stored_token.
Proof.
  eexists _, _, _, _.
  split; [vm_compute; reflexivity |].
  split; [vm_compute; reflexivity |].
  split; [vm_compute; reflexivity |].
  repeat split.
Qed.

(** C4, as stated, fails on a login that carries no password: the email
    matches a record, and the call is not answered with 401 but throws
    bcrypt's own error. *)
Lemma login_without_password_is_not_unauthorized :
  findOne_email (body_email passwordless_body) (db verified_world)
  = Some asha_verified
  /\ body_password passwordless_body = None
  /\ loginClient (H := libs) env (at_clock 1120000) (request passwordless_body)
       verified_world
     = (Throw IllegalArguments, verified_world).
Proof.
  split; [vm_compute; reflexivity |]. split; [reflexivity |].
  vm_compute. reflexivity.
Qed.

(** C8, as stated, fails from the expiry second of the returned token on:
    the token is not the stored one, and the call is not answered with 401
    but throws [TokenExpiredError]. *)
Lemma expired_verifyOtp_token_is_not_unauthorized :
  cookies_of otp_verified
  = token_cookies "access-secret|1||||1060|1960" returned_token
  /\ findById 1%nat (db verified_world) = Some asha_verified
  /\ refreshToken asha_verified <> Val returned_token
  /\ refreshAccessToken (H := libs) env (at_clock 865060000)
       (refresh_request returned_token) verified_world
     = (Throw TokenExpiredError, verified_world).
Proof.
  split; [vm_compute; reflexivity |]. split; [vm_compute; reflexivity |].
  split; [discriminate |]. vm_compute. reflexivity.
Qed.

Lemma sanitized_outputs_witness :
  (exists doc,
      get_key "email" doc = Some (JStr "asha@example.org")
      /\ has_key "password" doc = false /\ has_key "refreshToken" doc = false
      /\ has_key "otp" doc = true)
  /\ (exists doc,
        get_key "email" doc = Some (JStr "asha@example.org") /\ redacted doc)
  /\ (exists docs, List.length docs = 10%nat /\ Forall redacted docs)
  /\ (exists doc,
        get_key "email" doc = Some (JStr "asha@example.org") /\ redacted doc).
Proof.
  split; [| split; [| split]].
  - destruct (loginClient (H := libs) env (at_clock 1120000) (request login_body)
                verified_world) as [[resp | f] w'] eqn:E;
      [| vm_compute in E; discriminate E].
    destruct (proj1 (sanitized_outputs (H := libs) env (at_clock 1120000)
                       (request login_body) verified_world) resp w' E)
      as (c' & doc & a & r & Hd & Hin & Hdoc & Hp & Hr & Ho & He).
    exists doc.
    vm_compute in E. injection E as <- <-.
    destruct Hin as [<- | []].
    split; [rewrite Hdoc; reflexivity |].
    split; [exact Hp |]. split; [exact Hr |].
    rewrite Ho. reflexivity.
  - eexists. split;
      [| eapply (proj1 (proj2 (sanitized_outputs (H := libs) env (at_clock 5)
                                 update_request verified_world)));
         [vm_compute; reflexivity | reflexivity]].
    reflexivity.
  - eexists. split;
      [| eapply (proj1 (proj2 (proj2 (sanitized_outputs (H := libs) env
                                        (at_clock 5) page_two clinic))));
         [vm_compute; reflexivity | reflexivity]].
    reflexivity.
  - eexists. split;
      [| eapply (proj2 (proj2 (proj2 (sanitized_outputs (H := libs) env
                                        (at_clock 5)
                                        (mkReq no_body no_query None (Some 1%nat)
                                           None O)
                                        verified_world))));
         [vm_compute; reflexivity | reflexivity]].
    reflexivity.
Defined.

Lemma refreshAccessToken_rotation_witness :
  refreshAccessToken (H := libs) env (at_clock 1100000) (request no_body)
    registered_world
  = (Throw (ApiError 401 "Unauthorized request"), registered_world)
  /\ refreshAccessToken (H := libs) env (at_clock 1100000)
       (refresh_request returned_token) registered_world
     = (Throw (ApiError 401 "Invalid or expired refresh token"), registered_world)
  /\ (exists resp w' c',
         refreshAccessToken (H := libs) env (at_clock 1100000)
           (refresh_request stored_token) registered_world = (Ok resp, w')
         /\ findById 1%nat (db w') = Some c'
         /\ refreshToken c' = Val "refresh-secret|1||||1100|865100"
         /\ refreshToken c' <> Val stored_token
         /\ refreshAccessToken (H := libs) env (at_clock 1160000)
              (refresh_request stored_token) w'
            = (Throw (ApiError 401 "Invalid or expired refresh token"), w')
         /\ refreshAccessToken (H := libs) env (at_clock 865000000)
              (refresh_request stored_token) w'
            = (Throw TokenExpiredError, w'))
  /\ (exists resp w' c',
         refreshAccessToken (H := libs) env (at_clock 1000400)
           (refresh_request stored_token) registered_world = (Ok resp, w')
         /\ findById 1%nat (db w') = Some c'
         /\ refreshToken c' = Val stored_token).
Proof.
  pose (i := at_clock 1100000).
  pose (claims := mkClaims (mkPayload (Some 1%nat) None None None) 1000 865000).
  split; [| split; [| split]].
  - apply (proj1 (refreshAccessToken_rotation (H := libs) env i (request no_body)
                    registered_world)).
    reflexivity.
  - apply (proj1 (proj2 (refreshAccessToken_rotation (H := libs) env i
                           (refresh_request returned_token) registered_world))
             returned_token
             (mkClaims (mkPayload (Some 1%nat) None None None) 1060 865060)).
    + reflexivity.
    + discriminate.
    + vm_compute. reflexivity.
    + intros client Hf. vm_compute in Hf. injection Hf as <-. discriminate.
  - destruct (proj2 (proj2 (refreshAccessToken_rotation (H := libs) env i
                              (refresh_request stored_token) registered_world))
                stored_token claims asha_registered)
      as (resp & w' & c' & E & _ & _ & Hf & Hr & Hstale & _).
    + reflexivity.
    + discriminate.
    + vm_compute. reflexivity.
    + vm_compute. reflexivity.
    + reflexivity.
    + destruct Hstale as [Hne Hreplay].
      { vm_compute. discriminate. }
      { vm_compute. reflexivity. }
      exists resp, w', c'.
      split; [exact E |]. split; [exact Hf |]. split; [exact Hr |].
      split; [exact Hne |]. split.
      * apply (proj1 (Hreplay (at_clock 1160000) (refresh_request stored_token)
                        eq_refl)).
        vm_compute. reflexivity.
      * apply (proj2 (Hreplay (at_clock 865000000)
                        (refresh_request stored_token) eq_refl)).
        vm_compute. discriminate.
  - destruct (proj2 (proj2 (refreshAccessToken_rotation (H := libs) env
                              (at_clock 1000400)
                              (refresh_request stored_token) registered_world))
                stored_token claims asha_registered)
      as (resp & w' & c' & E & _ & _ & Hf & _ & _ & Hsame).
    + reflexivity.
    + discriminate.
    + vm_compute. reflexivity.
    + vm_compute. reflexivity.
    + reflexivity.
    + exists resp, w', c'.
      split; [exact E |]. split; [exact Hf |].
      apply (Hsame 1000000); vm_compute; reflexivity.
Defined.

Lemma loginClient_gates_witness :
  loginClient (H := libs) env (at_clock 1120000)
    (request (mkBody None (Some "nobody@example.org") None (Some "s3cret")
                None None None None None)) verified_world
  = (Throw (ApiError 404 "Requested user doesn't exist"), verified_world)
  /\ loginClient (H := libs) env (at_clock 1120000) (request relogin_body)
       verified_world
     = (Throw (ApiError 401 "Invalid user credentials"), verified_world)
  /\ loginClient (H := libs) env (at_clock 1120000) (request login_body)
       registered_world
     = (Throw (ApiError 401 "Please verify your email first"), registered_world)
  /\ (exists resp w',
         loginClient (H := libs) env (at_clock 1120000) (request login_body)
           verified_world = (Ok resp, w')
         /\ status resp = 200)
  /\ (exists client,
         findOne_email (Some "asha@example.org") (db verified_world) = Some client
         /\ isPasswordCorrect (H := libs) client "s3cret" = true
         /\ verified client = true)
  /\ loginClient (H := libs) env (at_clock 1120000) (request passwordless_body)
       verified_world
     = (Throw IllegalArguments, verified_world).
Proof.
  pose (i := at_clock 1120000).
  pose (asha := asha_verified).
  pose (asha0 := asha_registered).
  split; [| split; [| split; [| split; [| split]]]].
  - apply (proj1 (loginClient_gates (H := libs) env i _ verified_world)).
    reflexivity.
  - apply (proj1 (proj2 (loginClient_gates (H := libs) env i
                           (request relogin_body) verified_world))
             asha "n3wpass"); reflexivity.
  - apply (proj1 (proj2 (proj2 (loginClient_gates (H := libs) env i
                                  (request login_body) registered_world)))
             asha0 "s3cret"); reflexivity.
  - destruct (proj1 (proj2 (proj2 (proj2 (loginClient_gates (H := libs) env i
                                            (request login_body) verified_world))))
                asha "s3cret") as (resp & w' & E & Hs & _); try reflexivity.
    exists resp, w'. auto.
  - destruct (loginClient (H := libs) env i (request login_body) verified_world)
      as [[resp | f] w'] eqn:E; [| vm_compute in E; discriminate E].
    destruct (proj1 (proj2 (proj2 (proj2 (proj2
                (loginClient_gates (H := libs) env i (request login_body)
                   verified_world))))) resp w' E)
      as (client & p & Hf & Hp & Hc & Hv).
    injection Hp as <-. exists client. auto.
  - apply (proj2 (proj2 (proj2 (proj2 (proj2
             (loginClient_gates (H := libs) env i (request passwordless_body)
                verified_world))))) asha); reflexivity.
Defined.

Lemma otp_verification_witness :
  verifyEmail (H := libs) (at_clock 1060000)
    (request (mkBody None (Some "asha@example.org") None None None None
                (Some "654321") None None)) registered_world
  = (Throw (ApiError 400 "Invalid or expired OTP"), registered_world)
  /\ (exists c',
         findOne_email (Some "asha@example.org")
           (db (snd (verifyEmail (H := libs) (at_clock 1060000)
                       (request (mkBody None (Some "asha@example.org") None None
                                   None None (Some "123456") None None))
                       registered_world))) = Some c'
         /\ verified c' = true /\ otp c' = Unset /\ otpExpires c' = Unset)
  /\ verifyOtp (H := libs) env (at_clock 1400000) (request verify_body)
       registered_world
     = (Throw (ApiError 400 "Invalid or expired OTP"), registered_world)
  /\ (exists c',
         findById 1%nat (db verified_world) = Some c'
         /\ verified c' = true /\ otp c' = Null /\ otpExpires c' = Null
         /\ verifyOtp (H := libs) env (at_clock 1090000) (request verify_body)
              verified_world
            = (Throw (ApiError 400 "Invalid or expired OTP"), verified_world)).
Proof.
  pose (asha0 := asha_registered).
  split; [| split; [| split]].
  - apply (proj1 (otp_verification (H := libs) env (at_clock 1060000) _
                    registered_world) asha0 "654321"); try reflexivity.
    + discriminate.
    + left. discriminate.
  - match goal with
    | |- context [verifyEmail ?i ?req ?w] =>
        destruct (verifyEmail i req w) as [[resp | f] w'] eqn:E;
        [| vm_compute in E; discriminate E];
        destruct (proj1 (proj2 (otp_verification (H := libs) env i req w))
                    resp w' E) as (c' & Hf & Hv & Ho & He & _)
    end.
    exists c'. auto.
  - apply (proj1 (proj2 (proj2 (otp_verification (H := libs) env
                                  (at_clock 1400000) (request verify_body)
                                  registered_world)))
             1%nat asha0 "123456"); try reflexivity.
    + discriminate.
    + right. exists 1300000. split; [reflexivity | simpl; lia].
  - destruct (verifyOtp (H := libs) env (at_clock 1060000) (request verify_body)
                registered_world) as [[resp | f] w'] eqn:E;
      [| vm_compute in E; discriminate E].
    destruct (proj2 (proj2 (proj2 (otp_verification (H := libs) env
                                     (at_clock 1060000) (request verify_body)
                                     registered_world)))
                resp w' E) as (id & c' & Hid & Hf & Hv & Ho & He & Hagain).
    injection Hid as <-.
    assert (Hw : w' = verified_world).
    { unfold verified_world, otp_verified. now rewrite E. }
    rewrite Hw in *.
    exists c'. auto 10.
Defined.

Lemma otp_fields_paired_witness :
  (Forall otp_paired (db registered_world)
   /\ Forall otp_paired (db verified_world))
  /\ (exists c,
         findById 1%nat (db registered_world) = Some c
         /\ otp c = Val "123456" /\ otpExpires c = Val 1300000)
  /\ (exists c,
         findOne_email (Some "asha@example.org")
           (db (snd (verifyEmail (H := libs) (at_clock 1060000)
                       (request (mkBody None (Some "asha@example.org") None None
                                   None None (Some "123456") None None))
                       registered_world))) = Some c
         /\ otp c = Unset /\ otpExpires c = Unset)
  /\ (exists c,
         findById 1%nat (db verified_world) = Some c
         /\ otp c = Null /\ otpExpires c = Null).
Proof.
  assert (Hreg : Forall otp_paired (db registered_world)).
  { vm_compute. repeat constructor. }
  split; [| split; [| split]].
  - split; [exact Hreg |].
    exact (proj1 (otp_fields_paired (H := libs) env VerifyOtp (at_clock 1060000)
                    (request verify_body) registered_world) Hreg).
  - destruct (registerClient (H := libs) env register_inputs
                (request register_body) empty_world)
      as [[resp | f] w'] eqn:E; [| vm_compute in E; discriminate E].
    destruct (proj1 (proj2 (otp_fields_paired (H := libs) env Register
                              register_inputs (request register_body)
                              empty_world)) resp w' E)
      as (c & Hf & Ho & He).
    assert (Hw : w' = registered_world).
    { unfold registered_world, registered. now rewrite E. }
    rewrite Hw in Hf. exists c. auto.
  - match goal with
    | |- context [verifyEmail ?i ?req ?w] =>
        destruct (verifyEmail i req w) as [[resp | f] w'] eqn:E;
        [| vm_compute in E; discriminate E];
        destruct (proj1 (proj2 (proj2 (otp_fields_paired (H := libs) env
                                         VerifyEmail i req w)))
                    resp w' E) as (c & Hf & Ho & He)
    end.
    exists c. auto.
  - destruct (verifyOtp (H := libs) env (at_clock 1060000) (request verify_body)
                registered_world) as [[resp | f] w'] eqn:E;
      [| vm_compute in E; discriminate E].
    destruct (proj2 (proj2 (proj2 (otp_fields_paired (H := libs) env VerifyOtp
                                     (at_clock 1060000) (request verify_body)
                                     registered_world)))
                resp w' E) as (id & c & Hid & Hf & Ho & He).
    injection Hid as <-.
    assert (Hw : w' = verified_world).
    { unfold verified_world, otp_verified. now rewrite E. }
    rewrite Hw in Hf. exists c. auto.
Defined.

Lemma getAllClients_pagination_witness :
  (exists resp docs pg,
      getAllClients (at_clock 5) page_two clinic = (Ok resp, clinic)
      /\ data (json resp) = DClients docs pg
      /\ currentPage pg = 2 /\ totalClients pg = 25
      /\ hasPrevPage pg = true)
  /\ (exists resp docs pg,
         getAllClients (at_clock 5) page_two clinic = (Ok resp, clinic)
         /\ data (json resp) = DClients docs pg
         /\ List.length docs = 10%nat
         /\ totalPages pg = Fin 3
         /\ hasNextPage pg = true
         /\ hasPrevPage pg = true).
Proof.
  split.
  - destruct (proj1 (getAllClients_pagination (at_clock 5) page_two clinic) 2 10)
      as (resp & docs & pg & sorted & E & Hd & _ & _ & _ & Hc & Ht & _ & Hp);
      try reflexivity; try lia.
    exists resp, docs, pg. repeat split; auto.
    apply Hp. lia.
  - apply (proj2 (getAllClients_pagination (at_clock 5) page_two clinic));
      reflexivity.
Defined.

Lemma verifyOtp_token_not_stored_witness :
  exists stored stored',
    findById 1%nat (db registered_world) = Some stored
    /\ findById 1%nat (db verified_world) = Some stored'
    /\ refreshToken stored' = refreshToken stored
    /\ refreshToken stored = Val stored_token
    /\ (exists msg,
           refreshAccessToken (H := libs) env (at_clock 1100000)
             (refresh_request returned_token) verified_world
           = (Throw (ApiError 401 msg), verified_world))
    /\ refreshAccessToken (H := libs) env (at_clock 865060000)
         (refresh_request returned_token) verified_world
       = (Throw TokenExpiredError, verified_world).
Proof.
  destruct (verifyOtp (H := libs) env (at_clock 1060000) (request verify_body)
              registered_world) as [[resp | f] w'] eqn:E;
    [| vm_compute in E; discriminate E].
  destruct (verifyOtp_token_not_stored (H := libs) env (at_clock 1060000)
              (request verify_body) registered_world w' resp E)
    as (id & stored & stored' & a & returned & Hid & Hf & Hf' & Hr & Hc & Hlater).
  injection Hid as <-.
  assert (Hw : w' = verified_world).
  { unfold verified_world, otp_verified. now rewrite E. }
  rewrite Hw in *. clear Hw.
  assert (Hret : returned = returned_token).
  { vm_compute in E. injection E as <-. now injection Hc. }
  subst returned.
  assert (Hs : stored = asha_registered).
  { vm_compute in Hf. now injection Hf. }
  exists stored, stored'.
  split; [exact Hf |]. split; [exact Hf' |]. split; [exact Hr |].
  split; [now rewrite Hs |].
  pose (claims := mkClaims (mkPayload (Some 1%nat) None None None) 1060 865060).
  split.
  - apply (proj1 (proj1 (Hlater (at_clock 1100000)
                           (refresh_request returned_token) claims
                           eq_refl eq_refl eq_refl)
                    ltac:(vm_compute; reflexivity))).
    rewrite Hs. discriminate.
  - apply (proj2 (Hlater (at_clock 865060000) (refresh_request returned_token)
                    claims eq_refl eq_refl eq_refl)).
    + vm_compute. discriminate.
    + discriminate.
Defined.

Lemma updateClient_password_double_hashed_witness :
  exists c',
    findById 1%nat (db (snd updated)) = Some c'
    /\ password c' = "53n3wpass"
    /\ isPasswordCorrect (H := libs) c' "n3wpass" = false
    /\ loginClient (H := libs) env (at_clock 1300000) (request relogin_body)
         (snd updated)
       = (Throw (ApiError 401 "Invalid user credentials"), snd updated).
Proof.
  destruct (updateClient (H := libs) (at_clock 1200000) update_request
              verified_world) as [[resp | f] w'] eqn:E;
    [| vm_compute in E; discriminate E].
  destruct (updateClient_password_double_hashed (H := libs) env
              (at_clock 1200000) update_request verified_world w' resp "n3wpass")
    as (c' & Hf & Hp & Hw & Hlogin).
  - intros x y s. reflexivity.
  - apply hash_not_fixed.
  - reflexivity.
  - discriminate.
  - intros client Hc. vm_compute in Hc. injection Hc as <-. discriminate.
  - exact E.
  - assert (Hu : w' = snd updated).
    { unfold updated. now rewrite E. }
    rewrite Hu in *. exists c'.
    split; [exact Hf |]. split; [exact Hp |]. split; [exact Hw |].
    apply Hlogin; [| reflexivity].
    vm_compute in Hf. injection Hf as <-. reflexivity.
Defined.

Lemma registerClient_response_unredacted_witness :
  exists resp doc,
    fst registered = Ok resp
    /\ status resp = 201
    /\ data (json resp) = DClient doc
    /\ get_key "otp" doc = Some (JStr "123456")
    /\ In (Sms "+14155550100" "123456") (outbox registered_world)
    /\ get_key "otpExpires" doc = Some (JNum 1300000)
    /\ get_key "password" doc = Some (JStr "9s3cret")
    /\ get_key "verificationToken" doc
       = Some (JStr "email-secret||asha@example.org|||1000|87400").
Proof.
  destruct (registerClient (H := libs) env register_inputs
              (request register_body) empty_world)
    as [[resp | f] w'] eqn:E; [| vm_compute in E; discriminate E].
  destruct (registerClient_response_unredacted (H := libs) env register_inputs
              (request register_body) empty_world w' resp E)
    as (Hs & _ & doc & Hd & Hdoc & Ho & Hsms & He & Hp & Hv).
  assert (Hw : w' = registered_world).
  { unfold registered_world, registered. now rewrite E. }
  rewrite Hw in Hsms.
  exists resp, doc.
  split; [unfold registered; now rewrite E |].
  repeat split; assumption.
Defined.

(** ** Registration, verification and the issued tokens *)

Lemma registerClient_refused_witness :
  registerClient (H := libs) env second_inputs (request incomplete_body)
    registered_world
  = (Throw (ApiError 400 "All fields are required"), registered_world)
  /\ registerClient (H := libs) env second_inputs (request nameless_body)
       registered_world
     = (Throw (ApiError 400 "All fields are required"), registered_world)
  /\ registerClient (H := libs) env second_inputs
       (request (mkBody (Some "Asha B") (Some "other@example.org")
                   (Some (" +14155550100" ++ no_break_space)) (Some "pw")
                   (Some (age_number 52)) (Some "Male") None None None))
       registered_world
     = (Throw (ApiError 400 "Email or phone already exists"), registered_world).
Proof.
  split; [| split].
  - apply (proj1 (registerClient_refused (H := libs) env second_inputs
                    (request incomplete_body) registered_world)).
    reflexivity.
  - apply (proj1 (registerClient_refused (H := libs) env second_inputs
                    (request nameless_body) registered_world)).
    reflexivity.
  - apply (proj2 (registerClient_refused (H := libs) env second_inputs _
                    registered_world)
             "other@example.org" (" +14155550100" ++ no_break_space)
             asha_registered);
      try reflexivity.
    + vm_compute. left. reflexivity.
    + right. reflexivity.
Defined.

Lemma registerClient_outcome_witness :
  registerClient (H := libs) env second_inputs (request invalid_body)
    verified_world
  = (Throw (ApiError 500 "Could not create client"),
     mkWorld (db verified_world)
       (outbox verified_world ++ otp_messages env second_inputs invalid_body))
  /\ registerClient (H := libs) env second_inputs (request ageless_body)
       verified_world
     = (Throw (ApiError 500 "Could not create client"),
        mkWorld (db verified_world)
          (outbox verified_world ++ otp_messages env second_inputs ageless_body))
  /\ (exists resp c',
         registerClient (H := libs) env second_inputs (request second_body)
           verified_world = (Ok resp, two_clients)
         /\ db two_clients = (db verified_world ++ [c'])%list
         /\ (forall x, In x (db verified_world) -> _id x <> _id c')
         /\ verified c' = false
         /\ email c' = "bala@example.org"
         /\ age c' = 41
         /\ password c' = hash "pa55word" 13
         /\ otp c' = Val "754321"
         /\ otpExpires c' = Val 1400000).
Proof.
  split; [| split].
  - apply (proj1 (registerClient_outcome (H := libs) env second_inputs
                    (request invalid_body) verified_world eq_refl eq_refl)).
    left. reflexivity.
  - apply (proj1 (registerClient_outcome (H := libs) env second_inputs
                    (request ageless_body) verified_world eq_refl eq_refl)).
    right. right. reflexivity.
  - destruct (proj2 (registerClient_outcome (H := libs) env second_inputs
                       (request second_body) verified_world eq_refl eq_refl)
                41 eq_refl eq_refl eq_refl)
      as (resp & w' & c' & E & Hdb & _ & Hfresh & Hv & _ & He & _ & Ha & Hpw
          & Ho & Hx).
    assert (Hw : w' = two_clients) by (unfold two_clients; now rewrite E).
    rewrite Hw in *.
    exists resp, c'. repeat split; auto.
Defined.

Lemma otp_verification_accepts_witness :
  (exists resp s w',
      verifyEmail (H := libs) (at_clock 1300000) (request verify_email_body)
        registered_world = (Ok resp, w')
      /\ findById 1%nat (db w') = Some s
      /\ verified s = true /\ otp s = Unset /\ otpExpires s = Unset)
  /\ (exists resp s w',
         verifyOtp (H := libs) env (at_clock 1300000) (request verify_body)
           registered_world = (Ok resp, w')
         /\ findById 1%nat (db w') = Some s
         /\ verified s = true /\ otp s = Null /\ otpExpires s = Null)
  /\ verifyEmail (H := libs) (at_clock 1300000) (request verify_email_body)
       legacy_world
     = (Throw ValidationError, legacy_world)
  /\ verifyOtp (H := libs) env (at_clock 1300000) (request verify_body)
       legacy_world
     = (Throw ValidationError, legacy_world).
Proof.
  pose (asha0 := asha_registered).
  assert (Hcode : "123456" <> "") by discriminate.
  split; [| split; [| split]].
  - destruct (otp_verification_accepts (H := libs) env (at_clock 1300000)
                (request verify_email_body) registered_world asha0 "123456"
                1300000) as [T _];
      try reflexivity; [discriminate |].
    destruct (proj1 (T eq_refl eq_refl) eq_refl)
      as (resp & s & w' & E & _ & _ & Hf & Hs & _).
    exists resp, s, w'.
    split; [exact E |]. split; [exact Hf |].
    change (verified (set_updatedAt (updatedAt asha0) s) = true
            /\ otp (set_updatedAt (updatedAt asha0) s) = Unset
            /\ otpExpires (set_updatedAt (updatedAt asha0) s) = Unset).
    rewrite Hs. repeat split.
  - destruct (otp_verification_accepts (H := libs) env (at_clock 1300000)
                (request verify_body) registered_world asha0 "123456"
                1300000) as [_ T];
      try reflexivity; [discriminate |].
    destruct (proj1 (T eq_refl) eq_refl) as (resp & s & w' & E & _ & Hf & Hs & _).
    exists resp, s, w'.
    split; [exact E |]. split; [exact Hf |].
    change (verified (set_updatedAt (updatedAt asha0) s) = true
            /\ otp (set_updatedAt (updatedAt asha0) s) = Null
            /\ otpExpires (set_updatedAt (updatedAt asha0) s) = Null).
    rewrite Hs. repeat split.
  - apply (proj2 (proj1 (otp_verification_accepts (H := libs) env
                           (at_clock 1300000) (request verify_email_body)
                           legacy_world legacy "123456" 1300000
                           eq_refl Hcode eq_refl eq_refl eq_refl (Z.le_refl _))
                    eq_refl eq_refl)).
    reflexivity.
  - apply (proj2 (proj2 (otp_verification_accepts (H := libs) env
                           (at_clock 1300000) (request verify_body)
                           legacy_world legacy "123456" 1300000
                           eq_refl Hcode eq_refl eq_refl eq_refl (Z.le_refl _))
                    eq_refl)).
    reflexivity.
Defined.

Lemma registration_lifecycle_witness :
  loginClient (H := libs) env (at_clock 1030000) (request login_body)
    registered_world
  = (Throw (ApiError 401 "Please verify your email first"), registered_world)
  /\ (exists vresp w2 lresp w3,
         verifyEmail (H := libs) (at_clock 1300000) (request verify_email_body)
           registered_world = (Ok vresp, w2)
         /\ loginClient (H := libs) env (at_clock 1310000) (request login_body) w2
            = (Ok lresp, w3)
         /\ status lresp = 200).
Proof.
  destruct (registerClient (H := libs) env register_inputs (request register_body)
              empty_world) as [[resp | f] w1] eqn:E;
    [| vm_compute in E; discriminate E].
  assert (Hw : w1 = registered_world).
  { unfold registered_world, registered. now rewrite E. }
  destruct (registration_lifecycle (H := libs) env register_inputs
              (request register_body) empty_world w1 resp "asha@example.org"
              "s3cret" (request login_body) E eq_refl eq_refl) as [Hl Hv];
    try reflexivity.
  { intros s salt. simpl. apply String.eqb_refl. }
  rewrite Hw in *.
  split; [apply Hl |].
  destruct (Hv (at_clock 1300000) (request verify_email_body) eq_refl eq_refl)
    as (vresp & w2 & Ev & Hlogin); [vm_compute; discriminate |].
  destruct (Hlogin (at_clock 1310000)) as (lresp & w3 & El & Hs).
  exists vresp, w2, lresp, w3. auto.
Defined.

Lemma generateAccessRefreshTokens_effect_witness :
  generateAccessRefreshTokens (H := libs) env (at_clock 1120000) None
    verified_world
  = (Throw (ApiError 400 "Client ID is required"), verified_world)
  /\ generateAccessRefreshTokens (H := libs) env (at_clock 1120000) (Some 7%nat)
       verified_world
     = (Throw (ApiError 400 "No client found with that ID"), verified_world)
  /\ (exists accessToken issued c' w',
         generateAccessRefreshTokens (H := libs) env (at_clock 1120000)
           (Some 1%nat) verified_world = (Ok (accessToken, issued), w')
         /\ findById 1%nat (db w') = Some c'
         /\ refreshToken c' = Val issued
         /\ verified c' = true /\ otp c' = Null).
Proof.
  split; [| split].
  - apply (proj1 (generateAccessRefreshTokens_effect (H := libs) env
                    (at_clock 1120000) 7%nat verified_world)).
  - apply (proj1 (proj2 (generateAccessRefreshTokens_effect (H := libs) env
                           (at_clock 1120000) 7%nat verified_world))).
    reflexivity.
  - destruct (proj2 (proj2 (generateAccessRefreshTokens_effect (H := libs) env
                              (at_clock 1120000) 1%nat verified_world))
                asha_verified eq_refl)
      as (a & r & c' & w' & E & Hf & Hs & _).
    exists a, r, c', w'.
    split; [exact E |]. split; [exact Hf |].
    change (refreshToken (set_updatedAt (updatedAt asha_verified) c') = Val r
            /\ verified (set_updatedAt (updatedAt asha_verified) c') = true
            /\ otp (set_updatedAt (updatedAt asha_verified) c') = Null).
    rewrite Hs. repeat split.
Defined.

Lemma login_then_refresh_witness :
  exists resp w1,
    loginClient (H := libs) env (at_clock 1120000) (request login_body)
      verified_world = (Ok resp, w1)
    /\ (exists resp' w2,
           refreshAccessToken (H := libs) env (at_clock 865119999)
             (refresh_request login_token) w1 = (Ok resp', w2)
           /\ status resp' = 200)
    /\ refreshAccessToken (H := libs) env (at_clock 865120000)
         (refresh_request login_token) w1
       = (Throw TokenExpiredError, w1).
Proof.
  destruct (loginClient (H := libs) env (at_clock 1120000) (request login_body)
              verified_world) as [[resp | f] w1] eqn:E;
    [| vm_compute in E; discriminate E].
  assert (Hck : exists a, cookies resp = token_cookies a login_token).
  { pose proof E as E'. vm_compute in E'. injection E' as <- _.
    eexists. reflexivity. }
  destruct Hck as [a Hck].
  assert (Hdec : forall client,
             findOne_email (body_email (body (request login_body)))
               (db verified_world) = Some client ->
             jwt_decode (Libs := libs) login_token (REFRESH_TOKEN_SECRET env)
             = Some (mkClaims (mkPayload (Some (_id client)) None None None)
                       (now (at_clock 1120000) / 1000)
                       (now (at_clock 1120000) / 1000
                        + REFRESH_TOKEN_EXPIRY env))).
  { intros client Hf. vm_compute in Hf. injection Hf as <-. reflexivity. }
  assert (Hne : login_token <> "") by discriminate.
  pose proof (login_then_refresh (H := libs) env (at_clock 1120000)
                (request login_body) verified_world w1 resp a login_token
                E Hck Hne Hdec) as T.
  exists resp, w1. split; [reflexivity |]. split.
  - apply (proj1 (T (at_clock 865119999) (refresh_request login_token) eq_refl)).
    vm_compute. reflexivity.
  - apply (proj2 (T (at_clock 865120000) (refresh_request login_token) eq_refl)).
    vm_compute. discriminate.
Defined.

Lemma logoutClient_revokes_witness :
  (exists w',
      logoutClient (at_clock 1300000) logout_request two_clients
      = (Ok (mkResponse 200 [] ["accessToken"; "refreshToken"]
               (mkApiResponse 200 DEmpty (Some "Client logged out successfully"))),
         w')
      /\ findById 1%nat (db w')
         = Some (set_updatedAt 1300000 (set_refreshToken Null asha_verified))
      /\ findById 2%nat (db w') = Some bala_registered
      /\ (exists msg,
             refreshAccessToken (H := libs) env (at_clock 1310000)
               (refresh_request stored_token) w'
             = (Throw (ApiError 401 msg), w'))
      /\ refreshAccessToken (H := libs) env (at_clock 865000000)
           (refresh_request stored_token) w'
         = (Throw TokenExpiredError, w'))
  /\ logoutClient (at_clock 1300000) (lookup_request None 9%nat) two_clients
     = (Ok (mkResponse 200 [] ["accessToken"; "refreshToken"]
              (mkApiResponse 200 DEmpty (Some "Client logged out successfully"))),
        two_clients).
Proof.
  pose (claims := mkClaims (mkPayload (Some 1%nat) None None None) 1000 865000).
  split.
  - destruct (logoutClient_revokes (H := libs) env (at_clock 1300000)
                logout_request two_clients)
      as (w' & E & _ & _ & Hsome & Hframe & Hrev).
    exists w'. split; [exact E |].
    split; [apply (Hsome asha_verified); reflexivity |].
    split; [rewrite (Hframe 2%nat); [reflexivity | discriminate] |].
    split.
    + apply (proj1 (Hrev (at_clock 1310000) (refresh_request stored_token)
                      stored_token claims eq_refl eq_refl eq_refl)).
      vm_compute. reflexivity.
    + apply (proj2 (Hrev (at_clock 865000000) (refresh_request stored_token)
                      stored_token claims eq_refl eq_refl eq_refl)).
      * vm_compute. discriminate.
      * discriminate.
  - destruct (logoutClient_revokes (H := libs) env (at_clock 1300000)
                (lookup_request None 9%nat) two_clients)
      as (w' & E & _ & Hnone & _).
    rewrite (Hnone eq_refl) in E. exact E.
Defined.

Lemma refreshAccessToken_unverifiable_witness :
  refreshAccessToken (H := libs) env (at_clock 1120000)
    (refresh_request "not-a-token") verified_world
  = (Throw JsonWebTokenError, verified_world)
  /\ refreshAccessToken (H := libs) env (at_clock 865000000)
       (refresh_request stored_token) verified_world
     = (Throw TokenExpiredError, verified_world).
Proof.
  split.
  - apply (proj1 (refreshAccessToken_unverifiable (H := libs) env
                    (at_clock 1120000) (refresh_request "not-a-token")
                    verified_world "not-a-token" eq_refl
                    ltac:(discriminate))).
    reflexivity.
  - apply (proj2 (refreshAccessToken_unverifiable (H := libs) env
                    (at_clock 865000000) (refresh_request stored_token)
                    verified_world stored_token eq_refl ltac:(discriminate))
             (mkClaims (mkPayload (Some 1%nat) None None None) 1000 865000)).
    + reflexivity.
    + vm_compute. discriminate.
Defined.

Lemma client_lookups_witness :
  getClientById (at_clock 1300000) (lookup_request None 1%nat) two_clients
  = (Throw (ApiError 400 "Client ID is required"), two_clients)
  /\ getClientById (at_clock 1300000) (lookup_request (Some 7%nat) 1%nat)
       two_clients
     = (Throw (ApiError 404 "Client not found"), two_clients)
  /\ (exists doc,
         getClientById (at_clock 1300000) (lookup_request (Some 2%nat) 1%nat)
           two_clients
         = (Ok (mkResponse 200 [] []
                  (mkApiResponse 200 (DClient doc)
                     (Some "Client retrieved successfully"))), two_clients)
         /\ get_key "email" doc = Some (JStr "bala@example.org")
         /\ has_key "verificationToken" doc = false)
  /\ getCurrentClient (at_clock 1300000) (lookup_request None 9%nat) two_clients
     = (Ok (mkResponse 200 [] []
              (mkApiResponse 200 DNull (Some "Current Client Data"))),
        two_clients)
  /\ (exists doc,
         getCurrentClient (at_clock 1300000) (lookup_request None 2%nat)
           two_clients
         = (Ok (mkResponse 200 [] []
                  (mkApiResponse 200 (DClient doc) (Some "Current Client Data"))),
            two_clients)
         /\ has_key "verificationToken" doc = true).
Proof.
  pose (i := at_clock 1300000).
  split; [| split; [| split; [| split]]].
  - apply (proj1 (client_lookups i (lookup_request None 1%nat) two_clients)).
    reflexivity.
  - apply (proj1 (proj2 (client_lookups i (lookup_request (Some 7%nat) 1%nat)
                           two_clients)) 7%nat); reflexivity.
  - destruct (proj1 (proj2 (proj2 (client_lookups i
                                     (lookup_request (Some 2%nat) 1%nat)
                                     two_clients)))
                2%nat bala_registered eq_refl eq_refl)
      as (doc & E & _ & He & Hv).
    exists doc. auto.
  - apply (proj1 (proj2 (proj2 (proj2 (client_lookups i
                                         (lookup_request None 9%nat)
                                         two_clients))))).
    reflexivity.
  - destruct (proj2 (proj2 (proj2 (proj2 (client_lookups i
                                            (lookup_request None 2%nat)
                                            two_clients))))
                bala_registered eq_refl)
      as (doc & E & _ & _ & Hv).
    exists doc. auto.
Defined.

(** ** Listings *)

Lemma getAllClients_filter_witness :
  exists resp pg,
    getAllClients (at_clock 1300000) (listing not_verified) two_clients
    = (Ok resp, two_clients)
    /\ data (json resp) = DClients [public_doc bala_registered] pg
    /\ totalClients pg = 1
    /\ forall c, In c (page_of not_verified (db two_clients)) ->
                 In c (db two_clients) /\ verified c = false.
Proof.
  destruct (getAllClients (at_clock 1300000) (listing not_verified) two_clients)
    as [[resp | f] w'] eqn:E; [| vm_compute in E; discriminate E].
  destruct (getAllClients_filter (at_clock 1300000) (listing not_verified)
              two_clients w' resp E) as (Hw & pg & Hd & Hpage & Ht & _).
  rewrite Hw. exists resp, pg.
  split; [reflexivity |]. split; [rewrite Hd; reflexivity |].
  split; [rewrite Ht; reflexivity |].
  intros c Hin. destruct (Hpage c Hin) as (Hdb & Hv & _).
  split; [exact Hdb |]. apply (Hv "yes"). reflexivity.
Defined.


Lemma getAllClients_page_size_witness :
  exists resp docs pg tp,
    getAllClients (at_clock 5) page_two clinic = (Ok resp, clinic)
    /\ data (json resp) = DClients docs pg
    /\ totalPages pg = Fin tp
    /\ Z.of_nat (List.length docs)
       = Z.min 10 (Z.max 0 (totalClients pg - (2 - 1) * 10))
    /\ (2 <= tp -> docs <> [])
    /\ (2 < tp -> Z.of_nat (List.length docs) = 10)
    /\ (tp < 2 -> docs = [] /\ hasNextPage pg = false).
Proof.
  apply (getAllClients_page_size (at_clock 5) page_two clinic 2 10);
    [reflexivity | reflexivity | lia | lia].
Defined.

Lemma getAllClients_limit_zero_witness :
  exists resp docs pg,
    getAllClients (at_clock 5) (listing no_limit) clinic = (Ok resp, clinic)
    /\ data (json resp) = DClients docs pg
    /\ List.length docs = 25%nat
    /\ totalPages pg = (if totalClients pg =? 0 then NaN else Infinity)
    /\ hasNextPage pg = negb (totalClients pg =? 0).
Proof.
  destruct (getAllClients_limit_zero (at_clock 5) (listing no_limit) clinic
              eq_refl) as (resp & docs & pg & E & Hd & Hl & Ht & Hn).
  exists resp, docs, pg.
  split; [exact E |]. split; [exact Hd |].
  split; [rewrite Hl; reflexivity |]. auto.
Defined.

(** ** Profile updates, the unique keys and the one-time code *)

Lemma updateClient_keeps_witness :
  exists resp w' saved,
    updateClient (H := libs) (at_clock 1300000) profile_request two_clients
    = (Ok resp, w')
    /\ findById 1%nat (db w') = Some saved
    /\ name saved = "Asha M"
    /\ verified saved = true
    /\ refreshToken saved = Val stored_token
    /\ otp saved = Null
    /\ password saved = "9s3cret"
    /\ findById 2%nat (db w') = Some bala_registered.
Proof.
  destruct (updateClient (H := libs) (at_clock 1300000) profile_request
              two_clients) as [[resp | f] w'] eqn:E;
    [| vm_compute in E; discriminate E].
  destruct (updateClient_keeps (H := libs) (at_clock 1300000) profile_request
              two_clients w' resp E)
    as (client & saved & Hc & Hs & _ & Hv & Hr & Ho & _ & _ & _ & Hn & _ & _
        & _ & Hpw & _ & Hframe).
  vm_compute in Hc. injection Hc as <-.
  exists resp, w', saved.
  split; [reflexivity |]. split; [exact Hs |].
  split; [rewrite Hn; reflexivity |].
  split; [exact Hv |]. split; [exact Hr |]. split; [exact Ho |].
  split; [apply (Hpw eq_refl) |].
  rewrite (Hframe 2%nat); [reflexivity | discriminate].
Defined.

Lemma updateClient_refused_witness :
  updateClient (H := libs) (at_clock 1300000) (update_with profile_body 9%nat)
    two_clients
  = (Throw (ApiError 404 "Client not found"), two_clients)
  /\ updateClient (H := libs) (at_clock 1300000) (update_with taken_body 1%nat)
       two_clients
     = (Throw (ApiError 400 "Email or phone already in use"), two_clients)
  /\ updateClient (H := libs) (at_clock 1300000)
       (update_with taken_nameless_body 1%nat) two_clients
     = (Throw (ApiError 400 "Email or phone already in use"), two_clients)
  /\ updateClient (H := libs) (at_clock 1300000) (update_with partial_body 1%nat)
       two_clients
     = (Throw ValidationError, two_clients).
Proof.
  pose (i := at_clock 1300000).
  split; [| split; [| split]].
  - apply (proj1 (updateClient_refused (H := libs) i
                    (update_with profile_body 9%nat) two_clients)).
    reflexivity.
  - apply (proj1 (proj2 (updateClient_refused (H := libs) i
                           (update_with taken_body 1%nat) two_clients))
             asha_verified "bala@example.org" "+14155550100" bala_registered);
      try reflexivity.
    + left. discriminate.
    + vm_compute. right. left. reflexivity.
    + discriminate.
    + left. reflexivity.
  - apply (proj1 (proj2 (updateClient_refused (H := libs) i
                           (update_with taken_nameless_body 1%nat) two_clients))
             asha_verified ("bala@example.org" ++ no_break_space) "+14155550100"
             bala_registered);
      try reflexivity.
    + left. discriminate.
    + vm_compute. right. left. reflexivity.
    + discriminate.
    + left. reflexivity.
  - apply (proj2 (proj2 (updateClient_refused (H := libs) i
                           (update_with partial_body 1%nat) two_clients))
             asha_verified); reflexivity.
Defined.

Lemma updateClient_response_unredacted_witness :
  exists resp w' saved doc,
    updateClient (H := libs) (at_clock 1200000) update_request verified_world
    = (Ok resp, w')
    /\ findById 1%nat (db w') = Some saved
    /\ data (json resp) = DClient doc
    /\ get_key "password" doc = Some (JStr (password saved))
    /\ get_key "refreshToken" doc = Some (JStr stored_token).
Proof.
  destruct (updateClient (H := libs) (at_clock 1200000) update_request
              verified_world) as [[resp | f] w'] eqn:E;
    [| vm_compute in E; discriminate E].
  destruct (updateClient_response_unredacted (H := libs) (at_clock 1200000)
              update_request verified_world w' resp E)
    as (saved & doc & Hf & _ & Hd & _ & Hpw & Hrt).
  exists resp, w', saved, doc.
  split; [reflexivity |]. split; [exact Hf |]. split; [exact Hd |].
  split; [exact Hpw |].
  apply Hrt.
  pose proof E as E'. vm_compute in E'. injection E' as _ <-.
  vm_compute in Hf. injection Hf as <-. reflexivity.
Defined.

Lemma unique_keys_kept_witness :
  unique_keys (db two_clients)
  /\ unique_keys
       (db (snd (handle (H := libs) env Update (at_clock 1300000)
                   (update_with taken_body 1%nat) two_clients))).
Proof.
  assert (U : unique_keys (db two_clients)).
  { apply (unique_keys_kept (H := libs) env Register second_inputs
             (request second_body) verified_world).
    vm_compute. repeat split; repeat constructor; simpl; tauto. }
  split; [exact U |].
  apply (unique_keys_kept (H := libs) env Update). exact U.
Defined.

Lemma generateOTP_six_digits_witness :
  String.length (generateOTP register_inputs) = 6%nat
  /\ all_digits (generateOTP register_inputs) = true
  /\ String.get 0 (generateOTP register_inputs) <> Some "0"%char
  /\ forall j, 0 <= otp_draw j < 900000 ->
               generateOTP j = generateOTP register_inputs ->
               otp_draw j = otp_draw register_inputs.
Proof.
  apply (generateOTP_six_digits register_inputs). simpl. lia.
Defined.
